(** * QR scavenger hunt backend: scan recording, class progress and prize drawing

    A shallow embedding of the request handlers [recordScan],
    [getScansByClass] and [getScansByStation] (scan controller),
    [getClassProgress] (class controller), [runDrawing],
    [getEligibleClassesForDrawing], [getDrawing] and [getDrawings] (drawing
    controller), of the middleware [protect] and [authorize] and of the
    routes that chain them, over an explicit model of the document store
    they talk to.

    Conventions.
    - Document ids (ObjectId values and their string form) are strings; a
      collection indexed by its primary key [_id] is a [gmap Id doc], so a
      key identifies one document.
    - A JavaScript [Date] is its [getTime()] value, an integer number of
      milliseconds; an absent date is [None].
    - JavaScript numbers that are computed with (the weighting factors, the
      ticket weight, the progress percentage) are IEEE 754 binary64 values
      with the arithmetic of the standard; counts of documents and
      millisecond time stamps are integers, and elapsed minutes, of which
      the handlers test the sign or which they return, are the exact
      quotients.
    - The handlers run one at a time against the store; the only store
      failure that is modelled is the one the handlers catch themselves, a
      failing [classObj.save()]. *)

From Stdlib Require Import ZArith QArith Qround Lqa Sorted SpecFloat.
From stdpp Require Import gmap strings list fin_maps fin_sets sorting.

Abbreviation Id := string.

(** ** JavaScript numbers *)

Module Number.

(** A number is a binary64 floating-point value: a signed zero, a signed
    infinity, NaN, or a finite value [(-1)^s * m * 2^e]. *)
Definition t : Type := spec_float.

Definition prec : Z := 53.
Definition emax : Z := 1024.

(** The number nearest to an integer (the integer itself below [2^53]). *)
Definition ofZ (z : Z) : t := binary_normalize prec emax z 0 false.
Definition ofNat (n : nat) : t := ofZ (Z.of_nat n).

Definition zero : t := S754_zero false.
Definition one : t := ofZ 1.

(** [x + y], [x * y] and [x / y], rounded to nearest, ties to even. *)
Definition add : t → t → t := SFadd prec emax.
Definition mul : t → t → t := SFmul prec emax.
Definition div : t → t → t := SFdiv prec emax.

(** [Number.isFinite(x)] *)
Definition isFinite (x : t) : bool :=
  match x with
  | S754_zero _ | S754_finite _ _ _ => true
  | S754_infinity _ | S754_nan => false
  end.

(** A number is truthy unless it is [0], [-0] or [NaN]. *)
Definition truthy (x : t) : bool :=
  match x with
  | S754_zero _ | S754_nan => false
  | S754_infinity _ | S754_finite _ _ _ => true
  end.

(** The rational that a finite number stands for (0 for the others). *)
Definition toQ (x : t) : Q :=
  match x with
  | S754_finite s m e =>
    let magnitude : Q :=
      match e with
      | Z0 => inject_Z (Zpos m)
      | Zpos p => inject_Z (Zpos m * Z.pow_pos 2 p)
      | Zneg p => Zpos m # Pos.pow 2 p
      end in
    if s then Qopp magnitude else magnitude
  | S754_zero _ | S754_infinity _ | S754_nan => 0%Q
  end.

End Number.

(** ** Models *)

Module Station.
(** A station ([StationSchema]) has a unique identifier (the key of its
    collection), a name and an active flag; its description, location,
    order and time stamps play no part in the handlers' decisions. *)
Record t := { name : string; isActive : bool }.
End Station.

Module Teacher.
Record t := { _id : Id; name : string; email : string }.
End Teacher.

Module Class.
Record t := {
  name : string;
  teacher : Teacher.t;
  registeredAt : option Z;
  isActive : bool;
  stationsScanned : list Id;
  isCompleted : bool;
  lastScanAt : option Z;
  completedAt : option Z
}.

Definition set_stationsScanned (v : list Id) (c : t) : t :=
  {| name := name c; teacher := teacher c; registeredAt := registeredAt c;
     isActive := isActive c; stationsScanned := v;
     isCompleted := isCompleted c; lastScanAt := lastScanAt c;
     completedAt := completedAt c |}.

Definition set_lastScanAt (v : option Z) (c : t) : t :=
  {| name := name c; teacher := teacher c; registeredAt := registeredAt c;
     isActive := isActive c; stationsScanned := stationsScanned c;
     isCompleted := isCompleted c; lastScanAt := v;
     completedAt := completedAt c |}.

Definition set_isCompleted (v : bool) (c : t) : t :=
  {| name := name c; teacher := teacher c; registeredAt := registeredAt c;
     isActive := isActive c; stationsScanned := stationsScanned c;
     isCompleted := v; lastScanAt := lastScanAt c;
     completedAt := completedAt c |}.

Definition set_completedAt (v : option Z) (c : t) : t :=
  {| name := name c; teacher := teacher c; registeredAt := registeredAt c;
     isActive := isActive c; stationsScanned := stationsScanned c;
     isCompleted := isCompleted c; lastScanAt := lastScanAt c;
     completedAt := v |}.
End Class.

Module Scan.
(** ScanSchema: [classId], [stationId], [scannedAt] (default [Date.now]). *)
Record t := { classId : Id; stationId : Id; scannedAt : Z }.
End Scan.

Module Drawing.
Inductive Status := pending | completed.

Record Winner := { class : Id; prize : string; notified : bool }.

Record WeightingFactors := {
  completionTime : option Number.t;
  stationsFound : option Number.t
}.

Record t := {
  name : string;
  eligibleClasses : list Id;
  winners : list Winner;
  weightingFactors : option WeightingFactors;
  status : Status
}.

Definition set_eligibleClasses (v : list Id) (d : t) : t :=
  {| name := name d; eligibleClasses := v; winners := winners d;
     weightingFactors := weightingFactors d; status := status d |}.

Definition set_winners (v : list Winner) (d : t) : t :=
  {| name := name d; eligibleClasses := eligibleClasses d; winners := v;
     weightingFactors := weightingFactors d; status := status d |}.

Definition set_status (v : Status) (d : t) : t :=
  {| name := name d; eligibleClasses := eligibleClasses d;
     winners := winners d; weightingFactors := weightingFactors d;
     status := v |}.
End Drawing.

(** ** The document store *)

(** Collections with a primary key are maps from [_id] to the document; a
    query lists the documents in the order of the map, on which no
    statement below depends.  Scans are kept in creation order. *)
Record Store := {
  stations : gmap Id Station.t;
  classes : gmap Id Class.t;
  scans : list Scan.t;
  drawings : gmap Id Drawing.t
}.

Module Db.
(** [Station.find({ isActive: true })] *)
Definition Station_find_active (db : Store) : list (Id * Station.t) :=
  filter (λ kv, Station.isActive kv.2 = true) (map_to_list (stations db)).

(** [Station.countDocuments({ isActive: true })] *)
Definition Station_countDocuments_active (db : Store) : nat :=
  length (Station_find_active db).

(** [Class.find({ isActive: true })] *)
Definition Class_find_active (db : Store) : list (Id * Class.t) :=
  filter (λ kv, Class.isActive kv.2 = true) (map_to_list (classes db)).

Definition scan_matches (classId stationId : Id) (s : Scan.t) : bool :=
  bool_decide (Scan.classId s = classId) &&
  bool_decide (Scan.stationId s = stationId).

(** [Scan.findOne({ classId, stationId })] *)
Definition Scan_findOne (db : Store) (classId stationId : Id) : option Scan.t :=
  find (scan_matches classId stationId) (scans db).

(** [Scan.countDocuments({ classId })] *)
Definition Scan_countDocuments (db : Store) (classId : Id) : nat :=
  length (filter (λ s, Scan.classId s = classId) (scans db)).

(** [Scan.create(doc)] *)
Definition Scan_create (s : Scan.t) (db : Store) : Store :=
  {| stations := stations db; classes := classes db;
     scans := scans db ++ [s]; drawings := drawings db |}.

(** [classObj.save()] for the class document with primary key [id]. *)
Definition Class_save (id : Id) (c : Class.t) (db : Store) : Store :=
  {| stations := stations db; classes := <[id := c]> (classes db);
     scans := scans db; drawings := drawings db |}.

(** [drawing.save()] for the drawing document with primary key [id]. *)
Definition Drawing_save (id : Id) (d : Drawing.t) (db : Store) : Store :=
  {| stations := stations db; classes := classes db;
     scans := scans db; drawings := <[id := d]> (drawings db) |}.
End Db.

(** The double-quote character used in response messages. *)
Definition dquote : string := String (Ascii.ascii_of_nat 34) EmptyString.

(** A request-body string field is falsy when it is missing or empty. *)
Definition truthy_string (s : option string) : option string :=
  match s with
  | Some EmptyString => None
  | other => other
  end.

(** ** Scan controller *)

Module ScanController.

Record ScanInput := {
  classId : option Id;
  stationQRCode : option Id
}.

Record StationData := { _id : Id; name : string }.

Record Body := {
  success : bool;
  message : string;
  stationData : StationData;
  existing : bool
}.

Inductive Response :=
  | ErrorResponse (message : string) (statusCode : nat)
  | json (status : nat) (body : Body).

Definition statusOf (r : Response) : nat :=
  match r with
  | ErrorResponse _ code => code
  | json code _ => code
  end.

(** The block of [recordScan] that adds the scanned station to
    [stationsScanned] unless the list already includes it. *)
Definition addStationScanned (stationId : Id) (classObj : Class.t) : Class.t :=
  if bool_decide (stationId ∈ Class.stationsScanned classObj) then classObj
  else Class.set_stationsScanned
         (Class.stationsScanned classObj ++ [stationId]) classObj.

(** The hunt-completion block of [recordScan]: runs after the scanned
    station was added to [stationsScanned]; [totalActiveStations] is the
    count the handler reads at that point and [now] the clock reading of
    [completedAt = new Date()]. *)
Definition checkCompletion (totalActiveStations : nat) (now : Z)
    (classObj : Class.t) : Class.t :=
  if negb (Class.isCompleted classObj) then
    if (totalActiveStations <=? length (Class.stationsScanned classObj))
       && (0 <? totalActiveStations)
    then Class.set_completedAt (Some now) (Class.set_isCompleted true classObj)
    else if (totalActiveStations =? 0)
            && (length (Class.stationsScanned classObj) =? 0)
    then Class.set_completedAt (Some now) (Class.set_isCompleted true classObj)
    else classObj
  else classObj.

(** The stale-timestamp test of the repeat-scan path:
    [!oldLastScanAt || oldLastScanAt !== classObj.lastScanAt.getTime()]. *)
Definition lastScanAt_changed (oldLastScanAt : option Z) (now : Z) : bool :=
  match oldLastScanAt with
  | None => true
  | Some t => (t =? 0)%Z || negb (t =? now)%Z
  end.

(** [recordScan].  [clock k] is the value of the handler's [k]-th clock
    reading; [saveOk] tells whether [classObj.save()] succeeds (a failure
    is caught and logged by the handler). *)
Definition recordScan (clock : nat → Z) (saveOk : bool) (req : ScanInput)
    (db : Store) : Response * Store :=
  match truthy_string (classId req), truthy_string (stationQRCode req) with
  | Some classId, Some stationQRCode =>
    match stations db !! stationQRCode with
    | None =>
      (ErrorResponse ("Station with ID " +:+ stationQRCode +:+ " not found") 404, db)
    | Some station =>
      if negb (Station.isActive station) then
        (ErrorResponse ("Station " +:+ Station.name station +:+ " is not active") 400, db)
      else
        match classes db !! classId with
        | None =>
          (ErrorResponse ("Class with ID " +:+ classId +:+ " not found") 404, db)
        | Some classObj =>
          if negb (Class.isActive classObj) then
            (ErrorResponse ("Class " +:+ Class.name classObj +:+ " is not active") 400, db)
          else
            let stationData :=
              {| _id := stationQRCode; name := Station.name station |} in
            match Db.Scan_findOne db classId stationQRCode with
            | Some existingScan =>
              let oldLastScanAt := Class.lastScanAt classObj in
              let now := clock 0 in
              let classObj := Class.set_lastScanAt (Some now) classObj in
              let db :=
                if lastScanAt_changed oldLastScanAt now && saveOk
                then Db.Class_save classId classObj db
                else db in
              (json 200
                 {| success := true;
                    message := "Station " +:+ dquote +:+ Station.name station
                               +:+ dquote +:+ " has already been scanned by class "
                               +:+ Class.name classObj +:+ ".";
                    stationData := stationData;
                    existing := true |}, db)
            | None =>
              let db :=
                Db.Scan_create
                  {| Scan.classId := classId;
                     Scan.stationId := stationQRCode;
                     Scan.scannedAt := clock 0 |} db in
              let classObj := addStationScanned stationQRCode classObj in
              let classObj := Class.set_lastScanAt (Some (clock 1)) classObj in
              let classObj :=
                checkCompletion (Db.Station_countDocuments_active db)
                  (clock 2) classObj in
              let db :=
                if saveOk then Db.Class_save classId classObj db else db in
              (json 201
                 {| success := true;
                    message := "Scan recorded successfully for station: "
                               +:+ Station.name station +:+ "!";
                    stationData := stationData;
                    existing := false |}, db)
            end
        end
    end
  | _, _ => (ErrorResponse "Please provide classId and stationQRCode" 400, db)
  end.

End ScanController.


(** ** JavaScript number helpers *)

(** [Math.round] of a finite number: the nearest integer, halves rounded
    up, of the value the number stands for.  [Math.round] returns an
    infinity or NaN as it is; where a handler rounds, that takes an
    overflow of the arithmetic or a stored factor that is not finite, and
    the model, whose results are integers, puts 0 in their place. *)
Definition Math_round (x : Number.t) : Z :=
  if Number.isFinite x then Qfloor (Number.toQ x + (1 # 2)) else 0%Z.

(** [Math.max(...values)]; [None] stands for [-Infinity], the result on an
    empty argument list. *)
Definition Math_max (values : list Z) : option Z :=
  match values with
  | [] => None
  | v :: vs => Some (foldr Z.max v vs)
  end.

(** A number is truthy when it is present and neither zero nor NaN. *)
Definition truthy_number (x : option Number.t) : bool :=
  match x with
  | Some q => Number.truthy q
  | None => false
  end.

(** Elapsed minutes between two [getTime()] values. *)
Definition minutes_between (startTime endTime : Z) : Q :=
  inject_Z (endTime - startTime) / inject_Z (1000 * 60).

(** [0 < x] on rationals, as a boolean. *)
Definition Qpositive (x : Q) : bool := negb (Qle_bool x 0).

(** ** Class controller *)

Module ClassController.

Record User := { id : Id; role : string }.

Record Request := { params_id : Id; user : User }.

Record Progress := {
  completedCount : nat;
  totalStations : nat;
  progressPercentage : Z;
  isCompleted : bool;
  completedAt : option Z;
  lastScanAt : option Z;
  completionTime : option Q
}.

Inductive Response :=
  | ErrorResponse (message : string) (statusCode : nat)
  | json (status : nat) (data : Progress).

Section Handlers.

(** The two fall-back counts [Scan.countDocuments({ class: id })] and
    [Scan.countDocuments({ 'class._id': id })] filter on paths that
    ScanSchema does not declare; what they return is up to the store, so
    they are parameters here. *)
Variable Scan_countDocuments_class : Id → nat.
Variable Scan_countDocuments_class_id : Id → nat.

Definition countScans (db : Store) (id : Id) : nat :=
  let scanCount := Db.Scan_countDocuments db id in
  let scanCount :=
    if scanCount =? 0 then Scan_countDocuments_class id else scanCount in
  let scanCount :=
    if scanCount =? 0 then Scan_countDocuments_class_id id else scanCount in
  scanCount.

(** [getClassProgress] (GET /api/classes/:id/progress). *)
Definition getClassProgress (req : Request) (db : Store) : Response :=
  match classes db !! params_id req with
  | None =>
    ErrorResponse ("Class not found with id of " +:+ params_id req) 404
  | Some classObj =>
    if negb (bool_decide (Teacher._id (Class.teacher classObj) = id (user req)))
       && negb (bool_decide (role (user req) = "admin"))
    then ErrorResponse "User not authorized to view this class" 403
    else
      let totalActiveStations := Db.Station_countDocuments_active db in
      let scanCount := countScans db (params_id req) in
      let completedCount :=
        if 0 <? scanCount then scanCount
        else length (Class.stationsScanned classObj) in
      let progressPercentage :=
        if 0 <? totalActiveStations
        then Math_round
               (Number.mul
                  (Number.div (Number.ofNat completedCount)
                              (Number.ofNat totalActiveStations))
                  (Number.ofZ 100))
        else 0%Z in
      let completionTime :=
        if Class.isCompleted classObj then
          match Class.completedAt classObj, Class.registeredAt classObj with
          | Some completedAt, Some registeredAt =>
            Some (minutes_between registeredAt completedAt)
          | _, _ => None
          end
        else None in
      json 200
        {| completedCount := completedCount;
           totalStations := totalActiveStations;
           progressPercentage := progressPercentage;
           isCompleted := Class.isCompleted classObj;
           completedAt := Class.completedAt classObj;
           lastScanAt := Class.lastScanAt classObj;
           completionTime := completionTime |}
  end.

End Handlers.

End ClassController.

(** ** Drawing controller *)

Module DrawingController.

(** What [runDrawing] reads of a document returned by
    [Scan.find({ class: classObj._id })]: its [station] and [scannedAt]. *)
Record ScanView := { station : Id; scannedAt : Z }.

Record RunDrawingInput := {
  numberOfWinners : option Z;
  prizeDescription : option string
}.

(** A ticket of the entry pool. *)
Record Entry := {
  classId : Id;
  className : string;
  teacherEmail : string;
  teacherName : string
}.

Inductive Response :=
  | ErrorResponse (message : string) (statusCode : nat)
  | json (status : nat) (data : Drawing.t).

(** [new Set(scans.map(s => s.station.toString()))] *)
Definition uniqueStationsScanned (scans : list ScanView) : gset Id :=
  list_to_set (station <$> scans).

(** [[...scans].sort((a, b) => a.scannedAt - b.scannedAt)]: a stable sort by
    scan time. *)
Fixpoint insertScan (s : ScanView) (sorted : list ScanView) : list ScanView :=
  match sorted with
  | [] => [s]
  | t :: rest =>
    if (scannedAt s <=? scannedAt t)%Z then s :: t :: rest
    else t :: insertScan s rest
  end.

Fixpoint sortScans (scans : list ScanView) : list ScanView :=
  match scans with
  | [] => []
  | s :: rest => insertScan s (sortScans rest)
  end.

(** The object filled by [sortedScans.forEach]: station id to the time of
    its last scan in sorted order. *)
Definition lastScanByStation (sortedScans : list ScanView) : gmap Id Z :=
  fold_left (λ acc scan, <[station scan := scannedAt scan]> acc) sortedScans ∅.

(** [Object.values(obj)] *)
Definition Object_values (obj : gmap Id Z) : list Z := (map_to_list obj).*2.

(** [(endTime - startTime) / (1000 * 60)], where [endTime] may be
    [-Infinity] ([None]). *)
Definition completionTimeMinutes (scans : list ScanView) : option Q :=
  match sortScans scans with
  | [] => None
  | first :: rest =>
    let sortedScans := first :: rest in
    let startTime := scannedAt first in
    match Math_max (Object_values (lastScanByStation sortedScans)) with
    | Some endTime => Some (minutes_between startTime endTime)
    | None => None
    end
  end.

Definition positiveMinutes (m : option Q) : bool :=
  match m with
  | Some q => Qpositive q
  | None => false
  end.

(** [drawing.weightingFactors?.stationsFound || 0] *)
Definition stationsFoundFactor (drawing : Drawing.t) : Number.t :=
  match Drawing.weightingFactors drawing ≫= Drawing.stationsFound with
  | Some q => if Number.truthy q then q else Number.zero
  | None => Number.zero
  end.

(** [drawing.weightingFactors?.completionTime] *)
Definition completionTimeFactor (drawing : Drawing.t) : option Number.t :=
  Drawing.weightingFactors drawing ≫= Drawing.completionTime.

(** The value of [weight] in the loop of [runDrawing] from
    [let weight = 1] up to, and without, its last assignment. *)
Definition weightBeforeRounding (drawing : Drawing.t)
    (totalPossibleStations : nat) (scans : list ScanView) : Number.t :=
  let stationsFoundCount := size (uniqueStationsScanned scans) in
  let weight := Number.one in
  let weight :=
    Number.add weight
      (Number.mul (Number.ofNat stationsFoundCount) (stationsFoundFactor drawing)) in
  if (stationsFoundCount =? totalPossibleStations) && (0 <? length scans) then
    if positiveMinutes (completionTimeMinutes scans)
       && truthy_number (completionTimeFactor drawing)
    then Number.add weight (default Number.zero (completionTimeFactor drawing))
    else weight
  else weight.

(** The ticket weight of an eligible class:
    [weight = Math.max(1, Math.round(weight))], the number of entries that
    the loop [for (let i = 0; i < weight; i++)] then pushes.  A weight that
    is not finite (see [Math_round]) counts as one ticket here; the source
    pushes none for NaN and does not stop pushing for [Infinity]. *)
Definition ticketWeight (drawing : Drawing.t) (totalPossibleStations : nat)
    (scans : list ScanView) : Z :=
  Z.max 1 (Math_round (weightBeforeRounding drawing totalPossibleStations scans)).

Definition entryOf (classObj : Id * Class.t) : Entry :=
  {| classId := classObj.1;
     className := Class.name classObj.2;
     teacherEmail := Teacher.email (Class.teacher classObj.2);
     teacherName := Teacher.name (Class.teacher classObj.2) |}.

Definition defaultPrize : string := "Scavenger Hunt Prize".

(** [[a[i], a[j]] = [a[j], a[i]]].  The handler only swaps positions inside
    the array ([j <= i < a.length]); outside of it the model leaves the
    array as it is. *)
Definition swap {A} (a : list A) (i j : nat) : list A :=
  match a !! i, a !! j with
  | Some x, Some y => <[j := x]> (<[i := y]> a)
  | _, _ => a
  end.

Section Handlers.

(** [Math.random()]: [random k] is the value of the [k]-th call. *)
Variable random : nat → Q.

(** [Scan.find({ class: id })], as the store answers it, each document
    read through [.station] and [.scannedAt].  The handler filters on the
    path [class] and reads the path [station]; ScanSchema declares
    [classId] and [stationId], and those are the paths [recordScan] writes.
    What the query answers for a class is therefore not a function of the
    scans modelled in the store, and is a parameter. *)
Variable Scan_find_class : Id → list ScanView.

(** One iteration of [for (const classObj of activeClasses)]: the state is
    the drawing document and the entry pool. *)
Definition eligibilityStep (totalPossibleStations : nat)
    (state : Drawing.t * list Entry) (classObj : Id * Class.t)
    : Drawing.t * list Entry :=
  let '(drawing, eligibleEntries) := state in
  let scans := Scan_find_class classObj.1 in
  let stationsFoundCount := size (uniqueStationsScanned scans) in
  if stationsFoundCount <? totalPossibleStations then state
  else
    let weight := ticketWeight drawing totalPossibleStations scans in
    let drawing :=
      Drawing.set_eligibleClasses
        (Drawing.eligibleClasses drawing ++ [classObj.1]) drawing in
    (drawing, eligibleEntries ++ replicate (Z.to_nat weight) (entryOf classObj)).

(** The index drawn in the shuffle: [Math.floor(Math.random() * (i + 1))]. *)
Definition randomIndex (k i : nat) : nat :=
  Z.to_nat (Qfloor (random k * inject_Z (Z.of_nat (i + 1)))).

(** The shuffle loop [for (let i = a.length - 1; i > 0; i--)], entered at
    index [i] with [k] random numbers already drawn. *)
Fixpoint shuffleFrom (k i : nat) (a : list Entry) : list Entry :=
  match i with
  | 0 => a
  | S i' => shuffleFrom (S k) i' (swap a i (randomIndex k i))
  end.

Definition shuffle (a : list Entry) : list Entry :=
  shuffleFrom 0 (length a - 1) a.

(** The selection loop [for (const entry of eligibleEntries)], with its
    [break].  [pickedClassIds] is the [Set] of the [_id] objects of the
    winning class documents; every class document is loaded once and its
    tickets share its [_id], so membership in the set is equality of keys. *)
Fixpoint pickWinners (numberOfWinners : Z) (prize : string)
    (entries : list Entry) (winners : list Drawing.Winner)
    (pickedClassIds : gset Id) : list Drawing.Winner :=
  match entries with
  | [] => winners
  | entry :: rest =>
    let '(winners, pickedClassIds) :=
      if (Z.of_nat (length winners) <? numberOfWinners)%Z
         && negb (bool_decide (classId entry ∈ pickedClassIds))
      then (winners ++ [ {| Drawing.class := classId entry;
                            Drawing.prize := prize;
                            Drawing.notified := false |} ],
            pickedClassIds ∪ {[ classId entry ]})
      else (winners, pickedClassIds) in
    if (numberOfWinners <=? Z.of_nat (length winners))%Z then winners
    else pickWinners numberOfWinners prize rest winners pickedClassIds
  end.

(** [runDrawing] (POST /api/drawings/:id/run). *)
Definition runDrawing (id : Id) (body : RunDrawingInput) (db : Store)
    : Response * Store :=
  match numberOfWinners body with
  | None => (ErrorResponse "Please provide a valid number of winners." 400, db)
  | Some numberOfWinners =>
    if (numberOfWinners <=? 0)%Z then
      (ErrorResponse "Please provide a valid number of winners." 400, db)
    else
      match drawings db !! id with
      | None => (ErrorResponse ("Drawing not found with id of " +:+ id) 404, db)
      | Some drawing =>
        match Drawing.status drawing with
        | Drawing.completed =>
          (ErrorResponse "This drawing has already been completed." 409, db)
        | Drawing.pending =>
          let allStations := Db.Station_find_active db in
          let totalPossibleStations := length allStations in
          if totalPossibleStations =? 0 then
            (ErrorResponse
               "No active stations found. Cannot determine eligibility." 400, db)
          else
            let activeClasses := Db.Class_find_active db in
            let '(drawing, eligibleEntries) :=
              fold_left (eligibilityStep totalPossibleStations) activeClasses
                (drawing, []) in
            if length eligibleEntries =? 0 then
              (ErrorResponse
                 "No classes are eligible for the drawing based on current criteria."
                 400, db)
            else
              let eligibleEntries := shuffle eligibleEntries in
              let prize :=
                default defaultPrize (truthy_string (prizeDescription body)) in
              let winners :=
                pickWinners numberOfWinners prize eligibleEntries [] ∅ in
              let drawing :=
                Drawing.set_status Drawing.completed
                  (Drawing.set_winners winners drawing) in
              (json 200 drawing, Db.Drawing_save id drawing db)
        end
      end
  end.

(** An item of the list returned by [getEligibleClassesForDrawing]. *)
Record EligibleClass := {
  _id : Id;
  name : string;
  teacher : option Teacher.t;
  stationsFound : nat;
  totalStations : nat;
  isEligible : bool
}.

Inductive EligibleResponse :=
  | eligibleError (message : string) (statusCode : nat)
  | eligibleJson (status : nat) (count : nat) (data : list EligibleClass).

(** One iteration of [for (const classObj of allClasses)]. *)
Definition eligibleOutputStep (totalPossibleStations : nat)
    (eligibleClassesOutput : list EligibleClass) (classObj : Id * Class.t)
    : list EligibleClass :=
  let classScans := Scan_find_class classObj.1 in
  let stationsFoundCount := size (uniqueStationsScanned classScans) in
  if totalPossibleStations <=? stationsFoundCount then
    eligibleClassesOutput ++
      [ {| _id := classObj.1;
           name := Class.name classObj.2;
           teacher := Some (Class.teacher classObj.2);
           stationsFound := stationsFoundCount;
           totalStations := totalPossibleStations;
           isEligible := true |} ]
  else eligibleClassesOutput.

(** [getEligibleClassesForDrawing] (GET /api/drawings/eligible-classes). *)
Definition getEligibleClassesForDrawing (db : Store) : EligibleResponse :=
  let activeStations := Db.Station_find_active db in
  let totalPossibleStations := length activeStations in
  if totalPossibleStations =? 0 then
    eligibleError
      "No active stations found. Cannot determine eligibility for drawing." 400
  else
    let allClasses := Db.Class_find_active db in
    let eligibleClassesOutput :=
      fold_left (eligibleOutputStep totalPossibleStations) allClasses [] in
    eligibleJson 200 (length eligibleClassesOutput) eligibleClassesOutput.

End Handlers.

End DrawingController.

(** ** Vocabulary of the statements *)

(** The (class, station) pair of a scan, the key of ScanSchema's unique
    compound index. *)
Definition scanKey (s : Scan.t) : Id * Id := (Scan.classId s, Scan.stationId s).

(** At most one scan per (class, station) pair. *)
Definition uniqueScans (l : list Scan.t) : Prop := NoDup (scanKey <$> l).

(** Station administration (an admin creating, activating or deactivating
    stations) happens outside the handlers embedded here; towards them it is
    an arbitrary replacement of the station roster. *)
Definition setStations (roster : gmap Id Station.t) (db : Store) : Store :=
  {| stations := roster; classes := classes db;
     scans := scans db; drawings := drawings db |}.

(** What can happen to the store between two observations: a scan request
    (with its clock readings and the outcome of its save) or a change of
    the station roster. *)
Inductive Event :=
  | EvScan (clock : nat → Z) (saveOk : bool) (req : ScanController.ScanInput)
  | EvStations (roster : gmap Id Station.t).

Definition step (db : Store) (ev : Event) : Store :=
  match ev with
  | EvScan clock saveOk req => (ScanController.recordScan clock saveOk req db).2
  | EvStations roster => setStations roster db
  end.

Definition run (evs : list Event) (db : Store) : Store := fold_left step evs db.

(** The request passes the guards of [recordScan]: both fields present, the
    station found and active, the class found and active. *)
Definition accepted (req : ScanController.ScanInput) (db : Store)
    (classId stationId : Id) (station : Station.t) (classObj : Class.t) : Prop :=
  truthy_string (ScanController.classId req) = Some classId ∧
  truthy_string (ScanController.stationQRCode req) = Some stationId ∧
  stations db !! stationId = Some station ∧
  Station.isActive station = true ∧
  classes db !! classId = Some classObj ∧
  Class.isActive classObj = true.

(** The class document that an accepted request leaves in memory. *)
Definition scannedClass (clock : nat → Z) (db : Store) (cid sid : Id)
    (classObj : Class.t) : Class.t :=
  match Db.Scan_findOne db cid sid with
  | Some _ => Class.set_lastScanAt (Some (clock 0)) classObj
  | None =>
    ScanController.checkCompletion (Db.Station_countDocuments_active db) (clock 2)
      (Class.set_lastScanAt (Some (clock 1))
         (ScanController.addStationScanned sid classObj))
  end.

(** The eligibility test of the drawing: the class has scanned at least as
    many distinct stations as there are active ones. *)
Definition eligible (Scan_find_class : Id → list DrawingController.ScanView)
    (totalStations : nat) (classObj : Id * Class.t) : Prop :=
  totalStations ≤
    size (DrawingController.uniqueStationsScanned (Scan_find_class classObj.1)).

#[global] Instance eligible_dec Scan_find_class totalStations classObj :
  Decision (eligible Scan_find_class totalStations classObj).
Proof. unfold eligible. apply _. Defined.

(** The active classes that pass the test, in the order of the store. *)
Definition eligibleList (Scan_find_class : Id → list DrawingController.ScanView)
    (db : Store) : list (Id * Class.t) :=
  filter (eligible Scan_find_class (Db.Station_countDocuments_active db))
         (Db.Class_find_active db).

(** The tickets that one eligible class contributes. *)
Definition ticketsOf (Scan_find_class : Id → list DrawingController.ScanView)
    (drawing : Drawing.t) (totalStations : nat) (classObj : Id * Class.t)
    : list DrawingController.Entry :=
  replicate
    (Z.to_nat (DrawingController.ticketWeight drawing totalStations
                 (Scan_find_class classObj.1)))
    (DrawingController.entryOf classObj).

(** A valid winner count: present and positive. *)
Definition validWinnerCount (body : DrawingController.RunDrawingInput) (n : Z)
    : Prop :=
  DrawingController.numberOfWinners body = Some n ∧ (0 < n)%Z.

(** The entry pool: the tickets of the eligible classes, in order. *)
Definition entryPool (Scan_find_class : Id → list DrawingController.ScanView)
    (drawing : Drawing.t) (db : Store) : list DrawingController.Entry :=
  eligibleList Scan_find_class db
  ≫= ticketsOf Scan_find_class drawing (Db.Station_countDocuments_active db).

(** The prize text of a run: [prizeDescription || "Scavenger Hunt Prize"]. *)
Definition prizeOf (body : DrawingController.RunDrawingInput) : string :=
  default DrawingController.defaultPrize
    (truthy_string (DrawingController.prizeDescription body)).

(** The drawing document that a successful run of a pending drawing saves. *)
Definition completedDrawing (random : nat → Q)
    (Scan_find_class : Id → list DrawingController.ScanView)
    (n : Z) (body : DrawingController.RunDrawingInput)
    (drawing : Drawing.t) (db : Store) : Drawing.t :=
  Drawing.set_status Drawing.completed
    (Drawing.set_winners
       (DrawingController.pickWinners n (prizeOf body)
          (DrawingController.shuffle random
             (entryPool Scan_find_class drawing db)) [] ∅)
       (Drawing.set_eligibleClasses
          (Drawing.eligibleClasses drawing
           ++ (eligibleList Scan_find_class db).*1) drawing)).

(** The item that the eligible-classes query lists for an eligible class. *)
Definition eligibleOutput
    (Scan_find_class : Id → list DrawingController.ScanView)
    (totalStations : nat) (classObj : Id * Class.t)
    : DrawingController.EligibleClass :=
  {| DrawingController._id := classObj.1;
     DrawingController.name := Class.name classObj.2;
     DrawingController.teacher := Some (Class.teacher classObj.2);
     DrawingController.stationsFound :=
       size (DrawingController.uniqueStationsScanned (Scan_find_class classObj.1));
     DrawingController.totalStations := totalStations;
     DrawingController.isEligible := true |}.

(** Ascending order of scan time. *)
Definition byTime (a b : DrawingController.ScanView) : Prop :=
  (DrawingController.scannedAt a ≤ DrawingController.scannedAt b)%Z.

(** The time of the earliest scan of a history ([None] on an empty one). *)
Definition earliestScan (scans : list DrawingController.ScanView) : option Z :=
  match DrawingController.scannedAt <$> scans with
  | [] => None
  | t :: ts => Some (foldr Z.min t ts)
  end.

(** The time of the latest scan of one station in a history. *)
Definition perStationLatest (scans : list DrawingController.ScanView)
    (stationId : Id) : option Z :=
  Math_max (DrawingController.scannedAt
            <$> filter (λ s, DrawingController.station s = stationId) scans).

(** The largest of the per-station latest scan times. *)
Definition latestOfStations (scans : list DrawingController.ScanView)
    : option Z :=
  Math_max
    (omap (λ s, perStationLatest scans (DrawingController.station s)) scans).

(** The completion time in minutes as the specification words it: from the
    earliest scan to the largest per-station latest scan. *)
Definition elapsedMinutes (scans : list DrawingController.ScanView) : option Q :=
  match earliestScan scans, latestOfStations scans with
  | Some startTime, Some endTime => Some (minutes_between startTime endTime)
  | _, _ => None
  end.

(** The ticket weight as the claim states it: the completion-time bonus is
    added whenever the class has a scan, a positive completion time and a
    truthy factor. *)
Definition claimedTicketWeight (drawing : Drawing.t)
    (scans : list DrawingController.ScanView) : Z :=
  let completedCount := size (DrawingController.uniqueStationsScanned scans) in
  let w :=
    Number.add Number.one
      (Number.mul (Number.ofNat completedCount)
         (DrawingController.stationsFoundFactor drawing)) in
  let w :=
    if (0 <? length scans)
       && DrawingController.positiveMinutes (elapsedMinutes scans)
       && truthy_number (DrawingController.completionTimeFactor drawing)
    then Number.add w
           (default Number.zero (DrawingController.completionTimeFactor drawing))
    else w in
  Z.max 1 (Math_round w).

(** The number [w] of the claim with the guard of the source: the bonus
    also requires the number of distinct stations scanned to equal the
    number of active stations.  Sums and products are those of JavaScript
    numbers. *)
Definition amendedWeight (drawing : Drawing.t) (totalStations : nat)
    (scans : list DrawingController.ScanView) : Number.t :=
  let completedCount := size (DrawingController.uniqueStationsScanned scans) in
  let w :=
    Number.add Number.one
      (Number.mul (Number.ofNat completedCount)
         (DrawingController.stationsFoundFactor drawing)) in
  if (completedCount =? totalStations)
     && (0 <? length scans)
     && DrawingController.positiveMinutes (elapsedMinutes scans)
     && truthy_number (DrawingController.completionTimeFactor drawing)
  then Number.add w
         (default Number.zero (DrawingController.completionTimeFactor drawing))
  else w.

(** [max(1, round(w))] *)
Definition amendedTicketWeight (drawing : Drawing.t) (totalStations : nat)
    (scans : list DrawingController.ScanView) : Z :=
  Z.max 1 (Math_round (amendedWeight drawing totalStations scans)).

(** ** Example data *)

Module Example.

Definition teacher : Teacher.t :=
  {| Teacher._id := "T1"; Teacher.name := "Ann";
     Teacher.email := "ann@school.example" |}.

(** A freshly registered, active class. *)
Definition newClass (name : string) (registeredAt : Z) : Class.t :=
  {| Class.name := name; Class.teacher := teacher;
     Class.registeredAt := Some registeredAt; Class.isActive := true;
     Class.stationsScanned := []; Class.isCompleted := false;
     Class.lastScanAt := None; Class.completedAt := None |}.

Definition station (name : string) (isActive : bool) : Station.t :=
  {| Station.name := name; Station.isActive := isActive |}.

(** Times of one day, in milliseconds since midnight. *)
Definition at0900 : Z := 32400000.
Definition at1000 : Z := 36000000.
Definition at1005 : Z := 36300000.
Definition at1010 : Z := 36600000.

(** Two active stations and one class, registered at 09:00. *)
Definition db0 : Store :=
  {| stations := <["S1" := station "Pond" true]>
                   (<["S2" := station "Meadow" true]> ∅);
     classes := <["C1" := newClass "Otters" at0900]> ∅;
     scans := [];
     drawings := ∅ |}.

Definition scanOf (classId stationId : Id) : ScanController.ScanInput :=
  {| ScanController.classId := Some classId;
     ScanController.stationQRCode := Some stationId |}.

(** The class scans S1 at 10:00 and S2 at 10:05, then S2 again at 10:10. *)
Definition db1 : Store :=
  (ScanController.recordScan (λ _, at1000) true (scanOf "C1" "S1") db0).2.
Definition db2 : Store :=
  (ScanController.recordScan (λ _, at1005) true (scanOf "C1" "S2") db1).2.
Definition db3 : Store :=
  (ScanController.recordScan (λ _, at1010) true (scanOf "C1" "S2") db2).2.

Definition progressOfC1 : ClassController.Request :=
  {| ClassController.params_id := "C1";
     ClassController.user :=
       {| ClassController.id := "T1"; ClassController.role := "teacher" |} |}.

(** The class document of C1 once both stations are scanned. *)
Definition completedC1 : Class.t :=
  {| Class.name := "Otters"; Class.teacher := teacher;
     Class.registeredAt := Some at0900; Class.isActive := true;
     Class.stationsScanned := ["S1"; "S2"]; Class.isCompleted := true;
     Class.lastScanAt := Some at1005; Class.completedAt := Some at1005 |}.

(** The answer to the first scan of S1. *)
Definition firstScanBody : ScanController.Body :=
  {| ScanController.success := true;
     ScanController.message := "Scan recorded successfully for station: Pond!";
     ScanController.stationData :=
       {| ScanController._id := "S1"; ScanController.name := "Pond" |};
     ScanController.existing := false |}.

(** A third station is activated, and the class scans S2 once more. *)
Definition laterEvents : list Event :=
  [ EvStations (<["S3" := station "Grove" true]> (stations db0));
    EvScan (λ _, at1010) true (scanOf "C1" "S2");
    EvScan (λ _, at1010) false (scanOf "C1" "S3") ].

(** The same store with every station removed from the roster. *)
Definition dbNoStations : Store := setStations ∅ db2.

Definition view (station : Id) (scannedAt : Z) : DrawingController.ScanView :=
  {| DrawingController.station := station;
     DrawingController.scannedAt := scannedAt |}.

Definition factors (completionTime stationsFound : Z) : option Drawing.WeightingFactors :=
  Some {| Drawing.completionTime := Some (Number.ofZ completionTime);
          Drawing.stationsFound := Some (Number.ofZ stationsFound) |}.

Definition pendingDrawing : Drawing.t :=
  {| Drawing.name := "Spring raffle"; Drawing.eligibleClasses := [];
     Drawing.winners := []; Drawing.weightingFactors := factors 1 1;
     Drawing.status := Drawing.pending |}.

Definition finishedDrawing : Drawing.t :=
  {| Drawing.name := "Winter raffle"; Drawing.eligibleClasses := ["C1"];
     Drawing.winners :=
       [ {| Drawing.class := "C1"; Drawing.prize := "Pizza";
            Drawing.notified := false |} ];
     Drawing.weightingFactors := factors 1 1;
     Drawing.status := Drawing.completed |}.

(** Three active stations; C1 and C3 have scanned all of them, C2 only two. *)
Definition raffleDb : Store :=
  {| stations := <["S1" := station "Pond" true]>
                   (<["S2" := station "Meadow" true]>
                      (<["S3" := station "Grove" true]> ∅));
     classes := <["C1" := newClass "Otters" at0900]>
                  (<["C2" := newClass "Herons" at0900]>
                     (<["C3" := newClass "Newts" at0900]> ∅));
     scans := [];
     drawings := <["D1" := pendingDrawing]> (<["D2" := finishedDrawing]> ∅) |}.

Definition history (classId : Id) : list DrawingController.ScanView :=
  if bool_decide (classId = "C1") then
    [view "S1" at1000; view "S2" at1005; view "S3" at1010]
  else if bool_decide (classId = "C2") then
    [view "S1" at1000; view "S2" at1005]
  else if bool_decide (classId = "C3") then
    [view "S3" at1000; view "S1" at1005; view "S2" at1010; view "S1" at1010]
  else [].

Definition random : nat → Q := λ k, if Nat.even k then 1 # 2 else 1 # 4.

Definition twoWinners : DrawingController.RunDrawingInput :=
  {| DrawingController.numberOfWinners := Some 2%Z;
     DrawingController.prizeDescription := Some "Ice Cream Social" |}.


(** The raffle store after station S3 was deactivated: C1 and C3 then hold
    scans of three distinct stations while two are active. *)
Definition raffleDbTwoActive : Store :=
  setStations
    (<["S1" := station "Pond" true]>
       (<["S2" := station "Meadow" true]>
          (<["S3" := station "Grove" false]> ∅)))
    raffleDb.

(** A class that scanned three stations, of which two are still active. *)
Definition threeScans : list DrawingController.ScanView :=
  [view "S1" at1000; view "S2" at1005; view "S3" at1010].

End Example.

(** ** Scan controller: the two queries *)

Module ScanQueries.

(** A station as [populate('stationsScanned', 'name')] returns it. *)
Module StationRef.
Record t := { _id : Id; name : string }.
End StationRef.

(** [classData] of the answer of [getScansByClass]. *)
Module ClassData.
Record t := {
  _id : Id;
  name : string;
  isCompleted : bool;
  stationsScanned : list StationRef.t;
  lastScanAt : option Z;
  completedAt : option Z
}.
End ClassData.

(** A scan with its [stationId] populated: the station document, or [None]
    ([null]) when the store holds none. *)
Module ScanOfClass.
Record t := {
  classId : Id;
  stationId : option (Id * Station.t);
  scannedAt : Z
}.
End ScanOfClass.

(** A scan with its [classId] populated.  The nested population of the
    teacher from the user collection is left out. *)
Module ScanOfStation.
Record t := {
  classId : option (Id * Class.t);
  stationId : Id;
  scannedAt : Z
}.
End ScanOfStation.

(** [req.params.classId] and [req.user]. *)
Record ClassRequest := { classId : Id; user : ClassController.User }.

Inductive ClassResponse :=
  | classError (message : string) (statusCode : nat)
  | classJson (status : nat) (classData : ClassData.t)
      (count : nat) (data : list ScanOfClass.t).

Inductive StationResponse :=
  | stationError (message : string) (statusCode : nat)
  | stationJson (status : nat) (count : nat) (data : list ScanOfStation.t).

(** [populate('stationsScanned', 'name')]: the referenced stations in the
    order of the array; an id without a document is dropped. *)
Definition populate_stationsScanned (db : Store) (ids : list Id)
    : list StationRef.t :=
  omap (λ id, (λ station, {| StationRef._id := id;
                             StationRef.name := Station.name station |})
              <$> stations db !! id) ids.

(** [Scan.find({ classId })] *)
Definition Scan_find_classId (db : Store) (classId : Id) : list Scan.t :=
  filter (λ s, Scan.classId s = classId) (scans db).

(** [Scan.find({ stationId })] *)
Definition Scan_find_stationId (db : Store) (stationId : Id) : list Scan.t :=
  filter (λ s, Scan.stationId s = stationId) (scans db).

Definition populate_stationId (db : Store) (s : Scan.t) : ScanOfClass.t :=
  {| ScanOfClass.classId := Scan.classId s;
     ScanOfClass.stationId :=
       (λ station, (Scan.stationId s, station)) <$> stations db !! Scan.stationId s;
     ScanOfClass.scannedAt := Scan.scannedAt s |}.

Definition populate_classId (db : Store) (s : Scan.t) : ScanOfStation.t :=
  {| ScanOfStation.classId :=
       (λ classObj, (Scan.classId s, classObj)) <$> classes db !! Scan.classId s;
     ScanOfStation.stationId := Scan.stationId s;
     ScanOfStation.scannedAt := Scan.scannedAt s |}.

(** [getScansByClass] (GET /api/scans/class/:classId).  A stored class
    always carries its teacher with an [_id], so of the three tests on the
    teacher the comparison of ids is the one that decides. *)
Definition getScansByClass (req : ClassRequest) (db : Store) : ClassResponse :=
  match classes db !! classId req with
  | None => classError ("Class not found with id of " +:+ classId req) 404
  | Some classObj =>
    if negb (bool_decide (ClassController.role (user req) = "admin"))
       && negb (bool_decide (Teacher._id (Class.teacher classObj)
                             = ClassController.id (user req)))
    then classError "User not authorized to view scans for this class" 403
    else
      let scans := populate_stationId db <$> Scan_find_classId db (classId req) in
      classJson 200
        {| ClassData._id := classId req;
           ClassData.name := Class.name classObj;
           ClassData.isCompleted := Class.isCompleted classObj;
           ClassData.stationsScanned :=
             populate_stationsScanned db (Class.stationsScanned classObj);
           ClassData.lastScanAt := Class.lastScanAt classObj;
           ClassData.completedAt := Class.completedAt classObj |}
        (length scans) scans
  end.

(** [getScansByStation] (GET /api/scans/station/:stationId). *)
Definition getScansByStation (stationId : Id) (db : Store) : StationResponse :=
  match stations db !! stationId with
  | None => stationError ("Station not found with id of " +:+ stationId) 404
  | Some _ =>
    let scans := populate_classId db <$> Scan_find_stationId db stationId in
    stationJson 200 (length scans) scans
  end.

End ScanQueries.

(** ** Drawing controller: reading a drawing *)

Module DrawingQueries.

(** A class as [populate('winners.class', 'name school teacher.name')]
    returns it; of the selected fields the model keeps the name and the
    teacher's name. *)
Module ClassRef.
Record t := { _id : Id; name : string; teacherName : string }.
End ClassRef.

Module Winner.
Record t := { class : option ClassRef.t; prize : string; notified : bool }.
End Winner.

(** A drawing document with its winners populated.  The drawing model
    keeps no [createdBy], so its population is left out. *)
Record Populated := {
  name : string;
  eligibleClasses : list Id;
  winners : list Winner.t;
  weightingFactors : option Drawing.WeightingFactors;
  status : Drawing.Status
}.

Inductive Response :=
  | ErrorResponse (message : string) (statusCode : nat)
  | json (status : nat) (data : Populated).

Inductive ListResponse :=
  | listJson (status : nat) (count : nat) (data : list (Id * Populated)).

Definition populate_winner (db : Store) (w : Drawing.Winner) : Winner.t :=
  {| Winner.class :=
       (λ classObj,
          {| ClassRef._id := Drawing.class w;
             ClassRef.name := Class.name classObj;
             ClassRef.teacherName := Teacher.name (Class.teacher classObj) |})
       <$> classes db !! Drawing.class w;
     Winner.prize := Drawing.prize w;
     Winner.notified := Drawing.notified w |}.

Definition populate (db : Store) (d : Drawing.t) : Populated :=
  {| name := Drawing.name d;
     eligibleClasses := Drawing.eligibleClasses d;
     winners := populate_winner db <$> Drawing.winners d;
     weightingFactors := Drawing.weightingFactors d;
     status := Drawing.status d |}.

(** [getDrawings] (GET /api/drawings). *)
Definition getDrawings (db : Store) : ListResponse :=
  let drawings := prod_map id (populate db) <$> map_to_list (drawings db) in
  listJson 200 (length drawings) drawings.

(** [getDrawing] (GET /api/drawings/:id). *)
Definition getDrawing (id : Id) (db : Store) : Response :=
  match drawings db !! id with
  | None => ErrorResponse ("Drawing not found with id of " +:+ id) 404
  | Some drawing => json 200 (populate db drawing)
  end.

End DrawingQueries.

(** ** Authentication and authorization middleware *)

Module Auth.

(** What a middleware does: it calls [next()], or [next(error)] with an
    [ErrorResponse]. *)
Inductive Outcome :=
  | next
  | ErrorResponse (message : string) (statusCode : nat).

(** The white space that [String.prototype.trim] strips, among the
    characters below 256: tab, line feed, vertical tab, form feed, carriage
    return, space and no-break space.  A character of a string stands for
    one code unit. *)
Definition isWhiteSpace (c : Ascii.ascii) : bool :=
  bool_decide (Ascii.nat_of_ascii c ∈ [9; 10; 11; 12; 13; 32; 160]).

Fixpoint trimStart (s : string) : string :=
  match s with
  | EmptyString => EmptyString
  | String c rest => if isWhiteSpace c then trimStart rest else s
  end.

Definition trimEnd (s : string) : string :=
  String.rev (trimStart (String.rev s)).

(** [s.trim()] *)
Definition trim (s : string) : string := trimEnd (trimStart s).

(** What [protect] does: it calls [next(error)], or sets [req.user] and
    calls [next()]. *)
Inductive Authentication :=
  | unauthenticated (message : string) (statusCode : nat)
  | authenticated (user : ClassController.User).

(** An argument of [authorize(...rolesInput)]: a role, or an array of
    roles. *)
Inductive RoleArg :=
  | oneRole (allowedRole : string)
  | roleArray (allowedRoles : list string).

(** [[].concat(...rolesInput)] *)
Definition flatten (rolesInput : list RoleArg) : list string :=
  rolesInput ≫= (λ arg,
    match arg with
    | oneRole allowedRole => [allowedRole]
    | roleArray allowedRoles => allowedRoles
    end).

(** The loop [for (const allowedRole of allowedRoles)] with its [break]. *)
Fixpoint isAuthorized (userRole : string) (allowedRoles : list string) : bool :=
  match allowedRoles with
  | [] => false
  | allowedRole :: rest =>
    if bool_decide (trim allowedRole = userRole) then true
    else isAuthorized userRole rest
  end.

(** [authorize(...rolesInput)], applied to [req.user]. *)
Definition authorize (rolesInput : list RoleArg)
    (user : option ClassController.User) : Outcome :=
  match user with
  | None => ErrorResponse "User role not available for authorization check" 403
  | Some u =>
    match ClassController.role u with
    | EmptyString =>
      ErrorResponse "User role not available for authorization check" 403
    | _ =>
      let allowedRoles := flatten rolesInput in
      let userRole := trim (ClassController.role u) in
      if isAuthorized userRole allowedRoles then next
      else
        ErrorResponse
          ("User role " +:+ ClassController.role u
           +:+ " is not authorized to access this route") 403
    end
  end.

(** [s.split(sep)] for a separator of one character. *)
Fixpoint split (sep : Ascii.ascii) (s : string) : list string :=
  match s with
  | EmptyString => [EmptyString]
  | String c rest =>
    if Ascii.eqb c sep then EmptyString :: split sep rest
    else
      match split sep rest with
      | [] => [String c EmptyString]
      | word :: words => String c word :: words
      end
  end.

(** The space character. *)
Definition space : Ascii.ascii := Ascii.ascii_of_nat 32.

(** The token that [protect] reads off the [Authorization] header:
    [authorization.split(' ')[1]] when the header starts with [Bearer]. *)
Definition bearerToken (authorization : option string) : option string :=
  match truthy_string authorization with
  | Some header =>
    if String.prefix "Bearer" header then split space header !! 1 else None
  | None => None
  end.

Section Protect.

(** [jwt.verify(token, process.env.JWT_SECRET)]: the [id] of the decoded
    payload, or [None] when the call throws. *)
Variable jwt_verify : string → option Id.

(** [User.findById(id).select('-password')] *)
Variable User_findById : Id → option ClassController.User.

(** [protect] *)
Definition protect (authorization : option string) : Authentication :=
  match truthy_string (bearerToken authorization) with
  | None => unauthenticated "Not authorized to access this route" 401
  | Some token =>
    match jwt_verify token with
    | None => unauthenticated "Not authorized to access this route" 401
    | Some id =>
      match User_findById id with
      | None => unauthenticated "No user found with this id" 404
      | Some user => authenticated user
      end
    end
  end.

End Protect.

End Auth.

(** ** Routes *)

Module Routes.

(** The answer of a route: the error of a middleware, or what the handler
    answered. *)
Inductive Answer (R : Type) :=
  | refused (message : string) (statusCode : nat)
  | handled (response : R).
Arguments refused {R} message statusCode.
Arguments handled {R} response.

Section Routes.

Variable jwt_verify : string → option Id.
Variable User_findById : Id → option ClassController.User.

(** [router.use(protect)] followed by a handler that may read [req.user]. *)
Definition protected {R} (authorization : option string) (db : Store)
    (handler : ClassController.User → Answer R * Store) : Answer R * Store :=
  match Auth.protect jwt_verify User_findById authorization with
  | Auth.unauthenticated message statusCode => (refused message statusCode, db)
  | Auth.authenticated user => handler user
  end.

(** [authorize(...rolesInput)] in front of a handler. *)
Definition authorized {R} (rolesInput : list Auth.RoleArg) (db : Store)
    (handler : ClassController.User → Answer R * Store)
    (user : ClassController.User) : Answer R * Store :=
  match Auth.authorize rolesInput (Some user) with
  | Auth.ErrorResponse message statusCode => (refused message statusCode, db)
  | Auth.next => handler user
  end.

(** The drawing router: [router.use(protect); router.use(authorize('admin'))]
    and then [router.post('/:id/run', runDrawing)]. *)
Definition post_drawings_run (random : nat → Q)
    (Scan_find_class : Id → list DrawingController.ScanView)
    (authorization : option string) (id : Id)
    (body : DrawingController.RunDrawingInput) (db : Store)
    : Answer DrawingController.Response * Store :=
  protected authorization db
    (authorized [Auth.oneRole "admin"] db
       (λ _, let result :=
               DrawingController.runDrawing random Scan_find_class id body db in
             (handled result.1, result.2))).

(** The scan router: [router.use(protect)] and then
    [router.post('/', recordScan)]. *)
Definition post_scans (clock : nat → Z) (saveOk : bool)
    (authorization : option string) (req : ScanController.ScanInput)
    (db : Store) : Answer ScanController.Response * Store :=
  protected authorization db
    (λ _, let result := ScanController.recordScan clock saveOk req db in
          (handled result.1, result.2)).

(** [router.get('/class/:classId', getScansByClass)] *)
Definition get_scans_class (authorization : option string) (classId : Id)
    (db : Store) : Answer ScanQueries.ClassResponse * Store :=
  protected authorization db
    (λ user,
       (handled (ScanQueries.getScansByClass
                   {| ScanQueries.classId := classId;
                      ScanQueries.user := user |} db), db)).

(** [router.get('/station/:stationId', authorize('admin'), getScansByStation)] *)
Definition get_scans_station (authorization : option string) (stationId : Id)
    (db : Store) : Answer ScanQueries.StationResponse * Store :=
  protected authorization db
    (authorized [Auth.oneRole "admin"] db
       (λ _, (handled (ScanQueries.getScansByStation stationId db), db))).

End Routes.

End Routes.

(** ** Further example data *)

Module MoreExamples.
Import Example.

(** The class document of C1 after its first scan, of S1 at 10:00. *)
Definition scannedS1 : Class.t :=
  {| Class.name := "Otters"; Class.teacher := teacher;
     Class.registeredAt := Some at0900; Class.isActive := true;
     Class.stationsScanned := ["S1"]; Class.isCompleted := false;
     Class.lastScanAt := Some at1000; Class.completedAt := None |}.

(** The first scan of S1 is stored, but saving the class fails. *)
Definition dbUnsaved : Store :=
  (ScanController.recordScan (λ _, at1000) false (scanOf "C1" "S1") db0).2.

Definition unsavedScan : Scan.t :=
  {| Scan.classId := "C1"; Scan.stationId := "S1"; Scan.scannedAt := at1000 |}.

(** The class scans S1 again, and then S2. *)
Definition retries : list Event :=
  [ EvScan (λ _, at1005) true (scanOf "C1" "S1");
    EvScan (λ _, at1010) true (scanOf "C1" "S2") ].

(** Two scans whose class saves succeed. *)
Definition twoScans : list Event :=
  [ EvScan (λ _, at1000) true (scanOf "C1" "S1");
    EvScan (λ _, at1005) true (scanOf "C1" "S2") ].

(** A store that answers nothing to the two fallback counts. *)
Definition noFallback : Id → nat := λ _, 0.

(** A drawing without weighting factors. *)
Definition flatDrawing : Drawing.t :=
  {| Drawing.name := "Flat raffle"; Drawing.eligibleClasses := [];
     Drawing.winners := []; Drawing.weightingFactors := None;
     Drawing.status := Drawing.pending |}.

Definition firstWinner : Drawing.Winner :=
  {| Drawing.class := "C1"; Drawing.prize := "Ice Cream Social";
     Drawing.notified := false |}.

(** Users: the teacher of C1, another teacher, and a user whose stored role
    is [admin] with a space before and after. *)
Definition owner : ClassController.User :=
  {| ClassController.id := "T1"; ClassController.role := "teacher" |}.

Definition visitor : ClassController.User :=
  {| ClassController.id := "T2"; ClassController.role := "teacher" |}.

Definition paddedAdmin : ClassController.User :=
  {| ClassController.id := "A2"; ClassController.role := " admin " |}.

(** One valid token, of the visiting teacher. *)
Definition jwt_verify (token : string) : option Id :=
  if bool_decide (token = "token-of-T2") then Some "T2" else None.

Definition User_findById (id : Id) : option ClassController.User :=
  if bool_decide (id = "T2") then Some visitor else None.

Definition authorization : option string := Some "Bearer token-of-T2".




(** The number that a decimal literal [n / d] denotes, for integers below
    [2^53]: the binary64 value nearest to the quotient. *)
Definition decimal (n d : Z) : Number.t :=
  Number.div (Number.ofZ n) (Number.ofZ d).

(** A drawing with the factors 0.035 (completion time) and 0.155 (stations
    found). *)
Definition fractionalDrawing : Drawing.t :=
  {| Drawing.name := "Autumn raffle"; Drawing.eligibleClasses := [];
     Drawing.winners := [];
     Drawing.weightingFactors :=
       Some {| Drawing.completionTime := Some (decimal 35 1000);
               Drawing.stationsFound := Some (decimal 155 1000) |};
     Drawing.status := Drawing.pending |}.

(** A scan query that finds no document. *)
Definition noScans : Id → list DrawingController.ScanView := λ _, [].

(** The store in which C1 has scanned both active stations, with a pending
    drawing. *)
Definition coveredDb : Store :=
  {| stations := stations db2; classes := classes db2; scans := scans db2;
     drawings := <["D1" := pendingDrawing]> ∅ |}.

End MoreExamples.

(** ** Further vocabulary: invariants of the store *)

(** The events of a trace whose scan requests all save their class. *)
Definition savedScansOnly (evs : list Event) : Prop :=
  Forall (λ ev, match ev with
                | EvScan _ saveOk _ => saveOk = true
                | EvStations _ => True
                end) evs.

(** The stations of the Scan records of one class, in creation order. *)
Definition scannedStationsOf (classId : Id) (l : list Scan.t) : list Id :=
  Scan.stationId <$> filter (λ s, Scan.classId s = classId) l.

(** The cached [stationsScanned] of every class lists the stations of its
    Scan records. *)
Definition cacheConsistent (db : Store) : Prop :=
  ∀ cid c, classes db !! cid = Some c →
    Class.stationsScanned c = scannedStationsOf cid (scans db).

(** [stationsScanned] holds no station twice. *)
Definition stationsScannedIsSet (db : Store) : Prop :=
  ∀ cid c, classes db !! cid = Some c → NoDup (Class.stationsScanned c).

(** A completed class carries its completion and last-scan times. *)
Definition completionStamped (db : Store) : Prop :=
  ∀ cid c, classes db !! cid = Some c → Class.isCompleted c = true →
    is_Some (Class.completedAt c) ∧ is_Some (Class.lastScanAt c).

(** [Math.round((completedCount / totalStations) * 100)], the progress
    percentage of [completedCount] out of [totalStations] > 0. *)
Definition roundedPercentage (completedCount totalStations : nat) : Z :=
  Math_round
    (Number.mul
       (Number.div (Number.ofNat completedCount) (Number.ofNat totalStations))
       (Number.ofZ 100)).

(** The same percentage rounded without intermediate rounding: the integer
    nearest to [100 c / t], the upper one of two that are equally near. *)
Definition exactPercentage (c t : nat) : Z :=
  (200 * Z.of_nat c + Z.of_nat t) / (2 * Z.of_nat t).

(** [100 c / t] lies halfway between two integers. *)
Definition halfwayPercentage (c t : nat) : bool :=
  ((200 * Z.of_nat c) mod (2 * Z.of_nat t) =? Z.of_nat t)%Z.

(** What the progress percentage is checked for, entry by entry: it is not
    negative, it is the exact percentage or, at a halfway case only, one
    less, it is at most 100 when [c <= t] and 100 when [c = t]. *)
Definition percentageChecked (c t : nat) : bool :=
  let p := roundedPercentage c t in
  let e := exactPercentage c t in
  (0 <=? p)%Z
  && ((p =? e)%Z || ((p =? e - 1)%Z && halfwayPercentage c t))
  && (if c <=? t then (p <=? 100)%Z else true)
  && (if c =? t then (p =? 100)%Z else true).

(** The check for every [t] from 1 to [maxStations] and every [c] up to
    [2 t]. *)
Definition percentageTable (maxStations : nat) : bool :=
  forallb (λ t, forallb (λ c, percentageChecked c t) (seq 0 (2 * t + 1)))
          (seq 1 maxStations).



(** A string without a space character. *)
Fixpoint spaceFree (s : string) : bool :=
  match s with
  | EmptyString => true
  | String c rest => negb (Ascii.eqb c Auth.space) && spaceFree rest
  end.

(** The class ids that a station's scan list shows, and the station ids
    that a class's scan list shows. *)
Definition listedClasses (data : list ScanQueries.ScanOfStation.t) : list Id :=
  omap (λ item, fst <$> ScanQueries.ScanOfStation.classId item) data.

Definition listedStations (data : list ScanQueries.ScanOfClass.t) : list Id :=
  omap (λ item, fst <$> ScanQueries.ScanOfClass.stationId item) data.

(** ** Scan recording: proofs *)

Section RecordScan.
Import ScanController.

Lemma recordScan_accepted clock saveOk req db cid sid station classObj :
  accepted req db cid sid station classObj →
  recordScan clock saveOk req db =
    let stationData := {| _id := sid; name := Station.name station |} in
    match Db.Scan_findOne db cid sid with
    | Some existingScan =>
      let now := clock 0 in
      let classObj' := Class.set_lastScanAt (Some now) classObj in
      (json 200
         {| success := true;
            message := "Station " +:+ dquote +:+ Station.name station
                       +:+ dquote +:+ " has already been scanned by class "
                       +:+ Class.name classObj' +:+ ".";
            stationData := stationData;
            existing := true |},
       if lastScanAt_changed (Class.lastScanAt classObj) now && saveOk
       then Db.Class_save cid classObj' db else db)
    | None =>
      let db1 :=
        Db.Scan_create
          {| Scan.classId := cid; Scan.stationId := sid;
             Scan.scannedAt := clock 0 |} db in
      let c1 := addStationScanned sid classObj in
      let c2 := Class.set_lastScanAt (Some (clock 1)) c1 in
      let c3 := checkCompletion (Db.Station_countDocuments_active db1) (clock 2) c2 in
      (json 201
         {| success := true;
            message := "Scan recorded successfully for station: "
                       +:+ Station.name station +:+ "!";
            stationData := stationData;
            existing := false |},
       if saveOk then Db.Class_save cid c3 db1 else db1)
    end.
Proof.
  intros (Hc & Hs & Hst & Hact & Hcl & Hcact).
  unfold recordScan. rewrite Hc, Hs, Hst, Hact. simpl. rewrite Hcl, Hcact. simpl.
  destruct (Db.Scan_findOne db cid sid); reflexivity.
Qed.

(** A request that does not pass the guards is answered by an error (400 or
    404) and leaves the store as it is. *)
Lemma recordScan_rejected clock saveOk req db :
  (∀ cid sid station classObj, ¬ accepted req db cid sid station classObj) →
  ∃ msg code,
    recordScan clock saveOk req db = (ErrorResponse msg code, db) ∧
    (code = 400 ∨ code = 404).
Proof.
  intros Hno. unfold recordScan.
  destruct (truthy_string (classId req)) as [cid|] eqn:Hc;
    [|destruct (truthy_string (stationQRCode req)); eauto].
  destruct (truthy_string (stationQRCode req)) as [sid|] eqn:Hs; [|eauto].
  destruct (stations db !! sid) as [station|] eqn:Hst; [|eauto].
  destruct (Station.isActive station) eqn:Hact; simpl; [|eauto].
  destruct (classes db !! cid) as [classObj|] eqn:Hcl; [|eauto].
  destruct (Class.isActive classObj) eqn:Hcact; simpl; [|eauto].
  exfalso. apply (Hno cid sid station classObj). by repeat split.
Qed.

(** Either the guards pass or they do not. *)
Lemma accepted_dec req db :
  (∃ cid sid station classObj, accepted req db cid sid station classObj) ∨
  (∀ cid sid station classObj, ¬ accepted req db cid sid station classObj).
Proof.
  unfold accepted.
  destruct (truthy_string (classId req)) as [cid|] eqn:Hc;
    [|right; intros ???? (?&_); congruence].
  destruct (truthy_string (stationQRCode req)) as [sid|] eqn:Hs;
    [|right; intros ???? (_&?&_); congruence].
  destruct (stations db !! sid) as [station|] eqn:Hst;
    [|right; intros ???? (_&?&?&_); congruence].
  destruct (Station.isActive station) eqn:Hact;
    [|right; intros ???? (_&?&?&?&_); congruence].
  destruct (classes db !! cid) as [classObj|] eqn:Hcl;
    [|right; intros ???? (?&_&_&_&?&_); congruence].
  destruct (Class.isActive classObj) eqn:Hcact;
    [|right; intros ???? (?&_&_&_&?&?); congruence].
  left. by exists cid, sid, station, classObj.
Qed.

Lemma Scan_findOne_None db cid sid :
  Db.Scan_findOne db cid sid = None → (cid, sid) ∉ (scanKey <$> scans db).
Proof.
  intros Hnone Hin. apply list_elem_of_fmap in Hin as (s & Hkey & Hs).
  apply list_elem_of_In in Hs.
  pose proof (find_none _ _ Hnone s Hs) as Hm.
  unfold Db.scan_matches in Hm. unfold scanKey in Hkey. simplify_eq.
  by rewrite !bool_decide_eq_true_2 in Hm.
Qed.

Lemma Scan_findOne_Some db cid sid s :
  Db.Scan_findOne db cid sid = Some s → s ∈ scans db ∧ scanKey s = (cid, sid).
Proof.
  intros Hsome. apply find_some in Hsome as [Hin Hm].
  split; [by apply list_elem_of_In|].
  unfold Db.scan_matches in Hm. apply andb_prop in Hm as [H1 H2].
  apply bool_decide_eq_true_1 in H1, H2. unfold scanKey. by rewrite H1, H2.
Qed.

Lemma Scan_findOne_elem db s :
  s ∈ scans db →
  is_Some (Db.Scan_findOne db (Scan.classId s) (Scan.stationId s)).
Proof.
  intros Hin. unfold Db.Scan_findOne.
  destruct (find _ _) eqn:Hf; [eauto|].
  apply list_elem_of_In in Hin.
  pose proof (find_none _ _ Hf s Hin) as Hm. unfold Db.scan_matches in Hm.
  by rewrite !bool_decide_eq_true_2 in Hm.
Qed.

(** After the block that adds the scanned station, [stationsScanned] holds
    it; the other fields are as before. *)
Lemma addStationScanned_fields sid c :
  let c' := addStationScanned sid c in
  sid ∈ Class.stationsScanned c' ∧
  Class.isCompleted c' = Class.isCompleted c ∧
  Class.completedAt c' = Class.completedAt c ∧
  Class.isActive c' = Class.isActive c.
Proof.
  unfold addStationScanned. case_bool_decide as Hin; simpl; [done|].
  split; [|done]. apply elem_of_app. right. apply list_elem_of_here.
Qed.

Lemma addStationScanned_nonempty sid now c :
  Class.stationsScanned
    (Class.set_lastScanAt (Some now) (addStationScanned sid c)) ≠ [].
Proof.
  simpl. destruct (addStationScanned_fields sid c) as [Hin _].
  intros Hnil. rewrite Hnil in Hin. by apply elem_of_nil in Hin.
Qed.

(** The hunt-completion block never touches a completed class. *)
Lemma checkCompletion_completed total now c :
  Class.isCompleted c = true → checkCompletion total now c = c.
Proof. intros H. unfold checkCompletion. by rewrite H. Qed.

(** It only ever sets the flag, and leaves every other field but
    [completedAt] alone. *)
Lemma checkCompletion_fields total now c :
  let c' := checkCompletion total now c in
  Class.stationsScanned c' = Class.stationsScanned c ∧
  Class.lastScanAt c' = Class.lastScanAt c ∧
  Class.isActive c' = Class.isActive c ∧
  (Class.isCompleted c = true → Class.isCompleted c' = true).
Proof.
  unfold checkCompletion.
  destruct (Class.isCompleted c) eqn:E; simpl; [by rewrite E|].
  repeat case_match; simpl; repeat split; try done; congruence.
Qed.

(** With no active station the block does nothing once a station has been
    added to [stationsScanned]. *)
Lemma checkCompletion_no_stations now c :
  Class.stationsScanned c ≠ [] → checkCompletion 0 now c = c.
Proof.
  intros Hne. unfold checkCompletion.
  destruct (Class.isCompleted c); simpl; [done|].
  destruct (Class.stationsScanned c) as [|x l] eqn:E; [done|]. simpl. done.
Qed.

(** When the block sets the flag, the active-station count is positive and
    covered by [stationsScanned]. *)
Lemma checkCompletion_sets total now c :
  Class.stationsScanned c ≠ [] →
  Class.isCompleted c = false →
  Class.isCompleted (checkCompletion total now c) = true →
  0 < total ∧ total ≤ length (Class.stationsScanned c).
Proof.
  intros Hne Hc. unfold checkCompletion. rewrite Hc. simpl.
  destruct (total <=? length (Class.stationsScanned c)) eqn:Hle;
    destruct (0 <? total) eqn:Hlt; simpl.
  - intros _. apply Nat.leb_le in Hle. apply Nat.ltb_lt in Hlt. done.
  - apply Nat.ltb_ge in Hlt. assert (total = 0) as -> by lia. simpl.
    destruct (Class.stationsScanned c); [done|]. simpl. congruence.
  - destruct (total =? 0) eqn:E; simpl; [|congruence].
    destruct (Class.stationsScanned c); [done|]. simpl. congruence.
  - destruct (total =? 0) eqn:E; simpl; [|congruence].
    destruct (Class.stationsScanned c); [done|]. simpl. congruence.
Qed.

(** An active station in the roster makes the active count positive. *)
Lemma active_station_counted db sid station :
  stations db !! sid = Some station → Station.isActive station = true →
  0 < Db.Station_countDocuments_active db.
Proof.
  intros Hst Hact. unfold Db.Station_countDocuments_active, Db.Station_find_active.
  assert ((sid, station) ∈
          filter (λ kv : Id * Station.t, Station.isActive kv.2 = true)
                 (map_to_list (stations db))) as Hin.
  { apply list_elem_of_filter. split; [done|]. by apply elem_of_map_to_list. }
  destruct (filter _ _); [by apply elem_of_nil in Hin|simpl; lia].
Qed.

Lemma scannedClass_latch clock db cid sid classObj :
  let c' := scannedClass clock db cid sid classObj in
  Class.isActive c' = Class.isActive classObj ∧
  (Class.isCompleted classObj = true →
   Class.isCompleted c' = true ∧
   Class.completedAt c' = Class.completedAt classObj).
Proof.
  unfold scannedClass. destruct (Db.Scan_findOne db cid sid); simpl; [done|].
  match goal with |- context [checkCompletion ?t ?n ?c] =>
    pose proof (checkCompletion_fields t n c) as (_ & _ & Ha & _);
    pose proof (checkCompletion_completed t n c) as Hc end.
  destruct (addStationScanned_fields sid classObj) as (_ & Hcompl & Hat & Hact).
  split.
  - by rewrite Ha.
  - intros Hdone. rewrite Hc; simpl; [|congruence]. split; congruence.
Qed.

(** The store after an accepted request. *)
Lemma recordScan_accepted_store clock saveOk req db cid sid station classObj :
  accepted req db cid sid station classObj →
  let db' := (recordScan clock saveOk req db).2 in
  stations db' = stations db ∧ drawings db' = drawings db ∧
  (classes db' = classes db ∨
   classes db' = <[cid := scannedClass clock db cid sid classObj]> (classes db)) ∧
  scans db' =
    match Db.Scan_findOne db cid sid with
    | Some _ => scans db
    | None => scans db ++ [ {| Scan.classId := cid; Scan.stationId := sid;
                               Scan.scannedAt := clock 0 |} ]
    end.
Proof.
  intros Hacc. rewrite (recordScan_accepted _ _ _ _ _ _ _ _ Hacc).
  unfold scannedClass.
  destruct (Db.Scan_findOne db cid sid); simpl.
  - destruct (lastScanAt_changed _ _ && saveOk); simpl; auto.
  - destruct saveOk; simpl; auto.
Qed.

(** The store after any request: stations and drawings are never touched,
    at most one class document is rewritten, at most one scan is added, and
    only for a pair that had none. *)
Lemma recordScan_store clock saveOk req db :
  let db' := (recordScan clock saveOk req db).2 in
  stations db' = stations db ∧ drawings db' = drawings db ∧
  (classes db' = classes db ∨
   ∃ cid sid classObj,
     classes db !! cid = Some classObj ∧
     classes db' = <[cid := scannedClass clock db cid sid classObj]> (classes db)) ∧
  (scans db' = scans db ∨
   ∃ s, (scanKey s ∉ (scanKey <$> scans db)) ∧ scans db' = scans db ++ [s]).
Proof.
  destruct (accepted_dec req db) as [(cid & sid & station & classObj & Hacc)|Hno].
  - pose proof (recordScan_accepted_store clock saveOk _ _ _ _ _ _ Hacc)
      as (Hs & Hd & Hc & Hsc).
    simpl. split; [done|]. split; [done|]. split.
    + destruct Hc as [Hc|Hc]; [by left|]. right. exists cid, sid, classObj.
      split; [|done]. by destruct Hacc as (_&_&_&_&?&_).
    + destruct (Db.Scan_findOne db cid sid) eqn:Hf; [by left|].
      right. eexists. split; [|exact Hsc]. by apply Scan_findOne_None.
  - destruct (recordScan_rejected clock saveOk req db Hno) as (msg & code & -> & _).
    simpl. auto.
Qed.

Lemma uniqueScans_step db ev :
  uniqueScans (scans db) → uniqueScans (scans (step db ev)).
Proof.
  intros Huniq. destruct ev as [clock saveOk req|roster]; simpl; [|done].
  destruct (recordScan_store clock saveOk req db) as (_ & _ & _ & Hsc).
  destruct Hsc as [->|(s & Hfresh & ->)]; [done|].
  unfold uniqueScans in *. rewrite fmap_app. simpl.
  apply NoDup_app. split; [done|]. split; [|apply NoDup_singleton].
  intros k Hk Hk'. apply list_elem_of_singleton in Hk'. by subst.
Qed.

Lemma uniqueScans_run evs db :
  uniqueScans (scans db) → uniqueScans (scans (run evs db)).
Proof.
  revert db. induction evs as [|ev evs IH]; intros db Huniq; [done|].
  simpl. apply IH. by apply uniqueScans_step.
Qed.

Lemma latch_step db ev cid c :
  classes db !! cid = Some c → Class.isCompleted c = true →
  ∃ c', classes (step db ev) !! cid = Some c' ∧
        Class.isCompleted c' = true ∧
        Class.completedAt c' = Class.completedAt c.
Proof.
  intros Hc Hdone. destruct ev as [clock saveOk req|roster]; simpl; [|eauto].
  destruct (recordScan_store clock saveOk req db) as (_ & _ & Hcl & _).
  destruct Hcl as [->|(cid0 & sid & classObj & Hold & ->)]; [eauto|].
  destruct (decide (cid0 = cid)) as [->|Hne].
  - rewrite lookup_insert_eq. eexists. split; [done|].
    simplify_eq. by apply scannedClass_latch.
  - rewrite lookup_insert_ne by done. eauto.
Qed.

(** Whenever a request turns [isCompleted] from false to true, there are
    active stations and the class's [stationsScanned] covers their number. *)
Lemma recordScan_completes_only_when_covered clock saveOk req db cid c c' :
  classes db !! cid = Some c → Class.isCompleted c = false →
  classes (recordScan clock saveOk req db).2 !! cid = Some c' →
  Class.isCompleted c' = true →
  0 < Db.Station_countDocuments_active db ∧
  Db.Station_countDocuments_active db ≤ length (Class.stationsScanned c').
Proof.
  intros Hc Hopen Hc' Hdone.
  destruct (recordScan_store clock saveOk req db) as (_ & _ & Hcl & _).
  destruct Hcl as [Hcl|(cid0 & sid & classObj & Hold & Hcl)];
    rewrite Hcl in Hc'; [congruence|].
  destruct (decide (cid0 = cid)) as [->|Hne];
    [|rewrite lookup_insert_ne in Hc' by done; congruence].
  rewrite lookup_insert_eq in Hc'.
  assert (classObj = c) as -> by congruence.
  injection Hc' as <-. unfold scannedClass in *.
  destruct (Db.Scan_findOne db cid sid); [simpl in Hdone; congruence|].
  set (c2 := Class.set_lastScanAt (Some (clock 1)) (addStationScanned sid c))
    in *.
  pose proof (checkCompletion_fields
                (Db.Station_countDocuments_active db) (clock 2) c2)
    as (Hscanned & _).
  rewrite Hscanned.
  apply (checkCompletion_sets _ (clock 2)); [|by rewrite <- Hopen; apply
    addStationScanned_fields|done].
  apply addStationScanned_nonempty.
Qed.

End RecordScan.

(** ** Scan recording: the claims *)

Section RecordScanClaims.
Import ScanController.

(** C10. On a repeat scan of an already-scanned (class, station) pair,
    [recordScan] still writes to the class document: after the call the
    stored document carries [lastScanAt] equal to the current time, while
    [stationsScanned], [isCompleted] and [completedAt] are what they were;
    the answer is the 200 response with [existing: true] and no scan is
    added. *)
Theorem recordScan_repeat_touches_lastScanAt
    clock req db cid sid station classObj existingScan :
  accepted req db cid sid station classObj →
  Db.Scan_findOne db cid sid = Some existingScan →
  ∃ body db' classObj',
    recordScan clock true req db = (json 200 body, db') ∧
    existing body = true ∧
    classes db' !! cid = Some classObj' ∧
    Class.lastScanAt classObj' = Some (clock 0) ∧
    Class.stationsScanned classObj' = Class.stationsScanned classObj ∧
    Class.isCompleted classObj' = Class.isCompleted classObj ∧
    Class.completedAt classObj' = Class.completedAt classObj ∧
    scans db' = scans db.
Proof.
  intros Hacc Hfind.
  rewrite (recordScan_accepted _ _ _ _ _ _ _ _ Hacc), Hfind. simpl.
  destruct Hacc as (_ & _ & _ & _ & Hcl & _).
  destruct (lastScanAt_changed (Class.lastScanAt classObj) (clock 0)) eqn:Hch; simpl.
  - eexists _, _, _. split; [reflexivity|]. simpl.
    rewrite lookup_insert_eq. by repeat split.
  - eexists _, _, classObj. split; [reflexivity|]. simpl.
    repeat split; try done.
    unfold lastScanAt_changed in Hch.
    destruct (Class.lastScanAt classObj) as [t|]; [|done].
    apply orb_false_elim in Hch as [_ Hnow].
    apply negb_false_iff, Z.eqb_eq in Hnow. by subst.
Qed.

(** C7. Recording a scan twice never creates a second Scan record: after a
    call that was answered with a station (so the pair has its scan), the
    same request is answered 200 with [existing: true], adds no scan and
    leaves every class's [stationsScanned] as it was; and in any store
    reached from one with at most one scan per (class, station) pair, that
    still holds afterwards. *)
Theorem recordScan_rescan_is_idempotent
    evs db0 clock1 ok1 clock2 ok2 req status1 body1 db1 :
  uniqueScans (scans db0) →
  recordScan clock1 ok1 req (run evs db0) = (json status1 body1, db1) →
  ∃ body db2,
    recordScan clock2 ok2 req db1 = (json 200 body, db2) ∧
    existing body = true ∧
    scans db2 = scans db1 ∧
    (∀ cid, Class.stationsScanned <$> classes db2 !! cid
            = Class.stationsScanned <$> classes db1 !! cid) ∧
    uniqueScans (scans db2).
Proof.
  intros Huniq Hfirst. set (db := run evs db0) in *.
  destruct (accepted_dec req db) as [(cid & sid & station & classObj & Hacc)|Hno];
    [|destruct (recordScan_rejected clock1 ok1 req db Hno) as (? & ? & He & _);
      congruence].
  pose proof (recordScan_accepted_store clock1 ok1 _ _ _ _ _ _ Hacc)
    as (Hst & _ & Hcl & Hsc).
  rewrite Hfirst in Hst, Hcl, Hsc. simpl in Hst, Hcl, Hsc.
  assert (uniqueScans (scans db1)) as Huniq1.
  { change db1 with (json status1 body1, db1).2. rewrite <- Hfirst.
    apply (uniqueScans_step db (EvScan clock1 ok1 req)).
    by apply uniqueScans_run. }
  assert (∃ c1, accepted req db1 cid sid station c1) as [c1 Hacc1].
  { destruct Hacc as (? & ? & ? & ? & Hc & Hca).
    destruct Hcl as [Hcl|Hcl].
    - exists classObj. unfold accepted. by rewrite Hst, Hcl.
    - exists (scannedClass clock1 db cid sid classObj).
      unfold accepted. rewrite Hst, Hcl, lookup_insert_eq.
      repeat split; try done.
      by rewrite (proj1 (scannedClass_latch clock1 db cid sid classObj)). }
  assert (is_Some (Db.Scan_findOne db1 cid sid)) as [s1 Hfind1].
  { destruct (Db.Scan_findOne db cid sid) as [s|] eqn:Hf.
    - unfold Db.Scan_findOne in *. rewrite Hsc. eauto.
    - apply (Scan_findOne_elem db1
               {| Scan.classId := cid; Scan.stationId := sid;
                  Scan.scannedAt := clock1 0 |}).
      rewrite Hsc. apply elem_of_app. right. apply list_elem_of_singleton.
      done. }
  rewrite (recordScan_accepted _ _ _ _ _ _ _ _ Hacc1), Hfind1. simpl.
  eexists _, _. split; [reflexivity|]. simpl. split; [done|].
  destruct Hacc1 as (_ & _ & _ & _ & Hc1 & _).
  destruct (lastScanAt_changed _ _ && ok2); simpl; repeat split; try done.
  intros cid'. destruct (decide (cid = cid')) as [<-|Hne].
  - by rewrite lookup_insert_eq, Hc1.
  - by rewrite lookup_insert_ne.
Qed.

(** C8. Completion is a one-way latch: once a class document has
    [isCompleted = true], no sequence of scan requests, interleaved with
    arbitrary changes of the station roster, ever leaves it with
    [isCompleted = false] or with another [completedAt]. *)
Theorem completion_is_a_latch evs db cid c :
  classes db !! cid = Some c →
  Class.isCompleted c = true →
  ∃ c', classes (run evs db) !! cid = Some c' ∧
        Class.isCompleted c' = true ∧
        Class.completedAt c' = Class.completedAt c.
Proof.
  revert db c. induction evs as [|ev evs IH]; intros db c Hc Hdone; [eauto|].
  simpl. destruct (latch_step db ev cid c Hc Hdone) as (c1 & Hc1 & Hd1 & Hat1).
  destruct (IH _ _ Hc1 Hd1) as (c' & ? & ? & Hat). exists c'.
  repeat split; try done. congruence.
Qed.

End RecordScanClaims.

(** ** Prize drawing: proofs *)

Lemma size_difference_fresh (cid : Id) (S picked : gset Id) :
  cid ∉ picked →
  size (({[cid]} ∪ S) ∖ picked) = 1 + size (S ∖ (picked ∪ {[cid]})).
Proof.
  intros Hfresh.
  assert (({[cid]} ∪ S) ∖ picked = {[cid]} ∪ (S ∖ (picked ∪ {[cid]}))) as ->.
  { apply set_eq. intros x.
    rewrite elem_of_difference, !elem_of_union, elem_of_difference,
      elem_of_union, !elem_of_singleton.
    destruct (decide (x = cid)) as [->|Hne]; intuition congruence. }
  rewrite size_union, size_singleton; [done|].
  apply disjoint_singleton_l. rewrite elem_of_difference, elem_of_union,
    elem_of_singleton. intuition congruence.
Qed.

Lemma size_difference_picked (cid : Id) (S picked : gset Id) :
  cid ∈ picked → ({[cid]} ∪ S) ∖ picked = S ∖ picked.
Proof.
  intros Hin. apply set_eq. intros x.
  rewrite !elem_of_difference, elem_of_union, elem_of_singleton.
  intuition congruence.
Qed.

Section Drawing.
Import DrawingController.

Variable random : nat → Q.
Variable Scan_find_class : Id → list ScanView.

Lemma ticketWeight_set_eligibleClasses v d total scans :
  ticketWeight (Drawing.set_eligibleClasses v d) total scans
  = ticketWeight d total scans.
Proof. reflexivity. Qed.

Lemma ticketWeight_ge_1 d total scans : (1 ≤ ticketWeight d total scans)%Z.
Proof. unfold ticketWeight. apply Z.le_max_l. Qed.

Lemma set_eligibleClasses_nil d :
  Drawing.set_eligibleClasses (Drawing.eligibleClasses d ++ []) d = d.
Proof. destruct d. unfold Drawing.set_eligibleClasses. simpl. by rewrite app_nil_r. Qed.

(** The loop over the active classes appends the eligible class ids to the
    drawing's list, in order, and the tickets of each to the pool. *)
Lemma eligibility_loop total activeClasses d entries :
  fold_left (eligibilityStep Scan_find_class total) activeClasses (d, entries) =
  (Drawing.set_eligibleClasses
     (Drawing.eligibleClasses d
      ++ (filter (eligible Scan_find_class total) activeClasses).*1) d,
   entries
   ++ (filter (eligible Scan_find_class total) activeClasses
       ≫= ticketsOf Scan_find_class d total)).
Proof.
  revert d entries. induction activeClasses as [|c cs IH]; intros d entries.
  - simpl. by rewrite set_eligibleClasses_nil, app_nil_r.
  - simpl. rewrite filter_cons.
    destruct (decide (eligible Scan_find_class total c)) as [Hel|Hel];
      unfold eligible in Hel.
    + destruct (_ <? _) eqn:Hlt; [apply Nat.ltb_lt in Hlt; lia|].
      rewrite bind_cons, fmap_cons, IH. f_equal.
      * unfold Drawing.set_eligibleClasses. simpl. f_equal.
        by rewrite <- app_assoc.
      * by rewrite <- app_assoc.
    + destruct (_ <? _) eqn:Hlt; [|apply Nat.ltb_ge in Hlt; lia].
      by rewrite IH.
Qed.

(** Every eligible class holds a ticket, and every ticket belongs to an
    eligible class. *)
Lemma elem_of_pool d total (cls : list (Id * Class.t)) e :
  e ∈ cls ≫= ticketsOf Scan_find_class d total ↔ ∃ c, c ∈ cls ∧ e = entryOf c.
Proof.
  rewrite list_elem_of_bind. split.
  - intros (c & He & Hc). apply elem_of_replicate in He as [-> _]. eauto.
  - intros (c & Hc & ->). exists c. split; [|done].
    apply elem_of_replicate. split; [done|].
    pose proof (ticketWeight_ge_1 d total (Scan_find_class c.1)). lia.
Qed.

Lemma pool_classIds d total (cls : list (Id * Class.t)) :
  (list_to_set (classId <$> (cls ≫= ticketsOf Scan_find_class d total)) : gset Id)
  = list_to_set cls.*1.
Proof.
  apply set_eq. intros cid. rewrite !elem_of_list_to_set, !list_elem_of_fmap.
  split.
  - intros (e & -> & He). apply elem_of_pool in He as (c & Hc & ->).
    exists c. done.
  - intros (c & -> & Hc). exists (entryOf c). split; [done|].
    apply elem_of_pool. eauto.
Qed.

Lemma swap_Permutation {A} (a : list A) i j : swap a i j ≡ₚ a.
Proof.
  unfold swap. destruct (a !! i) eqn:Hi; [|done].
  destruct (a !! j) eqn:Hj; [|done]. by apply Permutation_insert_swap.
Qed.

Lemma shuffleFrom_Permutation k i a : shuffleFrom random k i a ≡ₚ a.
Proof.
  revert k a. induction i as [|i IH]; intros k a; simpl; [done|].
  rewrite IH. apply swap_Permutation.
Qed.

(** The shuffle rearranges the pool and nothing else. *)
Lemma shuffle_Permutation a : shuffle random a ≡ₚ a.
Proof. apply shuffleFrom_Permutation. Qed.


(** The selection loop, entered with [winners] already chosen and
    [pickedClassIds] holding exactly their class ids: the result has no
    class twice, takes as many new classes as the pool offers up to the
    requested number, and every winner comes from the pool. *)
Lemma pickWinners_spec n prize entries winners (picked : gset Id) :
  picked = list_to_set (Drawing.class <$> winners) →
  NoDup (Drawing.class <$> winners) →
  (Z.of_nat (length winners) < n)%Z →
  let result := pickWinners n prize entries winners picked in
  NoDup (Drawing.class <$> result) ∧
  length result =
    Z.to_nat n `min`
    (length winners + size (list_to_set (classId <$> entries) ∖ picked)) ∧
  (∀ cid, cid ∈ Drawing.class <$> result →
          cid ∈ picked ∨ cid ∈ classId <$> entries).
Proof.
  revert winners picked.
  induction entries as [|e es IH]; intros winners picked Hpicked Hnd Hlen; simpl.
  - split; [done|]. split.
    + rewrite empty_difference_L, size_empty. lia.
    + intros cid Hcid. left. subst picked. by apply elem_of_list_to_set.
  - assert ((Z.of_nat (length winners) <? n)%Z = true) as ->
      by (apply Z.ltb_lt; lia).
    simpl. change (list_fmap Entry Id classId es) with (classId <$> es).
    case_bool_decide as Hin; simpl.
    + (* the class of this ticket has already won *)
      assert ((n <=? Z.of_nat (length winners))%Z = false) as ->
        by (apply Z.leb_gt; lia).
      destruct (IH winners picked Hpicked Hnd Hlen) as (IH1 & IH2 & IH3).
      split; [done|]. split.
      * rewrite IH2. by rewrite size_difference_picked.
      * intros cid Hcid. destruct (IH3 cid Hcid) as [?|?]; [by left|].
        right. by apply list_elem_of_further.
    + (* a new winner *)
      set (w := {| Drawing.class := classId e; Drawing.prize := prize;
                   Drawing.notified := false |}).
      assert (NoDup (Drawing.class <$> winners ++ [w])) as Hnd'.
      { rewrite fmap_app. apply NoDup_app. split; [done|].
        split; [|apply NoDup_singleton].
        intros cid Hcid Hcid'. apply list_elem_of_singleton in Hcid'. subst cid.
        apply Hin. subst picked. by apply elem_of_list_to_set. }
      assert (picked ∪ {[classId e]}
              = list_to_set (Drawing.class <$> winners ++ [w])) as Hpicked'.
      { rewrite fmap_app, list_to_set_app_L. subst picked. simpl.
        by rewrite union_empty_r_L. }
      rewrite length_app. simpl.
      rewrite (size_difference_fresh _ _ _ Hin).
      destruct (n <=? Z.of_nat (length winners + 1))%Z eqn:Hfull.
      * apply Z.leb_le in Hfull. split; [done|]. split.
        -- rewrite length_app. simpl. lia.
        -- intros cid Hcid. rewrite fmap_app in Hcid.
           apply elem_of_app in Hcid as [Hcid|Hcid].
           ++ left. subst picked. by apply elem_of_list_to_set.
           ++ apply list_elem_of_singleton in Hcid. subst cid. right.
              apply list_elem_of_here.
      * apply Z.leb_gt in Hfull.
        destruct (IH (winners ++ [w]) (picked ∪ {[classId e]}) Hpicked' Hnd')
          as (IH1 & IH2 & IH3).
        { rewrite length_app. simpl. lia. }
        split; [done|]. split.
        -- rewrite IH2, length_app. simpl. lia.
        -- intros cid Hcid. destruct (IH3 cid Hcid) as [Hp|He].
           ++ apply elem_of_union in Hp as [Hp|Hp]; [by left|].
              apply elem_of_singleton in Hp. subst cid. right.
              apply list_elem_of_here.
           ++ right. by apply list_elem_of_further.
Qed.

Lemma pool_nil d total (cls : list (Id * Class.t)) :
  cls ≫= ticketsOf Scan_find_class d total = [] ↔ cls = [].
Proof.
  split; [|by intros ->].
  destruct cls as [|c cs]; [done|]. intros Hnil.
  assert (entryOf c ∈ (c :: cs) ≫= ticketsOf Scan_find_class d total) as Hin.
  { apply elem_of_pool. exists c. split; [apply list_elem_of_here|done]. }
  rewrite Hnil in Hin. by apply elem_of_nil in Hin.
Qed.

(** A run on a pending drawing with a valid winner count and at least one
    active station. *)
Lemma runDrawing_pending id body db n d :
  validWinnerCount body n →
  drawings db !! id = Some d →
  Drawing.status d = Drawing.pending →
  0 < Db.Station_countDocuments_active db →
  runDrawing random Scan_find_class id body db =
    if decide (eligibleList Scan_find_class db = []) then
      (ErrorResponse
         "No classes are eligible for the drawing based on current criteria."
         400, db)
    else
      (json 200 (completedDrawing random Scan_find_class n body d db),
       Db.Drawing_save id (completedDrawing random Scan_find_class n body d db) db).
Proof.
  intros [Hn Hpos] Hd Hst Htotal. unfold runDrawing.
  rewrite Hn. destruct (n <=? 0)%Z eqn:Hle; [apply Z.leb_le in Hle; lia|].
  rewrite Hd, Hst.
  fold (Db.Station_countDocuments_active db).
  destruct (Db.Station_countDocuments_active db =? 0) eqn:Hz;
    [apply Nat.eqb_eq in Hz; lia|].
  rewrite eligibility_loop. cbn [app].
  fold (eligibleList Scan_find_class db). fold (entryPool Scan_find_class d db).
  destruct (decide (eligibleList Scan_find_class db = [])) as [Hnil|Hne].
  - unfold entryPool. rewrite Hnil. reflexivity.
  - destruct (length (entryPool Scan_find_class d db) =? 0) eqn:Hlen.
    + apply Nat.eqb_eq, length_zero_iff_nil, pool_nil in Hlen. done.
    + reflexivity.
Qed.

(** What a successful answer tells about the run. *)
Lemma runDrawing_success id body db status d' db' :
  runDrawing random Scan_find_class id body db = (json status d', db') →
  ∃ n d,
    validWinnerCount body n ∧
    drawings db !! id = Some d ∧
    Drawing.status d = Drawing.pending ∧
    0 < Db.Station_countDocuments_active db ∧
    eligibleList Scan_find_class db ≠ [] ∧
    status = 200 ∧
    d' = completedDrawing random Scan_find_class n body d db ∧
    db' = Db.Drawing_save id d' db.
Proof.
  intros Hrun.
  destruct (numberOfWinners body) as [n|] eqn:Hn;
    [|unfold runDrawing in Hrun; rewrite Hn in Hrun; discriminate].
  destruct (decide (0 < n)%Z) as [Hpos|Hneg]; cycle 1.
  { unfold runDrawing in Hrun. rewrite Hn in Hrun.
    destruct (n <=? 0)%Z eqn:Hle; [discriminate|apply Z.leb_gt in Hle; lia]. }
  destruct (drawings db !! id) as [d|] eqn:Hd; cycle 1.
  { unfold runDrawing in Hrun. rewrite Hn, Hd in Hrun.
    destruct (n <=? 0)%Z; discriminate. }
  destruct (Drawing.status d) eqn:Hst; cycle 1.
  { unfold runDrawing in Hrun. rewrite Hn, Hd, Hst in Hrun.
    destruct (n <=? 0)%Z; discriminate. }
  destruct (decide (0 < Db.Station_countDocuments_active db)) as [Ht|Ht]; cycle 1.
  { unfold runDrawing in Hrun. rewrite Hn, Hd, Hst in Hrun.
    fold (Db.Station_countDocuments_active db) in Hrun.
    destruct (n <=? 0)%Z; [discriminate|].
    destruct (Db.Station_countDocuments_active db =? 0) eqn:Hz;
      [discriminate|apply Nat.eqb_neq in Hz; lia]. }
  rewrite (runDrawing_pending id body db n d) in Hrun by done.
  destruct (decide (eligibleList Scan_find_class db = [])); [discriminate|].
  simplify_eq. exists n, d. done.
Qed.

(** After a successful run the stored drawing is completed, and a second
    run with a valid winner count is answered by the 409 conflict and
    changes nothing. *)
Lemma runDrawing_second_run random2 find2 id body body2 db status d' db' n2 :
  runDrawing random Scan_find_class id body db = (json status d', db') →
  validWinnerCount body2 n2 →
  drawings db' !! id = Some d' ∧
  Drawing.status d' = Drawing.completed ∧
  ∃ msg, runDrawing random2 find2 id body2 db' = (ErrorResponse msg 409, db').
Proof.
  intros (n & d & _ & _ & _ & _ & _ & _ & -> & ->)%runDrawing_success [Hn2 Hpos].
  assert (drawings
            (Db.Drawing_save id
               (completedDrawing random Scan_find_class n body d db) db) !! id
          = Some (completedDrawing random Scan_find_class n body d db)) as Hd'
    by apply lookup_insert_eq.
  split; [done|]. split; [done|].
  unfold runDrawing at 1. rewrite Hn2.
  destruct (n2 <=? 0)%Z eqn:Hle; [apply Z.leb_le in Hle; lia|].
  rewrite Hd'. simpl. eauto.
Qed.

Lemma eligibleList_NoDup db : NoDup (eligibleList Scan_find_class db).*1.
Proof.
  apply (sublist_NoDup _ (map_to_list (classes db)).*1);
    [apply NoDup_fst_map_to_list|].
  apply fmap_sublist. unfold eligibleList, Db.Class_find_active.
  etrans; apply sublist_filter.
Qed.


(** Whatever the requested number, a winner is either one chosen before
    or the class of a ticket of the pool. *)
Lemma pickWinners_from_pool n prize entries winners (picked : gset Id) cid :
  cid ∈ Drawing.class <$> pickWinners n prize entries winners picked →
  cid ∈ Drawing.class <$> winners ∨ cid ∈ classId <$> entries.
Proof.
  revert winners picked.
  induction entries as [|e es IH]; intros winners picked; simpl; [by left|].
  destruct (_ && _); simpl.
  - assert (cid ∈ Drawing.class <$> winners ++
              [ {| Drawing.class := classId e; Drawing.prize := prize;
                   Drawing.notified := false |} ] →
            cid ∈ Drawing.class <$> winners ∨ cid ∈ classId e :: (classId <$> es))
      as Hnew.
    { rewrite fmap_app. intros [?|Hc]%elem_of_app; [by left|].
      apply list_elem_of_singleton in Hc. subst cid. right.
      apply list_elem_of_here. }
    destruct (_ <=? _)%Z; [exact Hnew|].
    intros [Hw|He]%IH; [by apply Hnew|].
    right. by apply list_elem_of_further.
  - destruct (_ <=? _)%Z; [by left|].
    intros [Hw|He]%IH; [by left|].
    right. by apply list_elem_of_further.
Qed.

(** The winners of a completed run are drawn from the eligible classes. *)
Lemma winners_eligible n body d db cid :
  cid ∈ Drawing.class <$> Drawing.winners
          (completedDrawing random Scan_find_class n body d db) →
  cid ∈ (eligibleList Scan_find_class db).*1.
Proof.
  simpl. intros [Hempty|Hpool]%pickWinners_from_pool;
    [by apply elem_of_nil in Hempty|].
  rewrite shuffle_Permutation in Hpool.
  apply (elem_of_list_to_set (C:=gset Id)) in Hpool.
  unfold entryPool in Hpool. rewrite pool_classIds in Hpool.
  by apply elem_of_list_to_set in Hpool.
Qed.

Lemma eligibleOutput_loop total (cls : list (Id * Class.t)) acc :
  fold_left (eligibleOutputStep Scan_find_class total) cls acc =
  acc ++ (eligibleOutput Scan_find_class total
          <$> filter (eligible Scan_find_class total) cls).
Proof.
  revert acc. induction cls as [|c cs IH]; intros acc; simpl.
  - by rewrite app_nil_r.
  - rewrite IH, filter_cons. unfold eligibleOutputStep.
    destruct (decide (eligible Scan_find_class total c)) as [Hel|Hel];
      unfold eligible in Hel.
    + destruct (_ <=? _) eqn:Hle; [|apply Nat.leb_gt in Hle; lia].
      rewrite fmap_cons, <- app_assoc. done.
    + destruct (_ <=? _) eqn:Hle; [apply Nat.leb_le in Hle; lia|done].
Qed.

Lemma getEligibleClassesForDrawing_ok db :
  0 < Db.Station_countDocuments_active db →
  let data :=
    eligibleOutput Scan_find_class (Db.Station_countDocuments_active db)
    <$> eligibleList Scan_find_class db in
  getEligibleClassesForDrawing Scan_find_class db
  = eligibleJson 200 (length data) data.
Proof.
  intros Ht. unfold getEligibleClassesForDrawing.
  fold (Db.Station_countDocuments_active db).
  destruct (Db.Station_countDocuments_active db =? 0) eqn:Hz;
    [apply Nat.eqb_eq in Hz; lia|].
  by rewrite eligibleOutput_loop.
Qed.

(** The winners of a completed run: no class twice, and as many as
    requested unless there are fewer eligible classes. *)
Lemma completedDrawing_winners n body d db :
  (0 < n)%Z →
  let winners :=
    Drawing.winners (completedDrawing random Scan_find_class n body d db) in
  NoDup (Drawing.class <$> winners) ∧
  length winners = Z.to_nat n `min` length (eligibleList Scan_find_class db).
Proof.
  intros Hpos. simpl.
  destruct (pickWinners_spec n (prizeOf body)
              (shuffle random (entryPool Scan_find_class d db)) [] ∅)
    as (Hnd & Hlen & _); [done|apply NoDup_nil_2|simpl; lia|].
  split; [done|]. rewrite Hlen. simpl.
  assert (list_to_set (classId <$> shuffle random (entryPool Scan_find_class d db))
            ∖ (∅ : gset Id)
          = list_to_set (eligibleList Scan_find_class db).*1) as ->.
  { rewrite difference_empty_L.
    rewrite (list_to_set_perm_L _ (classId <$> entryPool Scan_find_class d db))
      by (by rewrite shuffle_Permutation).
    apply pool_classIds. }
  rewrite size_list_to_set by apply eligibleList_NoDup.
  by rewrite length_fmap.
Qed.


End Drawing.

(** ** Prize drawing: the claims *)

Section DrawingClaims.
Import DrawingController.





(** C6. Running a drawing whose status is [completed] is answered by an
    error and leaves the store, hence the drawing's winners, eligible list
    and status, as it was; the error is the 409 conflict whenever the
    request carries a valid winner count (the 400 of the winner-count check
    comes first otherwise). *)
Theorem completed_drawing_rejects_rerun
    random Scan_find_class id body db d :
  drawings db !! id = Some d →
  Drawing.status d = Drawing.completed →
  ∃ msg code db' d',
    runDrawing random Scan_find_class id body db = (ErrorResponse msg code, db') ∧
    db' = db ∧
    drawings db' !! id = Some d' ∧
    Drawing.winners d' = Drawing.winners d ∧
    Drawing.eligibleClasses d' = Drawing.eligibleClasses d ∧
    Drawing.status d' = Drawing.completed ∧
    (code = 409 ∨ code = 400) ∧
    (∀ n, validWinnerCount body n → code = 409).
Proof.
  intros Hd Hst. unfold runDrawing.
  destruct (numberOfWinners body) as [n|] eqn:Hn.
  - destruct (n <=? 0)%Z eqn:Hle.
    + eexists _, _, db, d. split; [reflexivity|]. repeat split; try done.
      * by right.
      * intros n' [Hn' Hpos]. apply Z.leb_le in Hle. simplify_eq. lia.
    + rewrite Hd, Hst. eexists _, _, db, d. split; [reflexivity|].
      repeat split; try done. by left.
  - eexists _, _, db, d. split; [reflexivity|]. repeat split; try done.
    + by right.
    + intros n' [Hn' _]. congruence.
Qed.

End DrawingClaims.

(** ** Ticket weights: proofs *)

Section Weights.
Import DrawingController.

Lemma foldr_max_spec v vs :
  foldr Z.max v vs ∈ v :: vs ∧ ∀ x, x ∈ v :: vs → (x ≤ foldr Z.max v vs)%Z.
Proof.
  induction vs as [|a vs [IHin IHle]]; simpl.
  - split; [apply list_elem_of_here|].
    intros x ->%list_elem_of_singleton. lia.
  - split.
    + destruct (Z.max_spec a (foldr Z.max v vs)) as [[_ ->]|[_ ->]].
      * apply elem_of_cons in IHin as [->|?];
          [apply list_elem_of_here|by do 2 apply list_elem_of_further].
      * apply list_elem_of_further, list_elem_of_here.
    + intros x [->|[->|Hx]%elem_of_cons]%elem_of_cons.
      * pose proof (IHle v (list_elem_of_here _ _)). lia.
      * lia.
      * pose proof (IHle x (list_elem_of_further _ _ _ Hx)). lia.
Qed.

Lemma foldr_min_spec v vs :
  foldr Z.min v vs ∈ v :: vs ∧ ∀ x, x ∈ v :: vs → (foldr Z.min v vs ≤ x)%Z.
Proof.
  induction vs as [|a vs [IHin IHle]]; simpl.
  - split; [apply list_elem_of_here|].
    intros x ->%list_elem_of_singleton. lia.
  - split.
    + destruct (Z.min_spec a (foldr Z.min v vs)) as [[_ ->]|[_ ->]].
      * apply list_elem_of_further, list_elem_of_here.
      * apply elem_of_cons in IHin as [->|?];
          [apply list_elem_of_here|by do 2 apply list_elem_of_further].
    + intros x [->|[->|Hx]%elem_of_cons]%elem_of_cons.
      * pose proof (IHle v (list_elem_of_here _ _)). lia.
      * lia.
      * pose proof (IHle x (list_elem_of_further _ _ _ Hx)). lia.
Qed.

(** [Math.max] returns the largest argument. *)
Lemma Math_max_Some l m :
  Math_max l = Some m ↔ m ∈ l ∧ ∀ x, x ∈ l → (x ≤ m)%Z.
Proof.
  destruct l as [|v vs]; simpl.
  - split; [done|]. intros [Hin _]. by apply elem_of_nil in Hin.
  - pose proof (foldr_max_spec v vs) as [Hin Hle]. split.
    + intros [= <-]. done.
    + intros [Hm Hub]. f_equal. apply Z.le_antisymm; [by apply Hub|by apply Hle].
Qed.

Lemma Math_max_None l : Math_max l = None ↔ l = [].
Proof. by destruct l. Qed.

(** It only depends on which values occur. *)
Lemma Math_max_ext l1 l2 :
  (∀ x, x ∈ l1 ↔ x ∈ l2) → Math_max l1 = Math_max l2.
Proof.
  intros Hext. destruct (Math_max l1) as [m|] eqn:H1.
  - symmetry. apply Math_max_Some. apply Math_max_Some in H1 as [Hin Hle].
    split; [by apply Hext|]. intros x Hx. by apply Hle, Hext.
  - apply Math_max_None in H1. subst l1. symmetry. apply Math_max_None.
    destruct l2 as [|x l2]; [done|].
    pose proof (proj2 (Hext x) (list_elem_of_here _ _)) as Hx.
    by apply elem_of_nil in Hx.
Qed.

Lemma insertScan_Permutation s sorted : insertScan s sorted ≡ₚ s :: sorted.
Proof.
  induction sorted as [|t rest IH]; simpl; [done|].
  destruct (_ <=? _)%Z; [done|]. rewrite IH. apply Permutation_swap.
Qed.

(** The sort rearranges the scans ... *)
Lemma sortScans_Permutation scans : sortScans scans ≡ₚ scans.
Proof.
  induction scans as [|s rest IH]; simpl; [done|].
  by rewrite insertScan_Permutation, IH.
Qed.

(** ... into ascending order of scan time. *)
Lemma insertScan_sorted s sorted :
  StronglySorted byTime sorted → StronglySorted byTime (insertScan s sorted).
Proof.
  induction 1 as [|t rest Hsorted IH Hall]; simpl.
  - repeat constructor.
  - destruct (scannedAt s <=? scannedAt t)%Z eqn:Hle.
    + apply Z.leb_le in Hle. constructor; [by constructor|].
      constructor; [done|]. eapply Forall_impl; [exact Hall|].
      unfold byTime. intros x Hx. lia.
    + apply Z.leb_gt in Hle. constructor; [done|].
      rewrite insertScan_Permutation. constructor; [|done].
      unfold byTime. lia.
Qed.

Lemma sortScans_sorted scans : StronglySorted byTime (sortScans scans).
Proof.
  induction scans as [|s rest IH]; simpl; [constructor|].
  by apply insertScan_sorted.
Qed.

Lemma earliestScan_Some scans m :
  earliestScan scans = Some m ↔
  m ∈ scannedAt <$> scans ∧ ∀ x, x ∈ scannedAt <$> scans → (m ≤ x)%Z.
Proof.
  unfold earliestScan. destruct (scannedAt <$> scans) as [|t ts].
  - split; [done|]. intros [Hin _]. by apply elem_of_nil in Hin.
  - pose proof (foldr_min_spec t ts) as [Hin Hle]. split.
    + intros [= <-]. done.
    + intros [Hm Hlb]. f_equal. apply Z.le_antisymm; [by apply Hle|by apply Hlb].
Qed.

(** The first scan in sorted order is the earliest one. *)
Lemma sortScans_head scans first rest :
  sortScans scans = first :: rest →
  earliestScan scans = Some (scannedAt first).
Proof.
  intros Hsorted. apply earliestScan_Some.
  pose proof (sortScans_Permutation scans) as Hperm.
  pose proof (sortScans_sorted scans) as Hord.
  rewrite Hsorted in Hperm, Hord. split.
  - rewrite <- Hperm, fmap_cons. apply list_elem_of_here.
  - intros x (s & -> & Hs)%list_elem_of_fmap. rewrite <- Hperm in Hs.
    apply StronglySorted_inv in Hord as [_ Hall].
    apply elem_of_cons in Hs as [->|Hs]; [lia|].
    rewrite Forall_forall in Hall. by apply Hall.
Qed.

Lemma lastScanByStation_snoc l x :
  lastScanByStation (l ++ [x])
  = <[station x := scannedAt x]> (lastScanByStation l).
Proof. unfold lastScanByStation. by rewrite fold_left_app. Qed.

(** On scans in ascending order of time, the object filled by the
    [forEach] maps every station to the time of its latest scan. *)
Lemma lastScanByStation_sorted l k :
  StronglySorted byTime l →
  lastScanByStation l !! k = perStationLatest l k.
Proof.
  induction l as [|x l IH] using rev_ind; intros Hsorted; [done|].
  apply StronglySorted_app in Hsorted as (Hle & Hl & _).
  rewrite lastScanByStation_snoc. unfold perStationLatest.
  rewrite filter_app, fmap_app.
  destruct (decide (station x = k)) as [Hk|Hk].
  - rewrite Hk, lookup_insert_eq. symmetry. apply Math_max_Some.
    rewrite filter_cons_True by done. split.
    + apply elem_of_app. right. apply list_elem_of_here.
    + intros t [Ht|Ht]%elem_of_app.
      * apply list_elem_of_fmap in Ht as (s & -> & Hs).
        apply list_elem_of_filter in Hs as [_ Hs].
        apply (Hle s x Hs), list_elem_of_here.
      * apply list_elem_of_singleton in Ht. lia.
  - rewrite lookup_insert_ne by done.
    rewrite filter_cons_False, filter_nil by done. simpl.
    rewrite app_nil_r. by apply IH.
Qed.

Lemma perStationLatest_Permutation l1 l2 k :
  l1 ≡ₚ l2 → perStationLatest l1 k = perStationLatest l2 k.
Proof.
  intros Hperm. unfold perStationLatest. apply Math_max_ext.
  intros x. by rewrite Hperm.
Qed.

(** [endTime] as the handler computes it is the largest of the per-station
    latest scan times. *)
Lemma endTime_latestOfStations scans :
  Math_max (Object_values (lastScanByStation (sortScans scans)))
  = latestOfStations scans.
Proof.
  assert (∀ k, lastScanByStation (sortScans scans) !! k
               = perStationLatest scans k) as Hlookup.
  { intros k. rewrite lastScanByStation_sorted by apply sortScans_sorted.
    apply perStationLatest_Permutation, sortScans_Permutation. }
  unfold latestOfStations, Object_values. apply Math_max_ext. intros v.
  rewrite list_elem_of_fmap, list_elem_of_omap. split.
  - intros ([k v'] & -> & Hkv). apply elem_of_map_to_list in Hkv.
    rewrite Hlookup in Hkv. simpl.
    pose proof Hkv as Hmax. unfold perStationLatest in Hmax.
    apply Math_max_Some in Hmax as [Hin _].
    apply list_elem_of_fmap in Hin as (s & _ & Hs).
    apply list_elem_of_filter in Hs as [Hk Hs].
    exists s. by rewrite Hk.
  - intros (s & Hs & Hv). exists (station s, v). split; [done|].
    apply elem_of_map_to_list. by rewrite Hlookup.
Qed.

(** The completion time the handler computes is the one the specification
    describes. *)
Lemma completionTimeMinutes_elapsed scans :
  completionTimeMinutes scans = elapsedMinutes scans.
Proof.
  unfold completionTimeMinutes, elapsedMinutes.
  destruct (sortScans scans) as [|first rest] eqn:Hsorted.
  - pose proof (sortScans_Permutation scans) as Hperm. rewrite Hsorted in Hperm.
    apply Permutation_nil_l in Hperm. by subst scans.
  - rewrite (sortScans_head _ _ _ Hsorted).
    rewrite <- Hsorted, endTime_latestOfStations. done.
Qed.

(** The largest per-station latest time is the time of the latest scan. *)
Lemma latestOfStations_latest scans :
  latestOfStations scans = Math_max (scannedAt <$> scans).
Proof.
  destruct (Math_max (scannedAt <$> scans)) as [m|] eqn:Hmax.
  - apply Math_max_Some in Hmax as [Hin Hub].
    apply list_elem_of_fmap in Hin as (s & -> & Hs).
    assert (perStationLatest scans (station s) = Some (scannedAt s)) as Hlatest.
    { apply Math_max_Some. split.
      - apply list_elem_of_fmap. exists s. split; [done|].
        by apply list_elem_of_filter.
      - intros x (s' & -> & Hs')%list_elem_of_fmap.
        apply list_elem_of_filter in Hs' as [_ Hs'].
        apply Hub, list_elem_of_fmap. eauto. }
    apply Math_max_Some. split.
    + apply list_elem_of_omap. eauto.
    + intros x (s' & Hs' & Hx)%list_elem_of_omap.
      apply Math_max_Some in Hx as [Hin _].
      apply list_elem_of_fmap in Hin as (s'' & -> & Hs'').
      apply list_elem_of_filter in Hs'' as [_ Hs''].
      apply Hub, list_elem_of_fmap. eauto.
  - apply Math_max_None, fmap_nil_inv in Hmax. by subst scans.
Qed.

End Weights.

(** ** Ticket weights and class progress: the claims *)

Section WeightClaims.
Import DrawingController.

(** The weight the handler computes, written with the completion time of
    the specification. *)
Lemma weightBeforeRounding_amended drawing total scans :
  weightBeforeRounding drawing total scans = amendedWeight drawing total scans.
Proof.
  unfold weightBeforeRounding, amendedWeight.
  rewrite completionTimeMinutes_elapsed.
  destruct (_ =? _), (0 <? _), (positiveMinutes _), (truthy_number _); done.
Qed.

Lemma ticketWeight_amended drawing total scans :
  ticketWeight drawing total scans = amendedTicketWeight drawing total scans.
Proof.
  unfold ticketWeight, amendedTicketWeight.
  by rewrite weightBeforeRounding_amended.
Qed.

(** [Math.round] of a finite number is the integer nearest to its value,
    the upper one of two that are equally near. *)
Lemma Math_round_nearest x :
  Number.isFinite x = true →
  (inject_Z (Math_round x) - (1 # 2) <= Number.toQ x)%Q ∧
  (Number.toQ x < inject_Z (Math_round x) + (1 # 2))%Q.
Proof.
  intros Hfinite. unfold Math_round. rewrite Hfinite.
  pose proof (Qfloor_le (Number.toQ x + (1 # 2))) as Hle.
  pose proof (Qlt_floor (Number.toQ x + (1 # 2))) as Hlt.
  rewrite inject_Z_plus in Hlt. change (inject_Z 1) with 1%Q in Hlt.
  split; lra.
Qed.

(** When the class has scanned exactly as many distinct stations as are
    active, the weight is the one the claim states. *)
Lemma ticketWeight_claimed_when_exact drawing total scans :
  size (uniqueStationsScanned scans) = total →
  ticketWeight drawing total scans = claimedTicketWeight drawing scans.
Proof.
  intros Hexact. rewrite ticketWeight_amended.
  unfold amendedTicketWeight, amendedWeight, claimedTicketWeight.
  by rewrite Hexact, Nat.eqb_refl.
Qed.

(** C2, as stated, fails: a class that has scanned three distinct stations
    while two are active is eligible, has a positive completion time and a
    truthy factor, yet gets no completion-time bonus. *)
Lemma claimedTicketWeight_fails :
  ¬ (∀ drawing total scans,
       total ≤ size (uniqueStationsScanned scans) →
       ticketWeight drawing total scans = claimedTicketWeight drawing scans).
Proof.
  intros Hclaim.
  specialize (Hclaim Example.pendingDrawing 2 Example.threeScans).
  assert (2 ≤ size (uniqueStationsScanned Example.threeScans)) as Hel
    by (vm_compute; lia).
  specialize (Hclaim Hel). vm_compute in Hclaim. discriminate.
Qed.

(** C2 (amended). For every class in [runDrawing], the number [w] that the
    handler rounds starts at 1, adds the number of distinct stations
    scanned times [weightingFactors.stationsFound || 0], and adds the flat
    value [weightingFactors.completionTime] when that number equals the
    number of active stations, the class has at least one scan, its
    completion time in minutes (largest per-station latest scan time minus
    earliest scan time) is positive and the factor is truthy; the sums and
    the product are those of JavaScript numbers, each rounded to the
    nearest binary64 value.  Whenever [w] is finite, the ticket weight is
    [max(1, round(w))], an integer at least 1, where [round(w)] is the
    integer nearest to the value of [w], the upper one of two that are
    equally near. *)
Theorem ticketWeight_formula drawing total scans :
  let w := amendedWeight drawing total scans in
  weightBeforeRounding drawing total scans = w ∧
  (Number.isFinite w = true →
   ticketWeight drawing total scans = Z.max 1 (Math_round w) ∧
   (1 ≤ ticketWeight drawing total scans)%Z ∧
   (inject_Z (Math_round w) - (1 # 2) <= Number.toQ w)%Q ∧
   (Number.toQ w < inject_Z (Math_round w) + (1 # 2))%Q).
Proof.
  simpl. split; [apply weightBeforeRounding_amended|].
  intros Hfinite. split; [apply ticketWeight_amended|].
  split; [apply ticketWeight_ge_1|]. by apply Math_round_nearest.
Qed.

End WeightClaims.

Section ProgressClaims.
Import ClassController.

(** The completion time of the progress query is read off the class
    document alone: it is the time from registration to [completedAt]. *)
Lemma getClassProgress_completionTime f g req db classObj status data :
  classes db !! params_id req = Some classObj →
  getClassProgress f g req db = json status data →
  completionTime data =
    if Class.isCompleted classObj then
      match Class.completedAt classObj, Class.registeredAt classObj with
      | Some completedAt, Some registeredAt =>
        Some (minutes_between registeredAt completedAt)
      | _, _ => None
      end
    else None.
Proof.
  intros Hc. unfold getClassProgress. rewrite Hc.
  destruct (_ && _); [done|]. by intros [= _ <-].
Qed.

(** C4. The scenario of the claim, on the code: two active stations, a
    class registered at 09:00 that scans S1 at 10:00 and S2 at 10:05.  The
    progress query answers [completedCount = 2], [totalStations = 2],
    [isCompleted = true], but its [completionTime] is 65 minutes, the time
    since registration, not the 5 minutes between the two scans. *)
Theorem getClassProgress_scenario f g :
  getClassProgress f g Example.progressOfC1 Example.db2 =
    json 200
      {| completedCount := 2;
         totalStations := 2;
         progressPercentage := 100;
         isCompleted := true;
         completedAt := Some Example.at1005;
         lastScanAt := Some Example.at1005;
         completionTime := Some (3900000 # 60000) |} ∧
  (3900000 # 60000 == 65)%Q ∧
  elapsedMinutes
    [Example.view "S1" Example.at1000; Example.view "S2" Example.at1005]
  = Some (300000 # 60000) ∧
  (300000 # 60000 == 5)%Q.
Proof. repeat split. Qed.

End ProgressClaims.

Section ZeroStations.
Import ScanController.

(** C9, as stated, fails: no execution of [recordScan] in a store without
    active stations turns [isCompleted] from false to true; and even were
    the count that the completion block reads zero, the block would not set
    the flag of the document it is given. *)
Lemma no_completion_without_active_stations :
  ¬ ((∃ clock saveOk req db cid c c',
        Db.Station_countDocuments_active db = 0 ∧
        classes db !! cid = Some c ∧
        Class.isCompleted c = false ∧
        classes (recordScan clock saveOk req db).2 !! cid = Some c' ∧
        Class.isCompleted c' = true) ∨
     (∃ now sid classObj,
        Class.isCompleted classObj = false ∧
        Class.isCompleted
          (checkCompletion 0 now
             (Class.set_lastScanAt (Some now) (addStationScanned sid classObj)))
        = true)).
Proof.
  intros [(clock & saveOk & req & db & cid & c & c' & Hz & Hc & Hf & Hc' & Ht)
         |(now & sid & classObj & Hf & Ht)].
  - destruct (recordScan_completes_only_when_covered
                clock saveOk req db cid c c' Hc Hf Hc' Ht) as [Hpos _]. lia.
  - rewrite checkCompletion_no_stations in Ht
      by apply addStationScanned_nonempty.
    simpl in Ht.
    destruct (addStationScanned_fields sid classObj) as (_ & Hsame & _).
    congruence.
Qed.

(** C9 (amended). With zero active stations [recordScan] answers every
    request by an error (400 or 404) and leaves the store as it is, so it
    completes no class; the branch of its completion block for zero active
    stations cannot fire, since it runs after the scanned station was added
    to [stationsScanned] and asks for that list to be empty.  The drawing
    paths answer by an error as well: [runDrawing] changes nothing and the
    eligible-classes query returns 400. *)
Theorem zero_active_stations_complete_no_class clock saveOk req db :
  Db.Station_countDocuments_active db = 0 →
  (∃ msg code,
     recordScan clock saveOk req db = (ErrorResponse msg code, db) ∧
     (code = 400 ∨ code = 404)) ∧
  (∀ now sid classObj,
     let c2 := Class.set_lastScanAt (Some now) (addStationScanned sid classObj) in
     checkCompletion 0 now c2 = c2) ∧
  (∀ random Scan_find_class id body,
     ∃ msg code,
       DrawingController.runDrawing random Scan_find_class id body db
       = (DrawingController.ErrorResponse msg code, db)) ∧
  (∀ Scan_find_class,
     ∃ msg,
       DrawingController.getEligibleClassesForDrawing Scan_find_class db
       = DrawingController.eligibleError msg 400).
Proof.
  intros Hz. split; [|split; [|split]].
  - apply recordScan_rejected.
    intros cid sid station classObj (_ & _ & Hst & Hact & _).
    pose proof (active_station_counted db sid station Hst Hact). lia.
  - intros now sid classObj. simpl. apply checkCompletion_no_stations.
    apply addStationScanned_nonempty.
  - intros random find id body. unfold DrawingController.runDrawing.
    fold (Db.Station_countDocuments_active db). rewrite Hz. simpl.
    repeat case_match; eauto.
  - intros find. unfold DrawingController.getEligibleClassesForDrawing.
    fold (Db.Station_countDocuments_active db). rewrite Hz. simpl. eauto.
Qed.

End ZeroStations.

(** ** The theorems at work on the example data *)

Section Witnesses.
Import Example.

(** The raffle of the example: three active stations; the class that
    scanned only two of them is neither eligible nor a winner. *)
Lemma raffle_outcome :
  ∃ d' db',
    DrawingController.runDrawing random history "D1" twoWinners raffleDb
    = (DrawingController.json 200 d', db') ∧
    Db.Station_countDocuments_active raffleDb = 3 ∧
    size (DrawingController.uniqueStationsScanned (history "C2")) = 2 ∧
    Drawing.eligibleClasses d' = ["C3"; "C1"] ∧
    Drawing.class <$> Drawing.winners d' = ["C1"; "C3"].
Proof. eexists _, _. split; [vm_compute; reflexivity|]. by vm_compute. Qed.

(** The tickets of the example once S3 is deactivated: C1, with three
    distinct stations scanned against two active ones, is eligible and
    holds 4 tickets (1 + 3 x 1, no completion-time bonus), where the weight
    with the bonus would be 5; C2, with exactly two, holds 1 + 2 x 1 + 1. *)
Lemma raffle_tickets_after_deactivation :
  let pool := entryPool history pendingDrawing raffleDbTwoActive in
  Db.Station_countDocuments_active raffleDbTwoActive = 2 ∧
  length (filter (λ e, DrawingController.classId e = "C1") pool) = 4 ∧
  claimedTicketWeight pendingDrawing (history "C1") = 5%Z ∧
  length (filter (λ e, DrawingController.classId e = "C2") pool) = 4.
Proof. by vm_compute. Qed.




Lemma completed_drawing_rejects_rerun_witness :
  drawings raffleDb !! "D2" = Some finishedDrawing ∧
  Drawing.status finishedDrawing = Drawing.completed ∧
  ∃ msg code db' d',
    DrawingController.runDrawing random history "D2" twoWinners raffleDb
    = (DrawingController.ErrorResponse msg code, db') ∧
    db' = raffleDb ∧
    drawings db' !! "D2" = Some d' ∧
    Drawing.winners d' = Drawing.winners finishedDrawing ∧
    Drawing.eligibleClasses d' = Drawing.eligibleClasses finishedDrawing ∧
    Drawing.status d' = Drawing.completed ∧
    (code = 409 ∨ code = 400) ∧
    (∀ n, validWinnerCount twoWinners n → code = 409).
Proof.
  assert (drawings raffleDb !! "D2" = Some finishedDrawing) as H1
    by reflexivity.
  assert (Drawing.status finishedDrawing = Drawing.completed) as H2
    by reflexivity.
  split; [exact H1|]. split; [exact H2|].
  exact (completed_drawing_rejects_rerun
           random history "D2" twoWinners raffleDb finishedDrawing H1 H2).
Defined.

Lemma recordScan_rescan_is_idempotent_witness :
  uniqueScans (scans db0) ∧
  ScanController.recordScan (λ _, at1000) true (scanOf "C1" "S1") (run [] db0)
  = (ScanController.json 201 firstScanBody, db1) ∧
  ∃ body db2,
    ScanController.recordScan (λ _, at1005) true (scanOf "C1" "S1") db1
    = (ScanController.json 200 body, db2) ∧
    ScanController.existing body = true ∧
    scans db2 = scans db1 ∧
    (∀ cid, Class.stationsScanned <$> classes db2 !! cid
            = Class.stationsScanned <$> classes db1 !! cid) ∧
    uniqueScans (scans db2).
Proof.
  assert (uniqueScans (scans db0)) as H1 by apply NoDup_nil_2.
  assert (ScanController.recordScan (λ _, at1000) true (scanOf "C1" "S1")
            (run [] db0)
          = (ScanController.json 201 firstScanBody, db1)) as H2
    by (vm_compute; reflexivity).
  split; [exact H1|]. split; [exact H2|].
  exact (recordScan_rescan_is_idempotent
           [] db0 (λ _, at1000) true (λ _, at1005) true (scanOf "C1" "S1")
           201 firstScanBody db1 H1 H2).
Defined.

Lemma completion_is_a_latch_witness :
  classes db2 !! "C1" = Some completedC1 ∧
  Class.isCompleted completedC1 = true ∧
  ∃ c', classes (run laterEvents db2) !! "C1" = Some c' ∧
        Class.isCompleted c' = true ∧
        Class.completedAt c' = Class.completedAt completedC1.
Proof.
  assert (classes db2 !! "C1" = Some completedC1) as H1
    by (vm_compute; reflexivity).
  assert (Class.isCompleted completedC1 = true) as H2 by reflexivity.
  split; [exact H1|]. split; [exact H2|].
  exact (completion_is_a_latch laterEvents db2 "C1" completedC1 H1 H2).
Defined.

Lemma recordScan_repeat_touches_lastScanAt_witness :
  let existingScan :=
    {| Scan.classId := "C1"; Scan.stationId := "S2"; Scan.scannedAt := at1005 |} in
  accepted (scanOf "C1" "S2") db2 "C1" "S2" (station "Meadow" true) completedC1 ∧
  Db.Scan_findOne db2 "C1" "S2" = Some existingScan ∧
  ∃ body db' classObj',
    ScanController.recordScan (λ _, at1010) true (scanOf "C1" "S2") db2
    = (ScanController.json 200 body, db') ∧
    ScanController.existing body = true ∧
    classes db' !! "C1" = Some classObj' ∧
    Class.lastScanAt classObj' = Some at1010 ∧
    Class.stationsScanned classObj' = Class.stationsScanned completedC1 ∧
    Class.isCompleted classObj' = Class.isCompleted completedC1 ∧
    Class.completedAt classObj' = Class.completedAt completedC1 ∧
    scans db' = scans db2.
Proof.
  intros existingScan.
  assert (accepted (scanOf "C1" "S2") db2 "C1" "S2" (station "Meadow" true)
            completedC1) as H1
    by (repeat split; vm_compute; reflexivity).
  assert (Db.Scan_findOne db2 "C1" "S2" = Some existingScan) as H2
    by (vm_compute; reflexivity).
  split; [exact H1|]. split; [exact H2|].
  exact (recordScan_repeat_touches_lastScanAt
           (λ _, at1010) (scanOf "C1" "S2") db2 "C1" "S2"
           (station "Meadow" true) completedC1 existingScan H1 H2).
Defined.

Lemma zero_active_stations_complete_no_class_witness :
  Db.Station_countDocuments_active dbNoStations = 0 ∧
  ∃ msg code,
    ScanController.recordScan (λ _, at1010) true (scanOf "C1" "S1") dbNoStations
    = (ScanController.ErrorResponse msg code, dbNoStations) ∧
    (code = 400 ∨ code = 404).
Proof.
  assert (Db.Station_countDocuments_active dbNoStations = 0) as H1
    by (vm_compute; reflexivity).
  split; [exact H1|].
  exact (proj1 (zero_active_stations_complete_no_class
                  (λ _, at1010) true (scanOf "C1" "S1") dbNoStations H1)).
Defined.

End Witnesses.

(** * Further properties of the handlers *)

(** ** Scan recording *)

Section RecordScanMore.
Import ScanController.

Lemma checkCompletion_profile total now c :
  let c' := checkCompletion total now c in
  Class.name c' = Class.name c ∧ Class.teacher c' = Class.teacher c ∧
  Class.registeredAt c' = Class.registeredAt c.
Proof. unfold checkCompletion. repeat case_match; done. Qed.

Lemma addStationScanned_profile sid c :
  let c' := addStationScanned sid c in
  Class.name c' = Class.name c ∧ Class.teacher c' = Class.teacher c ∧
  Class.registeredAt c' = Class.registeredAt c ∧
  Class.lastScanAt c' = Class.lastScanAt c.
Proof. unfold addStationScanned. by case_bool_decide. Qed.

(** What an accepted request does to the class document it loaded. *)
Lemma scannedClass_fields clock db cid sid c :
  let c' := scannedClass clock db cid sid c in
  Class.name c' = Class.name c ∧ Class.teacher c' = Class.teacher c ∧
  Class.registeredAt c' = Class.registeredAt c ∧
  Class.isActive c' = Class.isActive c ∧
  Class.stationsScanned c' =
    match Db.Scan_findOne db cid sid with
    | Some _ => Class.stationsScanned c
    | None => Class.stationsScanned (addStationScanned sid c)
    end ∧
  is_Some (Class.lastScanAt c').
Proof.
  unfold scannedClass. destruct (Db.Scan_findOne db cid sid); simpl.
  - repeat split; eauto.
  - match goal with |- context [checkCompletion ?t ?n ?c2] =>
      pose proof (checkCompletion_fields t n c2) as (Hs & Hl & Ha & _);
      pose proof (checkCompletion_profile t n c2) as (Hn & Ht & Hr) end.
    destruct (addStationScanned_profile sid c) as (Hn' & Ht' & Hr' & _).
    destruct (addStationScanned_fields sid c) as (_ & _ & _ & Ha').
    rewrite Hn, Ht, Hr, Ha, Hs, Hl. simpl.
    repeat split; eauto.
Qed.

(** The store after an accepted request, exactly. *)
Lemma recordScan_accepted_result clock saveOk req db cid sid station classObj :
  accepted req db cid sid station classObj →
  (recordScan clock saveOk req db).2 =
    match Db.Scan_findOne db cid sid with
    | Some _ =>
      if lastScanAt_changed (Class.lastScanAt classObj) (clock 0) && saveOk
      then Db.Class_save cid (scannedClass clock db cid sid classObj) db
      else db
    | None =>
      let db1 :=
        Db.Scan_create {| Scan.classId := cid; Scan.stationId := sid;
                          Scan.scannedAt := clock 0 |} db in
      if saveOk then Db.Class_save cid (scannedClass clock db cid sid classObj) db1
      else db1
    end.
Proof.
  intros Hacc. rewrite (recordScan_accepted _ _ _ _ _ _ _ _ Hacc).
  unfold scannedClass. destruct (Db.Scan_findOne db cid sid); reflexivity.
Qed.

(** How one event changes a class document: not at all, or as an accepted
    request of that class does. *)
Lemma step_class db ev cid :
  (classes (step db ev) !! cid = classes db !! cid) ∨
  (∃ clock sid c,
     classes db !! cid = Some c ∧
     classes (step db ev) !! cid = Some (scannedClass clock db cid sid c)).
Proof.
  destruct ev as [clock saveOk req|roster]; simpl; [|by left].
  destruct (recordScan_store clock saveOk req db) as (_ & _ & Hcl & _).
  destruct Hcl as [->|(cid0 & sid & classObj & Hold & ->)]; [by left|].
  destruct (decide (cid0 = cid)) as [->|Hne].
  - right. exists clock, sid, classObj. by rewrite lookup_insert_eq.
  - left. by rewrite lookup_insert_ne.
Qed.

(** X1. The guards of [recordScan], in order: a missing [classId] or
    [stationQRCode] gives 400; an unknown station 404; an inactive station
    400; an unknown class 404; an inactive class 400; each leaves the store
    as it is.  A request that passes them is answered 200 with
    [existing: true] when the pair already has a scan and 201 with
    [existing: false] otherwise. *)
Theorem recordScan_guards_in_order clock saveOk req db :
  let result := recordScan clock saveOk req db in
  ((truthy_string (classId req) = None ∨
    truthy_string (stationQRCode req) = None) →
   ∃ msg, result = (ErrorResponse msg 400, db)) ∧
  ∀ cid sid,
    truthy_string (classId req) = Some cid →
    truthy_string (stationQRCode req) = Some sid →
    (stations db !! sid = None → ∃ msg, result = (ErrorResponse msg 404, db)) ∧
    ∀ station, stations db !! sid = Some station →
      (Station.isActive station = false →
       ∃ msg, result = (ErrorResponse msg 400, db)) ∧
      (Station.isActive station = true →
       (classes db !! cid = None →
        ∃ msg, result = (ErrorResponse msg 404, db)) ∧
       ∀ classObj, classes db !! cid = Some classObj →
         (Class.isActive classObj = false →
          ∃ msg, result = (ErrorResponse msg 400, db)) ∧
         (Class.isActive classObj = true →
          ∃ status body db',
            result = (json status body, db') ∧
            status = match Db.Scan_findOne db cid sid with
                     | Some _ => 200
                     | None => 201
                     end ∧
            existing body = match Db.Scan_findOne db cid sid with
                            | Some _ => true
                            | None => false
                            end ∧
            stationData body = {| _id := sid; name := Station.name station |})).
Proof.
  simpl. split.
  - unfold recordScan. intros [->|Hs].
    + destruct (truthy_string (stationQRCode req)); eauto.
    + rewrite Hs. destruct (truthy_string (classId req)); eauto.
  - intros cid sid Hc Hs. split.
    { intros Hst. unfold recordScan. rewrite Hc, Hs, Hst. eauto. }
    intros station Hst. split.
    { intros Hact. unfold recordScan. rewrite Hc, Hs, Hst, Hact. simpl. eauto. }
    intros Hact. split.
    { intros Hcl. unfold recordScan. rewrite Hc, Hs, Hst, Hact. simpl.
      rewrite Hcl. eauto. }
    intros classObj Hcl. split.
    { intros Hcact. unfold recordScan. rewrite Hc, Hs, Hst, Hact. simpl.
      rewrite Hcl, Hcact. simpl. eauto. }
    intros Hcact.
    rewrite (recordScan_accepted clock saveOk req db cid sid station classObj)
      by done.
    destruct (Db.Scan_findOne db cid sid); simpl; eexists _, _, _; eauto.
Qed.

(** X2. A first scan of a (class, station) pair is recorded whether or not
    the class document can be saved afterwards: the answer is 201 and the
    Scan record, stamped with the first clock reading, is appended; when
    the save fails the class documents are left exactly as they were. *)
Theorem recordScan_new_scan_survives_failed_save
    clock saveOk req db cid sid station classObj :
  accepted req db cid sid station classObj →
  Db.Scan_findOne db cid sid = None →
  ∃ body db',
    recordScan clock saveOk req db = (json 201 body, db') ∧
    scans db' = scans db ++ [ {| Scan.classId := cid; Scan.stationId := sid;
                                 Scan.scannedAt := clock 0 |} ] ∧
    is_Some (Db.Scan_findOne db' cid sid) ∧
    (saveOk = false → classes db' = classes db) ∧
    (saveOk = true →
     classes db' = <[cid := scannedClass clock db cid sid classObj]> (classes db) ∧
     sid ∈ Class.stationsScanned (scannedClass clock db cid sid classObj)).
Proof.
  intros Hacc Hnone.
  rewrite (recordScan_accepted _ _ _ _ _ _ _ _ Hacc), Hnone. simpl.
  assert (sid ∈ Class.stationsScanned (scannedClass clock db cid sid classObj))
    as Hin.
  { pose proof (scannedClass_fields clock db cid sid classObj)
      as (_ & _ & _ & _ & Hs & _).
    rewrite Hnone in Hs. rewrite Hs. apply addStationScanned_fields. }
  assert (∀ db1 : Store,
            scans db1 = scans db ++ [ {| Scan.classId := cid;
                                         Scan.stationId := sid;
                                         Scan.scannedAt := clock 0 |} ] →
            is_Some (Db.Scan_findOne db1 cid sid)) as Hfound.
  { intros db1 Hsc.
    apply (Scan_findOne_elem db1 {| Scan.classId := cid; Scan.stationId := sid;
                                    Scan.scannedAt := clock 0 |}).
    rewrite Hsc. apply elem_of_app. right. apply list_elem_of_here. }
  unfold scannedClass in *. rewrite Hnone in *.
  destruct saveOk; simpl; eexists _, _; (split; [reflexivity|]); simpl;
    (split; [done|]); (split; [by apply Hfound|]); split; done.
Qed.

End RecordScanMore.

Section StoreInvariants.
Import ScanController.

(** A property kept by every event holds along every trace. *)
Lemma run_invariant (P : Store → Prop) :
  (∀ db ev, P db → P (step db ev)) → ∀ evs db, P db → P (run evs db).
Proof.
  intros Hstep evs. induction evs as [|ev evs IH]; intros db HP; [done|].
  simpl. apply IH, Hstep, HP.
Qed.

Lemma addStationScanned_NoDup sid c :
  NoDup (Class.stationsScanned c) →
  NoDup (Class.stationsScanned (addStationScanned sid c)).
Proof.
  intros Hnd. unfold addStationScanned. case_bool_decide as Hin; simpl; [done|].
  apply NoDup_app. split; [done|]. split; [|apply NoDup_singleton].
  intros x Hx ->%list_elem_of_singleton. done.
Qed.

Lemma addStationScanned_fresh sid c :
  sid ∉ Class.stationsScanned c →
  Class.stationsScanned (addStationScanned sid c)
  = Class.stationsScanned c ++ [sid].
Proof. intros Hnin. unfold addStationScanned. by rewrite bool_decide_eq_false_2. Qed.

Lemma addStationScanned_grows sid c :
  Class.stationsScanned (addStationScanned sid c) = Class.stationsScanned c ∨
  Class.stationsScanned (addStationScanned sid c)
  = Class.stationsScanned c ++ [sid].
Proof. unfold addStationScanned. case_bool_decide; simpl; auto. Qed.

Lemma checkCompletion_stamp total now c :
  Class.isCompleted c = false →
  Class.isCompleted (checkCompletion total now c) = true →
  Class.completedAt (checkCompletion total now c) = Some now.
Proof.
  intros Hopen. unfold checkCompletion. rewrite Hopen. simpl.
  repeat case_match; simpl; congruence.
Qed.

(** X3. [stationsScanned] is a set: if no class lists a station twice, no
    sequence of scan requests and roster changes makes one do so. *)
Theorem stationsScanned_stays_duplicate_free evs db :
  stationsScannedIsSet db → stationsScannedIsSet (run evs db).
Proof.
  revert db. apply run_invariant. intros db ev Hset cid c' Hc'.
  destruct (step_class db ev cid) as [Hsame|(clock & sid & c & Hc & Hnew)].
  - rewrite Hsame in Hc'. by apply (Hset cid).
  - rewrite Hnew in Hc'. injection Hc' as <-.
    pose proof (scannedClass_fields clock db cid sid c) as (_ & _ & _ & _ & Hs & _).
    rewrite Hs. specialize (Hset cid c Hc).
    destruct (Db.Scan_findOne db cid sid); [done|by apply addStationScanned_NoDup].
Qed.

(** X6. A completed class always carries a completion time and a last-scan
    time: no sequence of events leaves [isCompleted] set without them. *)
Theorem completed_classes_stay_stamped evs db :
  completionStamped db → completionStamped (run evs db).
Proof.
  revert db. apply run_invariant. intros db ev Hinv cid c' Hc' Hdone.
  destruct (step_class db ev cid) as [Hsame|(clock & sid & c & Hc & Hnew)].
  - rewrite Hsame in Hc'. by apply (Hinv cid).
  - rewrite Hnew in Hc'. injection Hc' as <-.
    pose proof (scannedClass_fields clock db cid sid c) as (_ & _ & _ & _ & _ & Hl).
    split; [|done]. unfold scannedClass in *.
    destruct (Db.Scan_findOne db cid sid); simpl in *.
    + by apply (Hinv cid c).
    + set (c2 := Class.set_lastScanAt (Some (clock 1)) (addStationScanned sid c))
        in *.
      destruct (Class.isCompleted c2) eqn:Hc2.
      * rewrite checkCompletion_completed by done.
        destruct (addStationScanned_fields sid c) as (_ & Hcompl & Hat & _).
        simpl. rewrite Hat. apply (Hinv cid c Hc). by rewrite <- Hcompl.
      * rewrite (checkCompletion_stamp _ _ _ Hc2 Hdone). eauto.
Qed.

(** X4. A first scan whose class document is saved completes the class
    exactly when the class's [stationsScanned], with the scanned station
    added, is at least as long as the number of active stations; the
    completion time is then the third clock reading, and [lastScanAt] the
    second. *)
Theorem recordScan_completes_iff_covered
    clock req db cid sid station classObj :
  accepted req db cid sid station classObj →
  Db.Scan_findOne db cid sid = None →
  Class.isCompleted classObj = false →
  ∃ c',
    classes (recordScan clock true req db).2 !! cid = Some c' ∧
    Class.stationsScanned c'
    = Class.stationsScanned (addStationScanned sid classObj) ∧
    Class.lastScanAt c' = Some (clock 1) ∧
    (Class.isCompleted c' = true ↔
     Db.Station_countDocuments_active db ≤ length (Class.stationsScanned c')) ∧
    (Class.isCompleted c' = true → Class.completedAt c' = Some (clock 2)) ∧
    (Class.isCompleted c' = false →
     Class.completedAt c' = Class.completedAt classObj).
Proof.
  intros Hacc Hnone Hopen.
  rewrite (recordScan_accepted_result _ _ _ _ _ _ _ _ Hacc), Hnone. simpl.
  rewrite lookup_insert_eq. eexists. split; [reflexivity|].
  destruct Hacc as (_ & _ & Hst & Hact & _).
  pose proof (active_station_counted db sid station Hst Hact) as Hpos.
  unfold scannedClass. rewrite Hnone.
  set (c2 := Class.set_lastScanAt (Some (clock 1)) (addStationScanned sid classObj)).
  set (total := Db.Station_countDocuments_active db) in *.
  assert (Class.isCompleted c2 = false) as Hc2.
  { unfold c2. simpl. rewrite <- Hopen. apply addStationScanned_fields. }
  assert (Class.completedAt c2 = Class.completedAt classObj) as Hat.
  { unfold c2. simpl. apply addStationScanned_fields. }
  pose proof (checkCompletion_fields total (clock 2) c2) as (Hs & Hl & _).
  rewrite Hs, Hl. split; [done|]. split; [done|]. split; [split|split].
  - intros Hdone.
    apply (checkCompletion_sets total (clock 2) c2); [|done|done].
    apply addStationScanned_nonempty.
  - intros Hcover. unfold checkCompletion. rewrite Hc2. cbn [negb].
    rewrite (proj2 (Nat.leb_le _ _) Hcover), (proj2 (Nat.ltb_lt _ _) Hpos).
    done.
  - by apply checkCompletion_stamp.
  - intros Hstill. rewrite <- Hat. unfold checkCompletion in *. rewrite Hc2 in *.
    simpl in *. repeat case_match; simpl in *; congruence.
Qed.

(** X5. What [recordScan] never does: it leaves the stations and the
    drawings alone, removes no scan and adds at most one, creates and
    deletes no class document, touches no class other than the one named
    in the request, and in that one never changes the name, the teacher,
    the registration time or the active flag, nor removes a station from
    [stationsScanned]. *)
Theorem recordScan_frame clock saveOk req db :
  let db' := (recordScan clock saveOk req db).2 in
  stations db' = stations db ∧
  drawings db' = drawings db ∧
  (∃ new, scans db' = scans db ++ new ∧ length new ≤ 1) ∧
  (∀ cid, truthy_string (classId req) ≠ Some cid →
          classes db' !! cid = classes db !! cid) ∧
  (∀ cid, is_Some (classes db' !! cid) ↔ is_Some (classes db !! cid)) ∧
  (∀ cid c c',
     classes db !! cid = Some c → classes db' !! cid = Some c' →
     Class.name c' = Class.name c ∧ Class.teacher c' = Class.teacher c ∧
     Class.registeredAt c' = Class.registeredAt c ∧
     Class.isActive c' = Class.isActive c ∧
     Class.stationsScanned c `prefix_of` Class.stationsScanned c').
Proof.
  simpl.
  destruct (recordScan_store clock saveOk req db) as (Hst & Hdr & _ & Hsc).
  split; [done|]. split; [done|]. split.
  { destruct Hsc as [->|(s & _ & ->)].
    - exists []. split; [by rewrite app_nil_r|simpl; lia].
    - exists [s]. split; [done|simpl; lia]. }
  assert (∀ cid,
            classes (recordScan clock saveOk req db).2 !! cid
            = classes db !! cid ∨
            ∃ sid c, truthy_string (classId req) = Some cid ∧
                     classes db !! cid = Some c ∧
                     classes (recordScan clock saveOk req db).2 !! cid
                     = Some (scannedClass clock db cid sid c)) as Hcases.
  { intros cid.
    destruct (accepted_dec req db)
      as [(cid0 & sid & station & classObj & Hacc)|Hno].
    - destruct (recordScan_accepted_store clock saveOk _ _ _ _ _ _ Hacc)
        as (_ & _ & [->| ->] & _); [by left|].
      destruct Hacc as (Hcid & _ & _ & _ & Hcl & _).
      destruct (decide (cid0 = cid)) as [->|Hne].
      + right. exists sid, classObj. by rewrite lookup_insert_eq.
      + left. by rewrite lookup_insert_ne.
    - destruct (recordScan_rejected clock saveOk req db Hno) as (? & ? & -> & _).
      by left. }
  split; [|split].
  - intros cid Hother.
    destruct (Hcases cid) as [->|(sid & c & Hcid & _)]; done.
  - intros cid.
    destruct (Hcases cid) as [->|(sid & c & _ & -> & ->)]; [done|].
    split; eauto.
  - intros cid c c' Hc Hc'.
    destruct (Hcases cid) as [Hsame|(sid & c0 & _ & Hc0 & Hnew)].
    + rewrite Hsame, Hc in Hc'. by injection Hc' as <-.
    + rewrite Hnew in Hc'. injection Hc' as <-.
      assert (c0 = c) as -> by congruence.
      pose proof (scannedClass_fields clock db cid sid c)
        as (Hn & Ht & Hr & Ha & Hs & _).
      repeat split; try done. rewrite Hs.
      destruct (Db.Scan_findOne db cid sid); [done|].
      destruct (addStationScanned_grows sid c) as [-> | ->];
        [done|by apply prefix_app_r].
Qed.

Lemma scannedStationsOf_snoc cid l s :
  scannedStationsOf cid (l ++ [s]) =
  scannedStationsOf cid l
  ++ (if decide (Scan.classId s = cid) then [Scan.stationId s] else []).
Proof.
  unfold scannedStationsOf. rewrite filter_app, fmap_app. f_equal.
  destruct (decide (Scan.classId s = cid)).
  - by rewrite filter_cons_True.
  - by rewrite filter_cons_False.
Qed.

Lemma scannedStationsOf_elem db cid sid :
  sid ∈ scannedStationsOf cid (scans db) → is_Some (Db.Scan_findOne db cid sid).
Proof.
  unfold scannedStationsOf.
  intros (s & -> & [<- Hs]%list_elem_of_filter)%list_elem_of_fmap.
  by apply Scan_findOne_elem.
Qed.

(** X7. As long as every class save succeeds, the cached [stationsScanned]
    of a class is exactly the list of stations of its Scan records, in the
    order they were recorded. *)
Theorem cache_tracks_scans_when_saves_succeed evs db :
  savedScansOnly evs → cacheConsistent db → cacheConsistent (run evs db).
Proof.
  intros Hsaved. revert db.
  induction Hsaved as [|ev evs Hev _ IH]; intros db Hcons; [done|].
  simpl. apply IH. clear IH.
  destruct ev as [clock saveOk req|roster]; [|exact Hcons].
  simpl in Hev. subst saveOk. simpl.
  destruct (accepted_dec req db)
    as [(cid & sid & station & classObj & Hacc)|Hno]; cycle 1.
  { destruct (recordScan_rejected clock true req db Hno) as (? & ? & -> & _).
    exact Hcons. }
  rewrite (recordScan_accepted_result _ _ _ _ _ _ _ _ Hacc).
  pose proof (scannedClass_fields clock db cid sid classObj)
    as (_ & _ & _ & _ & Hs & _).
  destruct Hacc as (_ & _ & _ & _ & Hcl & _).
  pose proof (Hcons cid classObj Hcl) as Hcache.
  destruct (Db.Scan_findOne db cid sid) as [s|] eqn:Hfind.
  - destruct (_ && _); [|exact Hcons].
    intros cid' c'. simpl.
    destruct (decide (cid = cid')) as [<-|Hne].
    + rewrite lookup_insert_eq. intros [= <-]. by rewrite Hs.
    + rewrite lookup_insert_ne by done. apply Hcons.
  - intros cid' c'. simpl. rewrite scannedStationsOf_snoc. simpl.
    destruct (decide (cid = cid')) as [<-|Hne].
    + rewrite lookup_insert_eq. intros [= <-]. rewrite Hs.
      rewrite addStationScanned_fresh, Hcache; [done|].
      rewrite Hcache. intros Hin%scannedStationsOf_elem.
      rewrite Hfind in Hin. by destruct Hin.
    + rewrite lookup_insert_ne, app_nil_r by done. apply Hcons.
Qed.

(** X8. A station missing from the cache is never repaired: once a Scan
    record exists for a (class, station) pair while the class's
    [stationsScanned] lacks the station (as after a failed save), no
    sequence of scan requests and roster changes ever adds it. *)
Theorem missing_station_is_never_repaired evs db cid sid c s :
  s ∈ scans db → scanKey s = (cid, sid) →
  classes db !! cid = Some c → sid ∉ Class.stationsScanned c →
  ∃ c' s',
    classes (run evs db) !! cid = Some c' ∧
    (sid ∉ Class.stationsScanned c') ∧
    s' ∈ scans (run evs db) ∧ scanKey s' = (cid, sid).
Proof.
  intros Hs Hkey Hc Hmiss.
  assert (∃ c' s', classes db !! cid = Some c' ∧
                   (sid ∉ Class.stationsScanned c') ∧
                   s' ∈ scans db ∧ scanKey s' = (cid, sid)) as Hinv
    by (by exists c, s).
  clear Hs Hkey Hc Hmiss. revert db Hinv.
  apply (run_invariant
           (λ db, ∃ c' s', classes db !! cid = Some c' ∧
                           (sid ∉ Class.stationsScanned c') ∧
                           s' ∈ scans db ∧ scanKey s' = (cid, sid))).
  intros db1 ev (c1 & s1 & Hc & Hmiss & Hs & Hkey).
  assert (s1 ∈ scans (step db1 ev)) as Hs'.
  { destruct ev as [clock saveOk req|roster]; [|done]. simpl.
    destruct (recordScan_store clock saveOk req db1)
      as (_ & _ & _ & [->|(? & _ & ->)]); [done|]. apply elem_of_app. by left. }
  destruct (step_class db1 ev cid) as [Hsame|(clock & sid0 & c0 & Hc0 & Hnew)].
  - exists c1, s1. by rewrite Hsame.
  - assert (c0 = c1) as -> by congruence.
    eexists _, s1. split; [exact Hnew|]. split; [|done].
    pose proof (scannedClass_fields clock db1 cid sid0 c1)
      as (_ & _ & _ & _ & Hfields & _).
    rewrite Hfields.
    destruct (Db.Scan_findOne db1 cid sid0) eqn:Hfind; [done|].
    destruct (addStationScanned_grows sid0 c1) as [-> | ->]; [done|].
    intros [?|Heq%list_elem_of_singleton]%elem_of_app; [done|]. subst sid0.
    assert (is_Some (Db.Scan_findOne db1 cid sid)) as [? Hsome].
    { unfold scanKey in Hkey. injection Hkey as <- <-.
      by apply Scan_findOne_elem. }
    congruence.
Qed.

End StoreInvariants.

(** ** Class progress *)

Section ProgressMore.
Import ClassController.

Variables countByClass countByClassId : Id → nat.

(** A successful answer, field by field. *)
Lemma getClassProgress_ok req db status data :
  getClassProgress countByClass countByClassId req db = json status data →
  ∃ classObj,
    classes db !! params_id req = Some classObj ∧
    (Teacher._id (Class.teacher classObj) = id (user req) ∨
     role (user req) = "admin") ∧
    status = 200 ∧
    totalStations data = Db.Station_countDocuments_active db ∧
    completedCount data =
      (let scanCount :=
         countScans countByClass countByClassId
           db (params_id req) in
       if 0 <? scanCount then scanCount
       else length (Class.stationsScanned classObj)) ∧
    progressPercentage data =
      (if 0 <? totalStations data
       then roundedPercentage (completedCount data) (totalStations data)
       else 0%Z) ∧
    isCompleted data = Class.isCompleted classObj ∧
    completedAt data = Class.completedAt classObj ∧
    lastScanAt data = Class.lastScanAt classObj ∧
    completionTime data =
      (if Class.isCompleted classObj then
         match Class.completedAt classObj, Class.registeredAt classObj with
         | Some completedAt, Some registeredAt =>
           Some (minutes_between registeredAt completedAt)
         | _, _ => None
         end
       else None).
Proof.
  unfold getClassProgress.
  destruct (classes db !! params_id req) as [classObj|]; [|done].
  destruct (negb (bool_decide _) && negb (bool_decide _)) eqn:Hguard; [done|].
  intros [= <- <-]. exists classObj. split; [done|]. split; [|done].
  apply andb_false_iff in Hguard as [H|H];
    apply negb_false_iff, bool_decide_eq_true_1 in H; auto.
Qed.

(** X9. Who may read a class's progress: an unknown class gives 404; a user
    who is neither the class's teacher nor has the role [admin] gets 403;
    the teacher and any admin get 200 with the completion flag, completion
    time and last-scan time of the class document and the current number of
    active stations. *)
Theorem getClassProgress_access req db :
  (classes db !! params_id req = None →
   ∃ msg, getClassProgress countByClass countByClassId req db = ErrorResponse msg 404) ∧
  ∀ classObj, classes db !! params_id req = Some classObj →
    (Teacher._id (Class.teacher classObj) ≠ id (user req) →
     role (user req) ≠ "admin" →
     ∃ msg, getClassProgress countByClass countByClassId req db = ErrorResponse msg 403) ∧
    (Teacher._id (Class.teacher classObj) = id (user req) ∨
     role (user req) = "admin" →
     ∃ data,
       getClassProgress countByClass countByClassId req db = json 200 data ∧
       isCompleted data = Class.isCompleted classObj ∧
       completedAt data = Class.completedAt classObj ∧
       lastScanAt data = Class.lastScanAt classObj ∧
       totalStations data = Db.Station_countDocuments_active db).
Proof.
  split.
  - intros Hnone. unfold getClassProgress. rewrite Hnone. eauto.
  - intros classObj Hc. split.
    + intros Howner Hadmin. unfold getClassProgress. rewrite Hc.
      rewrite !bool_decide_eq_false_2 by done. simpl. eauto.
    + intros Hok. unfold getClassProgress. rewrite Hc.
      assert (negb (bool_decide (Teacher._id (Class.teacher classObj)
                                 = id (user req)))
              && negb (bool_decide (role (user req) = "admin")) = false) as ->.
      { destruct Hok as [H|H]; rewrite (bool_decide_eq_true_2 _ H); simpl;
          [done|apply andb_false_r]. }
      eexists. split; [reflexivity|]. done.
Qed.

Lemma percentageTable_checked maxStations c t :
  percentageTable maxStations = true →
  0 < t → t ≤ maxStations → c ≤ 2 * t →
  percentageChecked c t = true.
Proof.
  unfold percentageTable. rewrite forallb_forall. intros Htable Hpos Ht Hc.
  specialize (Htable t). rewrite forallb_forall in Htable.
  apply Htable; apply in_seq; lia.
Qed.

Lemma percentageTable_100 : percentageTable 100 = true.
Proof. vm_compute. reflexivity. Qed.

(** X10. The progress percentage is [Math.round] of a quotient and a
    product of JavaScript numbers, and 0 when no station is active.  For
    up to 100 active stations and a count of up to twice their number it
    is never negative, at most 100 when the count does not exceed the
    number of stations and 100 when the two are equal, and it is the
    exactly rounded percentage [floor ((200 c + t) / (2 t))] except that,
    where [100 c / t] lies halfway between two integers, it can be one
    less: for 23 of 40 stations it is 57, not 58. *)
Theorem progressPercentage_bounds req db status data :
  getClassProgress countByClass countByClassId req db = json status data →
  let c := completedCount data in
  let t := totalStations data in
  let p := progressPercentage data in
  (t = 0 → p = 0%Z) ∧
  (0 < t → p = roundedPercentage c t) ∧
  (0 < t → t ≤ 100 → c ≤ 2 * t →
   (0 ≤ p)%Z ∧
   (p = exactPercentage c t ∨
    (p = (exactPercentage c t - 1)%Z ∧ halfwayPercentage c t = true)) ∧
   (c ≤ t → (p ≤ 100)%Z) ∧
   (c = t → p = 100%Z)) ∧
  (roundedPercentage 23 40 = 57%Z ∧ exactPercentage 23 40 = 58%Z).
Proof.
  intros (classObj & _ & _ & _ & _ & _ & Hpct & _)%getClassProgress_ok. simpl.
  set (c := completedCount data) in *. set (t := totalStations data) in *.
  split; [|split; [|split]].
  - intros Hz. rewrite Hpct, Hz. done.
  - intros Hpos. rewrite Hpct. by rewrite (proj2 (Nat.ltb_lt _ _) Hpos).
  - intros Hpos Ht Hc. rewrite Hpct, (proj2 (Nat.ltb_lt _ _) Hpos).
    pose proof (percentageTable_checked 100 c t percentageTable_100 Hpos Ht Hc)
      as Hchecked.
    unfold percentageChecked in Hchecked.
    apply andb_true_iff in Hchecked as [Hchecked Hfull].
    apply andb_true_iff in Hchecked as [Hchecked Hbound].
    apply andb_true_iff in Hchecked as [Hnonneg Hexact].
    split; [by apply Z.leb_le|]. split; [|split].
    + apply orb_true_iff in Hexact as [Heq|Hhalf].
      * left. by apply Z.eqb_eq.
      * right. apply andb_true_iff in Hhalf as [Heq Hhalf].
        split; [by apply Z.eqb_eq|done].
    + intros Hle. rewrite (proj2 (Nat.leb_le _ _) Hle) in Hbound.
      by apply Z.leb_le.
    + intros Heq. rewrite (proj2 (Nat.eqb_eq _ _) Heq) in Hfull.
      by apply Z.eqb_eq.
  - split; vm_compute; reflexivity.
Qed.

(** X11. The completion flag and time of the progress answer come from the
    class document alone: two stores that hold the same document for the
    class give the same [isCompleted], [completedAt], [lastScanAt] and
    [completionTime], whatever their scans and stations; [completionTime]
    is present exactly when the class is completed and carries both its
    registration and completion times, and is then the minutes between the
    two. *)
Theorem progress_completion_depends_on_class_document_only
    req db1 db2 classObj status1 data1 status2 data2 :
  classes db1 !! params_id req = Some classObj →
  classes db2 !! params_id req = Some classObj →
  getClassProgress countByClass countByClassId req db1 = json status1 data1 →
  getClassProgress countByClass countByClassId req db2 = json status2 data2 →
  isCompleted data1 = isCompleted data2 ∧
  completedAt data1 = completedAt data2 ∧
  lastScanAt data1 = lastScanAt data2 ∧
  completionTime data1 = completionTime data2 ∧
  (is_Some (completionTime data1) ↔
   Class.isCompleted classObj = true ∧
   is_Some (Class.completedAt classObj) ∧
   is_Some (Class.registeredAt classObj)) ∧
  ∀ registeredAt completedAt,
    Class.isCompleted classObj = true →
    Class.registeredAt classObj = Some registeredAt →
    Class.completedAt classObj = Some completedAt →
    completionTime data1 = Some (minutes_between registeredAt completedAt).
Proof.
  intros Hc1 Hc2
    (c1 & Hc1' & _ & _ & _ & _ & _ & Hi1 & Ha1 & Hl1 & Ht1)%getClassProgress_ok
    (c2 & Hc2' & _ & _ & _ & _ & _ & Hi2 & Ha2 & Hl2 & Ht2)%getClassProgress_ok.
  assert (c1 = classObj) as -> by congruence.
  assert (c2 = classObj) as -> by congruence.
  rewrite Hi1, Hi2, Ha1, Ha2, Hl1, Hl2, Ht1, Ht2.
  do 4 (split; [done|]). split.
  - destruct (Class.isCompleted classObj), (Class.completedAt classObj),
      (Class.registeredAt classObj); split;
      first [by intros [? [=]] | by intros (? & [? [=]] & [? [=]]) | eauto].
  - intros r a -> -> ->. done.
Qed.

Lemma Scan_countDocuments_scannedStationsOf db cid :
  Db.Scan_countDocuments db cid = length (scannedStationsOf cid (scans db)).
Proof. unfold Db.Scan_countDocuments, scannedStationsOf. by rewrite length_fmap. Qed.

(** X12. In a store whose cache is consistent with the scans, the
    progress answer of a class that has scanned something counts exactly
    the stations of its [stationsScanned], which are as many as its Scan
    records. *)
Theorem progress_counts_the_cached_stations req db classObj status data :
  cacheConsistent db →
  classes db !! params_id req = Some classObj →
  Class.stationsScanned classObj ≠ [] →
  getClassProgress countByClass countByClassId req db = json status data →
  completedCount data = length (Class.stationsScanned classObj) ∧
  completedCount data = Db.Scan_countDocuments db (params_id req).
Proof.
  intros Hcons Hc Hne
    (c & Hc' & _ & _ & _ & Hcount & _)%getClassProgress_ok.
  assert (c = classObj) as -> by congruence.
  pose proof (Scan_countDocuments_scannedStationsOf db (params_id req)) as Hlen.
  rewrite <- (Hcons _ _ Hc) in Hlen.
  assert (0 < Db.Scan_countDocuments db (params_id req)) as Hpos.
  { rewrite Hlen. destruct (Class.stationsScanned classObj); [done|simpl; lia]. }
  unfold countScans in Hcount. simpl in Hcount.
  destruct (Db.Scan_countDocuments db (params_id req) =? 0) eqn:Hz;
    [apply Nat.eqb_eq in Hz; lia|].
  rewrite Hz in Hcount.
  assert ((0 <? Db.Scan_countDocuments db (params_id req)) = true) as Hlt
    by (by apply Nat.ltb_lt).
  rewrite Hlt in Hcount. rewrite Hcount. done.
Qed.

End ProgressMore.

(** ** Drawings *)

Section DrawingMore.
Import DrawingController.

Variable random : nat → Q.
Variable Scan_find_class : Id → list ScanView.

(** An error answer leaves the store as it was. *)
Lemma runDrawing_error id body db msg code db' :
  runDrawing random Scan_find_class id body db = (ErrorResponse msg code, db') →
  db' = db.
Proof.
  unfold runDrawing. intros Hrun.
  repeat case_match; simplify_eq; done.
Qed.

(** X13. [runDrawing] writes nothing but the drawing it runs: stations,
    classes, scans and every other drawing are left as they were, no
    drawing is created or deleted, an error answer changes nothing at all,
    and a success saves under the same id the answered document, which is
    the pending one with its name and weighting factors kept, its
    [eligibleClasses] extended at the end, its status [completed] and at
    least one winner. *)
Theorem runDrawing_frame id body db :
  let result := runDrawing random Scan_find_class id body db in
  stations result.2 = stations db ∧
  classes result.2 = classes db ∧
  scans result.2 = scans db ∧
  (∀ id', id' ≠ id → drawings result.2 !! id' = drawings db !! id') ∧
  dom (drawings result.2) = dom (drawings db) ∧
  match result.1 with
  | ErrorResponse _ _ => result.2 = db
  | json _ d' =>
    ∃ d, drawings db !! id = Some d ∧
         drawings result.2 !! id = Some d' ∧
         Drawing.status d = Drawing.pending ∧
         Drawing.status d' = Drawing.completed ∧
         Drawing.name d' = Drawing.name d ∧
         Drawing.weightingFactors d' = Drawing.weightingFactors d ∧
         Drawing.eligibleClasses d `prefix_of` Drawing.eligibleClasses d' ∧
         Drawing.winners d' ≠ []
  end.
Proof.
  simpl.
  destruct (runDrawing random Scan_find_class id body db) as [resp db'] eqn:Hrun.
  destruct resp as [msg code|status d'].
  - apply runDrawing_error in Hrun as ->. done.
  - pose proof Hrun
      as (n & d & [Hn Hpos] & Hd & Hst & Ht & Hne & -> & Hd' & ->)%runDrawing_success.
    simpl. repeat split.
    + intros id' Hid. by apply lookup_insert_ne.
    + apply set_eq. intros id'. rewrite !elem_of_dom.
      destruct (decide (id' = id)) as [->|Hid].
      * rewrite lookup_insert_eq, Hd. split; eauto.
      * by rewrite lookup_insert_ne.
    + exists d. split; [done|]. split; [apply lookup_insert_eq|].
      split; [done|]. subst d'. split; [done|]. split; [done|]. split; [done|].
      split; [by apply prefix_app_r|].
      destruct (completedDrawing_winners random Scan_find_class n body d db Hpos)
        as [_ Hlen].
      intros Hnil. rewrite Hnil in Hlen. simpl in Hlen.
      destruct (eligibleList Scan_find_class db); [done|]. simpl in Hlen. lia.
Qed.

(** Every winner of the selection loop is one chosen before, or a record
    made for a ticket of the pool with the prize of the run and
    [notified: false]. *)
Lemma pickWinners_records n prize entries winners (picked : gset Id) w :
  w ∈ pickWinners n prize entries winners picked →
  w ∈ winners ∨
  (Drawing.class w ∈ classId <$> entries ∧
   Drawing.prize w = prize ∧ Drawing.notified w = false).
Proof.
  revert winners picked.
  induction entries as [|e es IH]; intros winners picked; simpl; [by left|].
  assert (w ∈ winners ++
            [ {| Drawing.class := classId e; Drawing.prize := prize;
                 Drawing.notified := false |} ] →
          w ∈ winners ∨
          (Drawing.class w ∈ classId e :: (classId <$> es) ∧
           Drawing.prize w = prize ∧ Drawing.notified w = false)) as Hnew.
  { intros [?|Hw]%elem_of_app; [by left|].
    apply list_elem_of_singleton in Hw. subst w. right. simpl.
    split; [apply list_elem_of_here|done]. }
  destruct (_ && _); simpl.
  - destruct (_ <=? _)%Z; [exact Hnew|].
    intros [Hw|(Hc & Hp & Hnot)]%IH; [by apply Hnew|].
    right. split; [by apply list_elem_of_further|done].
  - destruct (_ <=? _)%Z; [by left|].
    intros [Hw|(Hc & Hp & Hnot)]%IH; [by left|].
    right. split; [by apply list_elem_of_further|done].
Qed.

Lemma prizeOf_nonempty body : prizeOf body ≠ EmptyString.
Proof.
  unfold prizeOf, truthy_string.
  destruct (prizeDescription body) as [[|c s]|]; done.
Qed.

(** X14. The winner records of a successful run: each carries the prize
    text of the request, or [Scavenger Hunt Prize] when the request gives
    none or an empty one, so never an empty prize; each is marked not
    notified; and each names a class that is stored, active, listed in the
    drawing's [eligibleClasses] and has scanned at least as many distinct
    stations as are active. *)
Theorem runDrawing_winner_records id body db status d' db' w :
  runDrawing random Scan_find_class id body db = (json status d', db') →
  w ∈ Drawing.winners d' →
  Drawing.prize w = prizeOf body ∧
  Drawing.prize w ≠ EmptyString ∧
  (prizeDescription body = None ∨ prizeDescription body = Some EmptyString →
   Drawing.prize w = defaultPrize) ∧
  (∀ text, prizeDescription body = Some text → text ≠ EmptyString →
           Drawing.prize w = text) ∧
  Drawing.notified w = false ∧
  Drawing.class w ∈ Drawing.eligibleClasses d' ∧
  ∃ c, classes db' !! Drawing.class w = Some c ∧
       Class.isActive c = true ∧
       Db.Station_countDocuments_active db
       ≤ size (uniqueStationsScanned (Scan_find_class (Drawing.class w))).
Proof.
  intros (n & d & [Hn Hpos] & Hd & Hst & Ht & Hne & -> & -> & ->)%runDrawing_success
    Hw.
  assert (Drawing.class w ∈ (eligibleList Scan_find_class db).*1) as Hel.
  { apply (winners_eligible random Scan_find_class n body d db).
    apply list_elem_of_fmap. eauto. }
  simpl in Hw. apply pickWinners_records in Hw as [Hw|(_ & Hprize & Hnot)];
    [by apply elem_of_nil in Hw|].
  split; [done|]. split; [rewrite Hprize; apply prizeOf_nonempty|].
  split; [|split; [|split; [done|split]]].
  - rewrite Hprize. unfold prizeOf. by intros [->| ->].
  - intros text Htext Hne'. rewrite Hprize. unfold prizeOf. rewrite Htext.
    by destruct text.
  - simpl. apply elem_of_app. by right.
  - apply list_elem_of_fmap in Hel as ([cid c] & Hcid & Hin). simpl in Hcid.
    apply list_elem_of_filter in Hin as [Hcover Hin].
    apply list_elem_of_filter in Hin as [Hact Hin].
    apply elem_of_map_to_list in Hin. unfold eligible in Hcover.
    simpl in Hcover, Hact. rewrite Hcid. exists c. done.
Qed.

End DrawingMore.

Section SelectionOrder.
Import DrawingController.

Variable random : nat → Q.
Variable Scan_find_class : Id → list ScanView.







(** X19. The eligible-classes query answers 400 exactly when no station is
    active; otherwise 200 with [count] the length of the list, in which no
    class occurs twice and every item describes a stored, active class by
    its name and teacher, is marked eligible, carries the number of active
    stations as [totalStations] and the number of distinct stations of the
    class's scans as [stationsFound], the latter never below the former. *)
Theorem getEligibleClassesForDrawing_content db :
  (Db.Station_countDocuments_active db = 0 ↔
   ∃ msg, getEligibleClassesForDrawing Scan_find_class db = eligibleError msg 400) ∧
  ∀ status count data,
    getEligibleClassesForDrawing Scan_find_class db
    = eligibleJson status count data →
    status = 200 ∧ count = length data ∧
    0 < Db.Station_countDocuments_active db ∧
    NoDup (_id <$> data) ∧
    ∀ item, item ∈ data →
      isEligible item = true ∧
      totalStations item = Db.Station_countDocuments_active db ∧
      stationsFound item
      = size (uniqueStationsScanned (Scan_find_class (_id item))) ∧
      totalStations item ≤ stationsFound item ∧
      ∃ c, classes db !! _id item = Some c ∧
           Class.isActive c = true ∧
           name item = Class.name c ∧
           teacher item = Some (Class.teacher c).
Proof.
  destruct (decide (Db.Station_countDocuments_active db = 0)) as [Hz|Hz].
  - assert (getEligibleClassesForDrawing Scan_find_class db
            = eligibleError
                "No active stations found. Cannot determine eligibility for drawing."
                400) as Herr.
    { unfold getEligibleClassesForDrawing.
      fold (Db.Station_countDocuments_active db). by rewrite Hz. }
    rewrite Herr. split; [split; eauto|]. intros ??? [=].
  - rewrite getEligibleClassesForDrawing_ok by lia. split.
    + split; [done|]. intros [? [=]].
    + intros status count data [= <- <- <-].
      split; [done|]. split; [done|]. split; [lia|]. split.
      * rewrite <- list_fmap_compose.
        apply (eligibleList_NoDup Scan_find_class db).
      * intros item ([cid c] & -> & Hin)%list_elem_of_fmap.
        apply list_elem_of_filter in Hin as [Hcover Hin].
        apply list_elem_of_filter in Hin as [Hact Hin].
        apply elem_of_map_to_list in Hin. unfold eligible in Hcover.
        simpl in *. repeat split; try done. by exists c.
Qed.

End SelectionOrder.

(** ** Ticket weights *)

Section WeightsMore.
Import DrawingController.

Lemma Qpositive_minutes_between a b :
  Qpositive (minutes_between a b) = true ↔ (a < b)%Z.
Proof.
  unfold Qpositive, minutes_between.
  rewrite negb_true_iff, <- not_true_iff_false, Qle_bool_iff.
  assert (inject_Z (b - a) / inject_Z (1000 * 60)
          == inject_Z (b - a) * (1 # 60000))%Q as -> by reflexivity.
  split.
  - intros Hpos. destruct (decide (a < b)%Z) as [|Hle]; [done|].
    exfalso. apply Hpos.
    assert (inject_Z (b - a) <= 0)%Q as Hneg
      by (change 0%Q with (inject_Z 0); rewrite <- Zle_Qle; lia).
    unfold Qle in *. simpl in *. lia.
  - intros Hlt Hle.
    assert (0 < inject_Z (b - a))%Q as Hpos
      by (change 0%Q with (inject_Z 0); rewrite <- Zlt_Qlt; lia).
    unfold Qle, Qlt in *. simpl in *. lia.
Qed.

(** X15. The completion time that weighs a ticket runs from the earliest
    scan of the class to its latest scan (the per-station bookkeeping of
    the handler does not change the maximum): it is defined for every
    non-empty history, never negative, and positive exactly when two scans
    of the class differ in time. *)
Theorem completionTime_runs_from_first_to_last_scan scans :
  completionTimeMinutes scans =
    match earliestScan scans, Math_max (scannedAt <$> scans) with
    | Some startTime, Some endTime => Some (minutes_between startTime endTime)
    | _, _ => None
    end ∧
  (completionTimeMinutes scans = None ↔ scans = []) ∧
  (∀ m, completionTimeMinutes scans = Some m → (0 <= m)%Q) ∧
  (positiveMinutes (completionTimeMinutes scans) = true ↔
   ∃ s1 s2, s1 ∈ scans ∧ s2 ∈ scans ∧ (scannedAt s1 < scannedAt s2)%Z).
Proof.
  assert (completionTimeMinutes scans =
          match earliestScan scans, Math_max (scannedAt <$> scans) with
          | Some startTime, Some endTime =>
            Some (minutes_between startTime endTime)
          | _, _ => None
          end) as Hform.
  { rewrite completionTimeMinutes_elapsed. unfold elapsedMinutes.
    by rewrite latestOfStations_latest. }
  split; [done|]. rewrite Hform.
  destruct scans as [|s0 rest]; [simpl|].
  { split; [done|]. split; [done|]. split; [done|].
    intros (s1 & _ & Hs1 & _). by apply elem_of_nil in Hs1. }
  set (scans := s0 :: rest).
  destruct (earliestScan scans) as [a|] eqn:Ha; cycle 1.
  { exfalso. unfold earliestScan in Ha. subst scans.
    rewrite fmap_cons in Ha. done. }
  destruct (Math_max (scannedAt <$> scans)) as [b|] eqn:Hb; cycle 1.
  { apply Math_max_None in Hb. subst scans. rewrite fmap_cons in Hb. done. }
  apply earliestScan_Some in Ha as [Hain Hale].
  apply Math_max_Some in Hb as [Hbin Hble].
  split; [done|]. split.
  - intros m [= <-]. pose proof (Hale b Hbin) as Hab.
    unfold minutes_between.
    assert (inject_Z (b - a) / inject_Z (1000 * 60)
            == inject_Z (b - a) * (1 # 60000))%Q as -> by reflexivity.
    assert (0 <= inject_Z (b - a))%Q as Hpos
      by (change 0%Q with (inject_Z 0); rewrite <- Zle_Qle; lia).
    unfold Qle in *. simpl in *. lia.
  - simpl. rewrite Qpositive_minutes_between. split.
    + intros Hlt.
      apply list_elem_of_fmap in Hain as (s1 & -> & Hs1).
      apply list_elem_of_fmap in Hbin as (s2 & -> & Hs2).
      by exists s1, s2.
    + intros (s1 & s2 & Hs1 & Hs2 & Hlt).
      assert (a ≤ scannedAt s1)%Z
        by (apply Hale, list_elem_of_fmap; eauto).
      assert (scannedAt s2 ≤ b)%Z
        by (apply Hble, list_elem_of_fmap; eauto).
      lia.
Qed.

Lemma weight_without_factors drawing total scans :
  stationsFoundFactor drawing = Number.zero →
  truthy_number (completionTimeFactor drawing) = false →
  Math_round (weightBeforeRounding drawing total scans) = 1%Z ∨
  Math_round (weightBeforeRounding drawing total scans) = 0%Z.
Proof.
  intros Hsf Hct. unfold weightBeforeRounding. rewrite Hsf, Hct, andb_false_r.
  assert (Math_round
            (Number.add Number.one
               (Number.mul
                  (Number.ofNat (size (uniqueStationsScanned scans)))
                  Number.zero)) = 1%Z ∨
          Math_round
            (Number.add Number.one
               (Number.mul
                  (Number.ofNat (size (uniqueStationsScanned scans)))
                  Number.zero)) = 0%Z) as Hround.
  { destruct (Number.ofNat (size (uniqueStationsScanned scans)))
      as [s|s| |s m e]; [left|right|right|left]; try destruct s;
      vm_compute; reflexivity. }
  by destruct (_ && _).
Qed.

(** X16. Without weighting factors the raffle is flat: when the
    [stationsFound] factor is absent or zero and the [completionTime]
    factor is absent or zero, every class weighs one ticket whatever it
    scanned, so the entry pool of a run lists every eligible class exactly
    once, in the order of the store. *)
Theorem no_factors_one_ticket_each Scan_find_class drawing db :
  stationsFoundFactor drawing = Number.zero →
  truthy_number (completionTimeFactor drawing) = false →
  (∀ total scans, ticketWeight drawing total scans = 1%Z) ∧
  entryPool Scan_find_class drawing db
  = entryOf <$> eligibleList Scan_find_class db ∧
  classId <$> entryPool Scan_find_class drawing db
  = (eligibleList Scan_find_class db).*1.
Proof.
  intros Hsf Hct.
  assert (∀ total scans, ticketWeight drawing total scans = 1%Z) as Hone.
  { intros total scans. unfold ticketWeight.
    by destruct (weight_without_factors drawing total scans Hsf Hct) as [-> | ->]. }
  split; [done|].
  assert (entryPool Scan_find_class drawing db
          = entryOf <$> eligibleList Scan_find_class db) as Hpool.
  { unfold entryPool.
    induction (eligibleList Scan_find_class db) as [|c cs IH]; [done|].
    rewrite bind_cons, fmap_cons, IH. unfold ticketsOf at 1.
    by rewrite Hone. }
  split; [done|]. rewrite Hpool, <- list_fmap_compose. done.
Qed.

End WeightsMore.

(** ** The scan queries *)

Section ScanQueriesMore.
Import ScanQueries.

Lemma populate_stationsScanned_ids db ids :
  StationRef._id <$> populate_stationsScanned db ids
  = filter (λ id, is_Some (stations db !! id)) ids.
Proof.
  unfold populate_stationsScanned. induction ids as [|i ids IH]; [done|].
  rewrite filter_cons. cbn [omap list_omap].
  destruct (stations db !! i) as [st|] eqn:Hst.
  - rewrite decide_True by done. cbn [fmap option_fmap option_map].
    rewrite fmap_cons. simpl. by f_equal.
  - rewrite decide_False by (by intros [? ?]). done.
Qed.

(** X20. [getScansByClass]: an unknown class gives 404; a user who is
    neither an admin nor the teacher of the class gets 403; anyone else
    gets 200 with the scans of the class and no other, in creation order,
    as many as [Scan.countDocuments] counts for the class, and with the
    class's [stationsScanned] populated in order, an id being dropped
    exactly when its station document is gone. *)
Theorem getScansByClass_answer req db :
  (classes db !! classId req = None →
   ∃ msg, getScansByClass req db = classError msg 404) ∧
  ∀ classObj, classes db !! classId req = Some classObj →
    (ClassController.role (user req) ≠ "admin" →
     Teacher._id (Class.teacher classObj) ≠ ClassController.id (user req) →
     ∃ msg, getScansByClass req db = classError msg 403) ∧
    (ClassController.role (user req) = "admin" ∨
     Teacher._id (Class.teacher classObj) = ClassController.id (user req) →
     ∃ classData data,
       getScansByClass req db = classJson 200 classData (length data) data ∧
       length data = Db.Scan_countDocuments db (classId req) ∧
       (∀ item, item ∈ data → ScanOfClass.classId item = classId req) ∧
       ScanOfClass.scannedAt <$> data
       = Scan.scannedAt <$> filter (λ s, Scan.classId s = classId req) (scans db) ∧
       (∀ sid station,
          (∃ item, item ∈ data ∧ ScanOfClass.stationId item = Some (sid, station))
          ↔ is_Some (Db.Scan_findOne db (classId req) sid) ∧
            stations db !! sid = Some station) ∧
       ClassData.isCompleted classData = Class.isCompleted classObj ∧
       StationRef._id <$> ClassData.stationsScanned classData
       = filter (λ id, is_Some (stations db !! id)) (Class.stationsScanned classObj)).
Proof.
  split.
  - intros Hnone. unfold getScansByClass. rewrite Hnone. eauto.
  - intros classObj Hc. split.
    + intros Hadmin Howner. unfold getScansByClass. rewrite Hc.
      rewrite !bool_decide_eq_false_2 by done. simpl. eauto.
    + intros Hok. unfold getScansByClass. rewrite Hc.
      assert (negb (bool_decide (ClassController.role (user req) = "admin"))
              && negb (bool_decide (Teacher._id (Class.teacher classObj)
                                    = ClassController.id (user req))) = false)
        as ->.
      { destruct Hok as [H|H]; rewrite (bool_decide_eq_true_2 _ H); simpl;
          [done|apply andb_false_r]. }
      eexists _, _. split; [reflexivity|].
      split; [by rewrite length_fmap|]. split.
      { intros item (s & -> & Hs)%list_elem_of_fmap.
        by apply list_elem_of_filter in Hs as [Hcid _]. }
      split; [by rewrite <- list_fmap_compose|]. split.
      { intros sid station. split.
        - intros (item & (s & -> & Hs)%list_elem_of_fmap & Hitem).
          apply list_elem_of_filter in Hs as [Hcid Hs]. simpl in Hitem.
          destruct (stations db !! Scan.stationId s) as [st|] eqn:Hst;
            [|done].
          simpl in Hitem. injection Hitem as <- <-. split; [|done].
          rewrite <- Hcid. by apply Scan_findOne_elem.
        - intros [[s Hfound] Hst].
          apply Scan_findOne_Some in Hfound as [Hs Hkey].
          injection Hkey as Hcid Hsid.
          exists (populate_stationId db s). split.
          + apply list_elem_of_fmap. exists s. split; [done|].
            by apply list_elem_of_filter.
          + simpl. by rewrite Hsid, Hst. }
      split; [done|]. simpl. apply populate_stationsScanned_ids.
Qed.

Lemma countScans_pos countByClass countByClassId db cid :
  0 < Db.Scan_countDocuments db cid →
  ClassController.countScans countByClass countByClassId db cid
  = Db.Scan_countDocuments db cid.
Proof.
  intros Hpos. unfold ClassController.countScans.
  destruct (Db.Scan_countDocuments db cid =? 0) eqn:Hz;
    [apply Nat.eqb_eq in Hz; lia|].
  by rewrite Hz.
Qed.

(** X21. [getScansByClass] and [getClassProgress] write their ownership
    test in different orders but admit the same users: for the same class
    and user both answer 404, or both 403, or both 200; and when both
    answer 200 they agree on the completion flag and times of the class,
    and the progress counts a non-empty scan list at its length. *)
Theorem scans_and_progress_admit_the_same_users
    countByClass countByClassId cid user db :
  match getScansByClass {| classId := cid; user := user |} db,
        ClassController.getClassProgress countByClass countByClassId
          {| ClassController.params_id := cid; ClassController.user := user |} db
  with
  | classError _ code1, ClassController.ErrorResponse _ code2 =>
    code1 = code2 ∧ (code1 = 404 ∨ code1 = 403)
  | classJson status1 classData count _, ClassController.json status2 progress =>
    status1 = 200 ∧ status2 = 200 ∧
    ClassData.isCompleted classData = ClassController.isCompleted progress ∧
    ClassData.lastScanAt classData = ClassController.lastScanAt progress ∧
    ClassData.completedAt classData = ClassController.completedAt progress ∧
    (0 < count → ClassController.completedCount progress = count)
  | _, _ => False
  end.
Proof.
  unfold getScansByClass, ClassController.getClassProgress. simpl.
  destruct (classes db !! cid) as [classObj|]; [|auto].
  destruct (decide (ClassController.role user = "admin")) as [Hadmin|Hadmin];
    destruct (decide (Teacher._id (Class.teacher classObj)
                      = ClassController.id user)) as [Howner|Howner];
    rewrite ?(bool_decide_eq_true_2 _ Hadmin), ?(bool_decide_eq_true_2 _ Howner),
      ?(bool_decide_eq_false_2 _ Hadmin), ?(bool_decide_eq_false_2 _ Howner);
    simpl; auto;
    (do 5 (split; [done|])); rewrite length_fmap;
    change (length (Scan_find_classId db cid))
      with (Db.Scan_countDocuments db cid);
    intros Hpos; rewrite countScans_pos by done;
    by rewrite (proj2 (Nat.ltb_lt _ _) Hpos).
Qed.

Lemma accepted_scan_stored clock saveOk req db cid sid station classObj :
  accepted req db cid sid station classObj →
  let db' := (ScanController.recordScan clock saveOk req db).2 in
  stations db' = stations db ∧
  is_Some (classes db' !! cid) ∧
  scans db' =
    scans db ++
    match Db.Scan_findOne db cid sid with
    | Some _ => []
    | None => [ {| Scan.classId := cid; Scan.stationId := sid;
                   Scan.scannedAt := clock 0 |} ]
    end.
Proof.
  intros Hacc. simpl.
  rewrite (recordScan_accepted_result _ _ _ _ _ _ _ _ Hacc).
  destruct Hacc as (_ & _ & _ & _ & Hc & _).
  destruct (Db.Scan_findOne db cid sid).
  - rewrite app_nil_r. destruct (_ && _); simpl; rewrite ?lookup_insert_eq; eauto.
  - destruct saveOk; simpl; rewrite ?lookup_insert_eq; eauto.
Qed.

(** X22. What [recordScan] stores, the queries return: after an accepted
    scan request, whether the class save succeeded or not, the station's
    scan list names the class and the class's scan list shows the station,
    populated; the station's list has grown by one if the pair was new and
    is unchanged if it was a repeat. *)
Theorem recorded_scan_is_listed clock saveOk req db cid sid station classObj user :
  accepted req db cid sid station classObj →
  ClassController.role user = "admin" ∨
  Teacher._id (Class.teacher classObj) = ClassController.id user →
  let db' := (ScanController.recordScan clock saveOk req db).2 in
  (∃ data,
     getScansByStation sid db' = stationJson 200 (length data) data ∧
     (∃ item c, item ∈ data ∧ ScanOfStation.classId item = Some (cid, c)) ∧
     length data =
       length (Scan_find_stationId db sid)
       + match Db.Scan_findOne db cid sid with Some _ => 0 | None => 1 end) ∧
  (∃ classData data,
     getScansByClass {| classId := cid; user := user |} db'
     = classJson 200 classData (length data) data ∧
     ∃ item, item ∈ data ∧ ScanOfClass.stationId item = Some (sid, station)).
Proof.
  intros Hacc Hok. simpl.
  destruct (accepted_scan_stored clock saveOk req db cid sid station classObj Hacc)
    as (Hst & [c' Hc'] & Hscans).
  pose proof Hacc as (_ & _ & Hstation & _ & Hc & _).
  set (db' := (ScanController.recordScan clock saveOk req db).2) in *.
  assert (∃ s, s ∈ scans db' ∧ scanKey s = (cid, sid)) as (s & Hs & Hkey).
  { rewrite Hscans. destruct (Db.Scan_findOne db cid sid) as [s|] eqn:Hf.
    - apply Scan_findOne_Some in Hf as [Hs Hkey]. exists s.
      split; [|done]. apply elem_of_app. by left.
    - eexists. split; [apply elem_of_app; right; apply list_elem_of_here|done]. }
  injection Hkey as Hcid Hsid.
  split.
  - unfold getScansByStation. rewrite Hst, Hstation.
    eexists. split; [reflexivity|]. split.
    + exists (populate_classId db' s), c'. split.
      * apply list_elem_of_fmap. exists s. split; [done|].
        by apply list_elem_of_filter.
      * simpl. by rewrite Hcid, Hc'.
    + rewrite length_fmap. unfold Scan_find_stationId. rewrite Hscans.
      rewrite filter_app, length_app. f_equal.
      destruct (Db.Scan_findOne db cid sid); [done|].
      by rewrite filter_cons_True.
  - assert (Teacher._id (Class.teacher c') = Teacher._id (Class.teacher classObj))
      as Hteacher.
    { destruct (step_class db (EvScan clock saveOk req) cid)
        as [Hsame|(clock' & sid' & c0 & Hc0 & Hnew)]; simpl in *;
        fold db' in Hsame || fold db' in Hnew.
      - rewrite Hsame in Hc'. congruence.
      - destruct (scannedClass_fields clock' db cid sid' c0) as (_ & Ht & _).
        simpl in Ht. congruence. }
    unfold getScansByClass. simpl. rewrite Hc'.
    assert (negb (bool_decide (ClassController.role user = "admin"))
            && negb (bool_decide (Teacher._id (Class.teacher c')
                                  = ClassController.id user)) = false) as ->.
    { rewrite Hteacher.
      destruct Hok as [H|H]; rewrite (bool_decide_eq_true_2 _ H); simpl;
        [done|apply andb_false_r]. }
    eexists _, _. split; [reflexivity|].
    exists (populate_stationId db' s). split.
    + apply list_elem_of_fmap. exists s. split; [done|].
      by apply list_elem_of_filter.
    + simpl. by rewrite Hsid, Hst, Hstation.
Qed.

End ScanQueriesMore.

Section ScanListsUnique.
Import ScanQueries.

Lemma NoDup_omap_of_fmap {A B} (f : A → option B) (g : A → B) (l : list A) :
  (∀ x y, f x = Some y → y = g x) → NoDup (g <$> l) → NoDup (omap f l).
Proof.
  intros Hfg. induction l as [|x l IH]; [constructor|].
  rewrite fmap_cons, NoDup_cons. intros [Hx Hnd]. cbn [omap list_omap].
  destruct (f x) as [y|] eqn:Hfx; [|by apply IH].
  apply NoDup_cons. split; [|by apply IH].
  intros (x' & Hx' & Hfx')%list_elem_of_omap. apply Hx.
  apply list_elem_of_fmap. exists x'. split; [|done].
  rewrite <- (Hfg _ _ Hfx), <- (Hfg _ _ Hfx'). done.
Qed.

Lemma omap_fmap_compose {A B C} (f : B → option C) (g : A → B) (l : list A) :
  omap f (g <$> l) = omap (f ∘ g) l.
Proof.
  induction l as [|x l IH]; [done|].
  rewrite fmap_cons. cbn [omap list_omap]. rewrite IH. done.
Qed.

Lemma uniqueScans_station l sid :
  uniqueScans l → NoDup (Scan.classId <$> filter (λ s, Scan.stationId s = sid) l).
Proof.
  unfold uniqueScans. induction l as [|s l IH]; [constructor|].
  rewrite fmap_cons, NoDup_cons. intros [Hs Hnd]. rewrite filter_cons.
  destruct (decide (Scan.stationId s = sid)) as [Hsid|]; [|by apply IH].
  rewrite fmap_cons. apply NoDup_cons. split; [|by apply IH].
  intros (s' & Hcid & [Hsid' Hs']%list_elem_of_filter)%list_elem_of_fmap.
  apply Hs, list_elem_of_fmap. exists s'. split; [|done].
  unfold scanKey. by rewrite Hcid, Hsid, Hsid'.
Qed.

Lemma uniqueScans_class l cid :
  uniqueScans l → NoDup (Scan.stationId <$> filter (λ s, Scan.classId s = cid) l).
Proof.
  unfold uniqueScans. induction l as [|s l IH]; [constructor|].
  rewrite fmap_cons, NoDup_cons. intros [Hs Hnd]. rewrite filter_cons.
  destruct (decide (Scan.classId s = cid)) as [Hcid|]; [|by apply IH].
  rewrite fmap_cons. apply NoDup_cons. split; [|by apply IH].
  intros (s' & Hsid & [Hcid' Hs']%list_elem_of_filter)%list_elem_of_fmap.
  apply Hs, list_elem_of_fmap. exists s'. split; [|done].
  unfold scanKey. by rewrite Hsid, Hcid, Hcid'.
Qed.

(** X23. As long as the store started with at most one scan per class and
    station, whatever scan requests and roster changes follow, a station's
    scan list shows no class twice and a class's scan list shows no
    station twice. *)
Theorem scan_lists_show_each_pair_once evs db0 :
  uniqueScans (scans db0) →
  let db := run evs db0 in
  (∀ sid status count data,
     getScansByStation sid db = stationJson status count data →
     NoDup (listedClasses data)) ∧
  (∀ req status classData count data,
     getScansByClass req db = classJson status classData count data →
     NoDup (listedStations data)).
Proof.
  intros Huniq db. pose proof (uniqueScans_run evs db0 Huniq) as Hdb.
  fold db in Hdb. split.
  - intros sid status count data. unfold getScansByStation.
    destruct (stations db !! sid); [|done]. intros [= <- <- <-].
    unfold listedClasses. rewrite omap_fmap_compose.
    apply (NoDup_omap_of_fmap _ Scan.classId);
      [|by apply uniqueScans_station].
    intros s cid. simpl. destruct (classes db !! Scan.classId s); [|done].
    by intros [= <-].
  - intros req status classData count data. unfold getScansByClass.
    destruct (classes db !! classId req); [|done].
    destruct (_ && _); [done|]. intros [= <- <- <- <-].
    unfold listedStations. rewrite omap_fmap_compose.
    apply (NoDup_omap_of_fmap _ Scan.stationId);
      [|by apply uniqueScans_class].
    intros s sid. simpl. destruct (stations db !! Scan.stationId s); [|done].
    by intros [= <-].
Qed.

End ScanListsUnique.

(** ** Authentication, authorization and the routes *)

Section AuthMore.
Import Auth.

Lemma isAuthorized_spec userRole allowedRoles :
  isAuthorized userRole allowedRoles = true ↔
  ∃ allowedRole, allowedRole ∈ allowedRoles ∧ trim allowedRole = userRole.
Proof.
  induction allowedRoles as [|r rs IH]; simpl.
  - split; [done|]. intros (r & Hr & _). by apply elem_of_nil in Hr.
  - destruct (decide (trim r = userRole)) as [Heq|Hne].
    + rewrite (bool_decide_eq_true_2 _ Heq). split; [|done].
      intros _. exists r. split; [apply list_elem_of_here|done].
    + rewrite (bool_decide_eq_false_2 _ Hne), IH. split.
      * intros (r' & Hr' & Heq). exists r'.
        split; [by apply list_elem_of_further|done].
      * intros (r' & [->|Hr']%elem_of_cons & Heq); [done|]. eauto.
Qed.

Lemma flatten_roleArray allowedRoles :
  flatten [roleArray allowedRoles] = flatten (oneRole <$> allowedRoles).
Proof.
  unfold flatten. rewrite bind_cons. change ([] ≫= _) with (@nil string).
  rewrite app_nil_r.
  induction allowedRoles as [|r rs IH]; [done|].
  rewrite fmap_cons, bind_cons. simpl. by f_equal.
Qed.

Lemma authorize_next rolesInput user :
  authorize rolesInput user = next ↔
  ∃ u, user = Some u ∧ ClassController.role u ≠ EmptyString ∧
       isAuthorized (trim (ClassController.role u)) (flatten rolesInput) = true.
Proof.
  unfold authorize. destruct user as [u|]; cycle 1.
  { split; [done|]. by intros (u & [=] & _). }
  destruct (ClassController.role u) as [|c r] eqn:Hrole.
  { split; [done|]. intros (u' & [= <-] & Hne & _). by rewrite Hrole in Hne. }
  destruct (isAuthorized _ _) eqn:Hauth.
  - split; [|done]. intros _. exists u. rewrite Hrole. done.
  - split; [done|]. intros (u' & [= <-] & _ & Hyes).
    rewrite Hrole in Hyes. congruence.
Qed.

(** X24. [authorize] lets a request pass exactly when [req.user] is set,
    its role is not empty and, white space at both ends aside, equals one
    of the allowed roles; every refusal is a 403.  An array of roles means
    the same as the roles given one by one, allowing more roles never
    refuses a user who passed, and no roles at all refuse everybody. *)
Theorem authorize_admits_exactly_the_trimmed_matches rolesInput user :
  (authorize rolesInput user = next ↔
   ∃ u allowedRole,
     user = Some u ∧ ClassController.role u ≠ EmptyString ∧
     allowedRole ∈ flatten rolesInput ∧
     trim allowedRole = trim (ClassController.role u)) ∧
  (authorize rolesInput user ≠ next →
   ∃ msg, authorize rolesInput user = ErrorResponse msg 403) ∧
  (∀ allowedRoles,
     authorize [roleArray allowedRoles] user
     = authorize (oneRole <$> allowedRoles) user) ∧
  (∀ more, authorize rolesInput user = next →
           authorize (rolesInput ++ more) user = next ∧
           authorize (more ++ rolesInput) user = next) ∧
  authorize [] user ≠ next.
Proof.
  split; [|split; [|split; [|split]]].
  - rewrite authorize_next. split.
    + intros (u & Hu & Hne & (r & Hr & Hrole)%isAuthorized_spec). by exists u, r.
    + intros (u & r & Hu & Hne & Hr & Hrole). exists u.
      split; [done|]. split; [done|]. apply isAuthorized_spec. eauto.
  - unfold authorize. destruct user as [u|]; [|eauto].
    destruct (ClassController.role u); [eauto|].
    destruct (isAuthorized _ _); [done|eauto].
  - intros allowedRoles. unfold authorize. by rewrite flatten_roleArray.
  - intros more. rewrite !authorize_next.
    intros (u & Hu & Hne & (r & Hr & Hrole)%isAuthorized_spec).
    split; exists u; (split; [done|]); (split; [done|]);
      apply isAuthorized_spec; exists r; (split; [|done]);
      unfold flatten; rewrite bind_app, elem_of_app; auto.
  - rewrite authorize_next. intros (u & _ & _ & Hauth). done.
Qed.

(** X25. The route guard and the handlers read the role differently: a
    user whose role is [admin] only after trimming passes
    [authorize('admin')], yet the handlers, which compare the role as it
    is stored, treat the same user as no admin and answer 403 for a class
    of another teacher. *)
Theorem padded_admin_role_passes_the_guard_only
    countByClass countByClassId u cid classObj db :
  trim (ClassController.role u) = "admin" →
  ClassController.role u ≠ "admin" →
  classes db !! cid = Some classObj →
  Teacher._id (Class.teacher classObj) ≠ ClassController.id u →
  authorize [oneRole "admin"] (Some u) = next ∧
  (∃ msg,
     ClassController.getClassProgress countByClass countByClassId
       {| ClassController.params_id := cid; ClassController.user := u |} db
     = ClassController.ErrorResponse msg 403) ∧
  (∃ msg,
     ScanQueries.getScansByClass
       {| ScanQueries.classId := cid; ScanQueries.user := u |} db
     = ScanQueries.classError msg 403).
Proof.
  intros Htrim Hraw Hc Howner. split; [|split].
  - apply authorize_next. exists u. split; [done|]. split.
    + intros Hempty. rewrite Hempty in Htrim. discriminate.
    + rewrite Htrim. reflexivity.
  - unfold ClassController.getClassProgress. simpl. rewrite Hc.
    rewrite !bool_decide_eq_false_2 by done. simpl. eauto.
  - unfold ScanQueries.getScansByClass. simpl. rewrite Hc.
    rewrite !bool_decide_eq_false_2 by done. simpl. eauto.
Qed.

Lemma split_spaceFree token :
  spaceFree token = true → split space token = [token].
Proof.
  induction token as [|c rest IH]; simpl; [done|].
  intros [Hc Hrest]%andb_true_iff. apply negb_true_iff in Hc.
  rewrite Hc, (IH Hrest). done.
Qed.

Lemma split_word word rest :
  spaceFree word = true →
  split space (word +:+ String space rest) = word :: split space rest.
Proof.
  induction word as [|c word IH]; intros Hfree.
  - change (EmptyString +:+ String space rest) with (String space rest).
    simpl. done.
  - change (String c word +:+ String space rest)
      with (String c (word +:+ String space rest)).
    simpl in Hfree. apply andb_true_iff in Hfree as [Hc Hword].
    apply negb_true_iff in Hc. simpl. by rewrite Hc, (IH Hword).
Qed.

Lemma bearerToken_standard token :
  spaceFree token = true →
  bearerToken (Some ("Bearer " +:+ token)) = Some token.
Proof.
  intros Hfree. unfold bearerToken.
  assert (truthy_string (Some ("Bearer " +:+ token))
          = Some ("Bearer " +:+ token)) as -> by reflexivity.
  cbv beta iota.
  assert (String.prefix "Bearer" ("Bearer " +:+ token) = true) as ->
    by reflexivity.
  change ("Bearer " +:+ token) with ("Bearer" +:+ String space token).
  rewrite split_word by done. by rewrite (split_spaceFree _ Hfree).
Qed.

Lemma bearerToken_Some authorization token :
  bearerToken authorization = Some token ↔
  ∃ header, authorization = Some header ∧
            String.prefix "Bearer" header = true ∧
            split space header !! 1 = Some token.
Proof.
  unfold bearerToken. split.
  - destruct authorization as [[|c h]|]; cbn [truthy_string]; try done.
    destruct (String.prefix "Bearer" (String c h)) eqn:Hprefix; [|done].
    intros Htoken. by exists (String c h).
  - intros (header & -> & Hprefix & Htoken).
    destruct header as [|c h]; [done|]. cbn [truthy_string].
    by rewrite Hprefix.
Qed.

Variable jwt_verify : string → option Id.
Variable User_findById : Id → option ClassController.User.

(** X26. [protect] lets a request pass only with a verified token of a
    stored user: the header must start with [Bearer], the token is what
    stands between its first and second space and must not be empty,
    [jwt.verify] must accept it and the user it names must exist, and that
    user becomes [req.user].  A token that fails gives 401, a verified
    token of a user that is gone gives 404, and there is no other error.
    For a header [Bearer <token>] with a token without spaces the token is
    read back exactly. *)
Theorem protect_admits_only_verified_users authorization :
  (∀ user,
     protect jwt_verify User_findById authorization = authenticated user ↔
     ∃ header token id,
       authorization = Some header ∧
       String.prefix "Bearer" header = true ∧
       split space header !! 1 = Some token ∧
       token ≠ EmptyString ∧
       jwt_verify token = Some id ∧
       User_findById id = Some user) ∧
  (∀ msg code,
     protect jwt_verify User_findById authorization = unauthenticated msg code →
     (code = 401 ∧
      ∀ token, truthy_string (bearerToken authorization) = Some token →
               jwt_verify token = None) ∨
     (code = 404 ∧
      ∃ token id, truthy_string (bearerToken authorization) = Some token ∧
                  jwt_verify token = Some id ∧ User_findById id = None)) ∧
  (∀ token,
     token ≠ EmptyString → spaceFree token = true →
     protect jwt_verify User_findById (Some ("Bearer " +:+ token))
     = match jwt_verify token with
       | None => unauthenticated "Not authorized to access this route" 401
       | Some id =>
         match User_findById id with
         | None => unauthenticated "No user found with this id" 404
         | Some user => authenticated user
         end
       end).
Proof.
  split; [|split].
  - intros user. unfold protect. split.
    + destruct (bearerToken authorization) as [[|c t]|] eqn:Htoken;
        cbn [truthy_string]; try done.
      apply bearerToken_Some in Htoken as (header & -> & Hprefix & Htoken).
      destruct (jwt_verify (String c t)) as [id|] eqn:Hjwt; [|done].
      destruct (User_findById id) as [u|] eqn:Hu; [|done].
      intros [= <-]. by exists header, (String c t), id.
    + intros (header & token & id & -> & Hprefix & Htoken & Hne & Hjwt & Hu).
      assert (bearerToken (Some header) = Some token) as ->
        by (apply bearerToken_Some; eauto).
      destruct token as [|c' t]; [done|].
      cbn [truthy_string]. by rewrite Hjwt, Hu.
  - intros msg code. unfold protect.
    destruct (truthy_string (bearerToken authorization)) as [token|].
    + destruct (jwt_verify token) as [id|] eqn:Hjwt.
      * destruct (User_findById id) eqn:Hu; [done|].
        intros [= <- <-]. right. split; [done|]. by exists token, id.
      * intros [= <- <-]. left. split; [done|]. by intros ? [= <-].
    + intros [= <- <-]. left. done.
  - intros token Hne Hfree. unfold protect.
    rewrite (bearerToken_standard _ Hfree).
    by destruct token.
Qed.

End AuthMore.

Section RoutesMore.
Import Routes.

Variable jwt_verify : string → option Id.
Variable User_findById : Id → option ClassController.User.

Lemma authorize_admin u :
  Auth.authorize [Auth.oneRole "admin"] (Some u) = Auth.next ↔
  Auth.trim (ClassController.role u) = "admin".
Proof.
  rewrite authorize_next. split.
  - intros (u' & [= <-] & _ & (r & Hr & Hrole)%isAuthorized_spec).
    apply list_elem_of_singleton in Hr. subst r. by rewrite <- Hrole.
  - intros Htrim. exists u. split; [done|]. split.
    + intros Hempty. rewrite Hempty in Htrim. discriminate.
    + rewrite Htrim. reflexivity.
Qed.

Lemma authorize_not_admin u :
  Auth.trim (ClassController.role u) ≠ "admin" →
  ∃ msg, Auth.authorize [Auth.oneRole "admin"] (Some u)
         = Auth.ErrorResponse msg 403.
Proof.
  intros Hne. unfold Auth.authorize.
  destruct (ClassController.role u) eqn:Hrole; [eauto|].
  destruct (Auth.isAuthorized _ _) eqn:Hauth; [|eauto].
  apply isAuthorized_spec in Hauth as (r & Hr & Hrole').
  apply list_elem_of_singleton in Hr. subst r. by rewrite <- Hrole' in Hne.
Qed.

(** X27. The drawing routes and the station scan list are for admins
    only: without a verified token the request is refused with the error
    of [protect]; with one, a user whose trimmed role is not [admin] is
    refused with 403; in both cases the store is left as it was.  An admin
    reaches the handler, whose answer and store are the route's.  So a run
    that changes the store was asked for by an authenticated admin, and
    listing a station's scans never changes the store. *)
Theorem admin_routes_refuse_everyone_else
    random Scan_find_class authorization id body stationId db :
  let run :=
    post_drawings_run jwt_verify User_findById random Scan_find_class
      authorization id body db in
  let list := get_scans_station jwt_verify User_findById authorization stationId db in
  (∀ msg code,
     Auth.protect jwt_verify User_findById authorization
     = Auth.unauthenticated msg code →
     run = (refused msg code, db) ∧ list = (refused msg code, db)) ∧
  (∀ user,
     Auth.protect jwt_verify User_findById authorization
     = Auth.authenticated user →
     (Auth.trim (ClassController.role user) ≠ "admin" →
      (∃ msg, run = (refused msg 403, db)) ∧
      (∃ msg, list = (refused msg 403, db))) ∧
     (Auth.trim (ClassController.role user) = "admin" →
      run =
        (handled
           (DrawingController.runDrawing random Scan_find_class id body db).1,
         (DrawingController.runDrawing random Scan_find_class id body db).2) ∧
      list = (handled (ScanQueries.getScansByStation stationId db), db))) ∧
  (run.2 ≠ db →
   ∃ user,
     Auth.protect jwt_verify User_findById authorization
     = Auth.authenticated user ∧
     Auth.trim (ClassController.role user) = "admin") ∧
  list.2 = db.
Proof.
  simpl. unfold post_drawings_run, get_scans_station, protected, authorized.
  destruct (Auth.protect jwt_verify User_findById authorization)
    as [msg code|user] eqn:Hprotect.
  - split; [by intros ?? [= <- <-]|]. split; [done|]. split; done.
  - split; [done|].
    destruct (decide (Auth.trim (ClassController.role user) = "admin"))
      as [Hadmin|Hadmin].
    + rewrite (proj2 (authorize_admin user) Hadmin). split.
      * intros ? [= <-]. split; [done|]. done.
      * split; [|done]. intros _. by exists user.
    + destruct (authorize_not_admin user Hadmin) as [msg ->]. split.
      * intros ? [= <-]. split; [|done]. intros _. split; eauto.
      * split; done.
Qed.

Lemma recordScan_keeps_teacher clock saveOk req db cid c c' :
  classes db !! cid = Some c →
  classes (ScanController.recordScan clock saveOk req db).2 !! cid = Some c' →
  Class.teacher c' = Class.teacher c.
Proof.
  intros Hc Hc'.
  destruct (step_class db (EvScan clock saveOk req) cid)
    as [Hsame|(clock' & sid' & c0 & Hc0 & Hnew)]; simpl in *.
  - congruence.
  - destruct (scannedClass_fields clock' db cid sid' c0) as (_ & Ht & _).
    simpl in Ht. congruence.
Qed.

(** X28. Recording a scan asks for no more than a verified token: a user
    who is neither an admin nor the teacher of the class records a scan
    for it, which is stored like any other, while the same user's request
    for the scans of that class is answered 403, before and after. *)
Theorem any_authenticated_user_may_record_a_scan
    clock saveOk authorization user req db cid sid station classObj :
  Auth.protect jwt_verify User_findById authorization = Auth.authenticated user →
  accepted req db cid sid station classObj →
  ClassController.role user ≠ "admin" →
  Teacher._id (Class.teacher classObj) ≠ ClassController.id user →
  let result := post_scans jwt_verify User_findById clock saveOk authorization req db in
  (∃ status body,
     result.1 = handled (ScanController.json status body) ∧
     (status = 200 ∨ status = 201)) ∧
  result.2 = (ScanController.recordScan clock saveOk req db).2 ∧
  is_Some (Db.Scan_findOne result.2 cid sid) ∧
  (∃ msg, get_scans_class jwt_verify User_findById authorization cid db
          = (handled (ScanQueries.classError msg 403), db)) ∧
  (∃ msg, get_scans_class jwt_verify User_findById authorization cid result.2
          = (handled (ScanQueries.classError msg 403), result.2)).
Proof.
  intros Hprotect Hacc Hadmin Howner. simpl.
  unfold post_scans, get_scans_class, protected. rewrite Hprotect. simpl.
  pose proof Hacc as (_ & _ & _ & _ & Hc & _).
  destruct (accepted_scan_stored clock saveOk req db cid sid station classObj Hacc)
    as (_ & [c' Hc'] & Hscans).
  split; [|split; [done|split; [|split]]].
  - rewrite (recordScan_accepted _ _ _ _ _ _ _ _ Hacc).
    destruct (Db.Scan_findOne db cid sid); simpl; eauto.
  - destruct (Db.Scan_findOne db cid sid) as [s|] eqn:Hf.
    + apply Scan_findOne_Some in Hf as [Hs Hkey].
      injection Hkey as <- <-. apply Scan_findOne_elem.
      rewrite Hscans. apply elem_of_app. by left.
    + apply (Scan_findOne_elem _
               {| Scan.classId := cid; Scan.stationId := sid;
                  Scan.scannedAt := clock 0 |}).
      rewrite Hscans. apply elem_of_app. right. apply list_elem_of_here.
  - unfold ScanQueries.getScansByClass. simpl. rewrite Hc.
    rewrite !bool_decide_eq_false_2 by done. simpl. eauto.
  - unfold ScanQueries.getScansByClass. simpl. rewrite Hc'.
    rewrite (recordScan_keeps_teacher _ _ _ _ _ _ _ Hc Hc').
    rewrite !bool_decide_eq_false_2 by done. simpl. eauto.
Qed.

End RoutesMore.

(** ** Reading a drawing *)

Section DrawingQueriesMore.
Import DrawingQueries.

Variable random : nat → Q.
Variable Scan_find_class : Id → list DrawingController.ScanView.

(** X29. A run can be read back: after a successful [runDrawing],
    [getDrawing] on the same id answers 200 with the completed drawing and
    its eligible list, and with as many winners as were drawn, in the same
    order, each populated with a stored active class (none is [null]), its
    name and the prize of the run; every other drawing reads as before,
    and [getDrawings] lists as many drawings as before. *)
Theorem run_drawing_reads_back id body db status d' db' :
  DrawingController.runDrawing random Scan_find_class id body db
  = (DrawingController.json status d', db') →
  (∃ data,
     getDrawing id db' = json 200 data ∧
     DrawingQueries.status data = Drawing.completed ∧
     eligibleClasses data = Drawing.eligibleClasses d' ∧
     Winner.prize <$> winners data = Drawing.prize <$> Drawing.winners d' ∧
     (λ w, ClassRef._id <$> Winner.class w) <$> winners data
     = Some <$> (Drawing.class <$> Drawing.winners d') ∧
     ∀ w, w ∈ winners data →
       Winner.prize w = prizeOf body ∧
       ∃ ref c, Winner.class w = Some ref ∧
                classes db !! ClassRef._id ref = Some c ∧
                Class.isActive c = true ∧
                ClassRef.name ref = Class.name c) ∧
  (∀ id', id' ≠ id → getDrawing id' db' = getDrawing id' db) ∧
  (∀ status1 count1 data1 status2 count2 data2,
     getDrawings db = listJson status1 count1 data1 →
     getDrawings db' = listJson status2 count2 data2 →
     count2 = count1 ∧ count1 = size (drawings db)).
Proof.
  intros Hrun. pose proof Hrun
    as (n & d & [Hn Hpos] & Hd & Hst & Ht & Hne & -> & Hd' & ->)%runDrawing_success.
  assert (∀ w, w ∈ Drawing.winners d' →
            Drawing.prize w = prizeOf body ∧
            ∃ c, classes db !! Drawing.class w = Some c ∧
                 Class.isActive c = true) as Hwinners.
  { intros w Hw.
    assert (Drawing.class w ∈ (eligibleList Scan_find_class db).*1) as Hel.
    { apply (winners_eligible random Scan_find_class n body d db).
      rewrite <- Hd'. apply list_elem_of_fmap. eauto. }
    rewrite Hd' in Hw. simpl in Hw.
    apply pickWinners_records in Hw as [Hw|(_ & Hprize & _)];
      [by apply elem_of_nil in Hw|].
    split; [done|].
    apply list_elem_of_fmap in Hel as ([cid c] & Hcid & Hin). simpl in Hcid.
    apply list_elem_of_filter in Hin as [_ Hin].
    apply list_elem_of_filter in Hin as [Hact Hin].
    apply elem_of_map_to_list in Hin. simpl in Hact. rewrite Hcid. eauto. }
  split; [|split].
  - unfold getDrawing. simpl. rewrite lookup_insert_eq.
    eexists. split; [reflexivity|]. simpl.
    split; [by rewrite Hd'|]. split; [done|]. split.
    { rewrite <- list_fmap_compose. done. }
    split.
    { rewrite <- !list_fmap_compose. apply Forall_fmap_ext_1, Forall_forall.
      intros w Hw. destruct (Hwinners w Hw) as (_ & c & Hc & _).
      simpl. by rewrite Hc. }
    intros w (w0 & -> & Hw0)%list_elem_of_fmap.
    destruct (Hwinners w0 Hw0) as (Hprize & c & Hc & Hact).
    split; [done|]. simpl. rewrite Hc. simpl. eexists _, c. done.
  - intros id' Hid. unfold getDrawing. simpl.
    rewrite lookup_insert_ne by done. done.
  - intros status1 count1 data1 status2 count2 data2.
    unfold getDrawings. intros [= <- <- <-] [= <- <- <-].
    rewrite !length_fmap, !length_map_to_list. simpl. split; [|done].
    by apply map_size_insert_Some.
Qed.

End DrawingQueriesMore.

(** ** The scan query of the drawing *)

Section ScanQueryOfTheDrawing.
Import DrawingController.

Variable random : nat → Q.
Variable Scan_find_class : Id → list ScanView.

(** X30. The drawing depends on what its own scan query returns and on
    nothing that [recordScan] stores: when the query returns no document
    for any active class, no class is eligible whatever the store holds,
    so [runDrawing] answers every request with an error and changes
    nothing, and the eligible-classes query, where a station is active,
    lists no class. *)
Theorem no_query_result_no_eligible_class id body db :
  (∀ cid c, classes db !! cid = Some c → Class.isActive c = true →
            Scan_find_class cid = []) →
  (0 < Db.Station_countDocuments_active db →
   eligibleList Scan_find_class db = []) ∧
  (∃ msg code,
     runDrawing random Scan_find_class id body db = (ErrorResponse msg code, db)) ∧
  (0 < Db.Station_countDocuments_active db →
   getEligibleClassesForDrawing Scan_find_class db = eligibleJson 200 0 []) ∧
  (∀ clock saveOk req,
     ∃ msg code,
       runDrawing random Scan_find_class id body
         (ScanController.recordScan clock saveOk req db).2
       = (ErrorResponse msg code,
          (ScanController.recordScan clock saveOk req db).2)).
Proof.
  intros Hnone.
  assert (∀ db0,
            (∀ cid c, classes db0 !! cid = Some c → Class.isActive c = true →
                      Scan_find_class cid = []) →
            0 < Db.Station_countDocuments_active db0 →
            eligibleList Scan_find_class db0 = []) as Hempty.
  { intros db0 Hnone0 Hpos. unfold eligibleList.
    destruct (filter _ _) as [|[cid c] rest] eqn:Hfilter; [done|].
    assert ((cid, c) ∈ filter
              (eligible Scan_find_class (Db.Station_countDocuments_active db0))
              (Db.Class_find_active db0)) as Hin
      by (rewrite Hfilter; apply list_elem_of_here).
    apply list_elem_of_filter in Hin as [Hel Hin].
    apply list_elem_of_filter in Hin as [Hact Hin].
    apply elem_of_map_to_list in Hin. unfold eligible in Hel. simpl in *.
    rewrite (Hnone0 cid c Hin Hact) in Hel.
    assert (size (uniqueStationsScanned []) = 0) as Hsize by reflexivity.
    lia. }
  assert (∀ db0,
            (∀ cid c, classes db0 !! cid = Some c → Class.isActive c = true →
                      Scan_find_class cid = []) →
            ∃ msg code,
              runDrawing random Scan_find_class id body db0
              = (ErrorResponse msg code, db0)) as Herror.
  { intros db0 Hnone0.
    destruct (runDrawing random Scan_find_class id body db0)
      as [[msg code|status d'] db'] eqn:Hrun.
    - apply runDrawing_error in Hrun as ->. eauto.
    - apply runDrawing_success in Hrun
        as (n & d & _ & _ & _ & Hpos & Hne & _).
      by rewrite (Hempty db0 Hnone0 Hpos) in Hne. }
  split; [|split; [|split]].
  - by apply Hempty.
  - by apply Herror.
  - intros Hpos. rewrite (getEligibleClassesForDrawing_ok _ _ Hpos).
    by rewrite (Hempty db Hnone Hpos).
  - intros clock saveOk req. apply Herror. intros cid c Hc Hact.
    destruct (step_class db (EvScan clock saveOk req) cid)
      as [Hsame|(clock' & sid' & c0 & Hc0 & Hnew)]; simpl in *.
    + rewrite Hsame in Hc. by apply (Hnone cid c).
    + destruct (scannedClass_fields clock' db cid sid' c0) as (_ & _ & _ & Ha & _).
      simpl in Ha. apply (Hnone cid c0); [done|]. congruence.
Qed.

End ScanQueryOfTheDrawing.

(** ** The further properties on the example data *)

Section MoreWitnesses.
Import Example MoreExamples.

Lemma db0_classes cid c :
  classes db0 !! cid = Some c → cid = "C1" ∧ c = newClass "Otters" at0900.
Proof.
  unfold db0. simpl. intros [[<- <-]|[_ H]]%lookup_insert_Some; [done|].
  by rewrite lookup_empty in H.
Qed.

Lemma db2_classes cid c :
  classes db2 !! cid = Some c → cid = "C1" ∧ c = completedC1.
Proof.
  assert (classes db2 = <["C1" := completedC1]> ∅) as ->
    by (vm_compute; reflexivity).
  intros [[<- <-]|[_ H]]%lookup_insert_Some; [done|].
  by rewrite lookup_empty in H.
Qed.

Lemma stationsScannedIsSet_db0 : stationsScannedIsSet db0.
Proof. intros cid c [-> ->]%db0_classes. apply NoDup_nil_2. Qed.

Lemma cacheConsistent_db0 : cacheConsistent db0.
Proof. by intros cid c [-> ->]%db0_classes. Qed.

Lemma cacheConsistent_db2 : cacheConsistent db2.
Proof. intros cid c [-> ->]%db2_classes. by vm_compute. Qed.

Lemma completionStamped_db2 : completionStamped db2.
Proof. intros cid c [-> ->]%db2_classes _. split; eauto. Qed.

Lemma recordScan_new_scan_survives_failed_save_witness :
  accepted (scanOf "C1" "S1") db0 "C1" "S1" (station "Pond" true)
    (newClass "Otters" at0900) ∧
  Db.Scan_findOne db0 "C1" "S1" = None ∧
  ∃ body db',
    ScanController.recordScan (λ _, at1000) false (scanOf "C1" "S1") db0
    = (ScanController.json 201 body, db') ∧
    scans db' = scans db0 ++ [unsavedScan] ∧
    is_Some (Db.Scan_findOne db' "C1" "S1") ∧
    classes db' = classes db0.
Proof.
  assert (accepted (scanOf "C1" "S1") db0 "C1" "S1" (station "Pond" true)
            (newClass "Otters" at0900)) as H1
    by (repeat split; vm_compute; reflexivity).
  assert (Db.Scan_findOne db0 "C1" "S1" = None) as H2 by reflexivity.
  split; [exact H1|]. split; [exact H2|].
  destruct (recordScan_new_scan_survives_failed_save
              (λ _, at1000) false (scanOf "C1" "S1") db0 "C1" "S1"
              (station "Pond" true) (newClass "Otters" at0900) H1 H2)
    as (body & db' & Hrun & Hscans & Hfound & Hfailed & _).
  exists body, db'. split; [exact Hrun|]. split; [exact Hscans|].
  split; [exact Hfound|]. exact (Hfailed eq_refl).
Defined.

Lemma stationsScanned_stays_duplicate_free_witness :
  stationsScannedIsSet db0 ∧ stationsScannedIsSet (run twoScans db0).
Proof.
  split; [exact stationsScannedIsSet_db0|].
  exact (stationsScanned_stays_duplicate_free twoScans db0
           stationsScannedIsSet_db0).
Defined.

Lemma completed_classes_stay_stamped_witness :
  completionStamped db2 ∧ completionStamped (run laterEvents db2).
Proof.
  split; [exact completionStamped_db2|].
  exact (completed_classes_stay_stamped laterEvents db2 completionStamped_db2).
Defined.

Lemma recordScan_completes_iff_covered_witness :
  accepted (scanOf "C1" "S2") db1 "C1" "S2" (station "Meadow" true) scannedS1 ∧
  Db.Scan_findOne db1 "C1" "S2" = None ∧
  Class.isCompleted scannedS1 = false ∧
  ∃ c',
    classes (ScanController.recordScan (λ _, at1005) true (scanOf "C1" "S2") db1).2
      !! "C1" = Some c' ∧
    Class.lastScanAt c' = Some at1005 ∧
    (Class.isCompleted c' = true ↔
     Db.Station_countDocuments_active db1 ≤ length (Class.stationsScanned c')).
Proof.
  assert (accepted (scanOf "C1" "S2") db1 "C1" "S2" (station "Meadow" true)
            scannedS1) as H1
    by (repeat split; vm_compute; reflexivity).
  assert (Db.Scan_findOne db1 "C1" "S2" = None) as H2
    by (vm_compute; reflexivity).
  assert (Class.isCompleted scannedS1 = false) as H3 by reflexivity.
  split; [exact H1|]. split; [exact H2|]. split; [exact H3|].
  destruct (recordScan_completes_iff_covered
              (λ _, at1005) (scanOf "C1" "S2") db1 "C1" "S2"
              (station "Meadow" true) scannedS1 H1 H2 H3)
    as (c' & Hc' & _ & Hlast & Hiff & _).
  exists c'. split; [exact Hc'|]. split; [exact Hlast|]. exact Hiff.
Defined.

Lemma cache_tracks_scans_when_saves_succeed_witness :
  savedScansOnly twoScans ∧ cacheConsistent db0 ∧
  cacheConsistent (run twoScans db0).
Proof.
  assert (savedScansOnly twoScans) as H1
    by (repeat constructor).
  split; [exact H1|]. split; [exact cacheConsistent_db0|].
  exact (cache_tracks_scans_when_saves_succeed twoScans db0 H1
           cacheConsistent_db0).
Defined.

Lemma missing_station_is_never_repaired_witness :
  unsavedScan ∈ scans dbUnsaved ∧
  scanKey unsavedScan = ("C1", "S1") ∧
  classes dbUnsaved !! "C1" = Some (newClass "Otters" at0900) ∧
  ("S1" ∉ Class.stationsScanned (newClass "Otters" at0900)) ∧
  ∃ c' s',
    classes (run retries dbUnsaved) !! "C1" = Some c' ∧
    ("S1" ∉ Class.stationsScanned c') ∧
    s' ∈ scans (run retries dbUnsaved) ∧ scanKey s' = ("C1", "S1").
Proof.
  assert (unsavedScan ∈ scans dbUnsaved) as H1 by apply list_elem_of_here.
  assert (scanKey unsavedScan = ("C1", "S1")) as H2 by reflexivity.
  assert (classes dbUnsaved !! "C1" = Some (newClass "Otters" at0900)) as H3
    by (vm_compute; reflexivity).
  assert ("S1" ∉ Class.stationsScanned (newClass "Otters" at0900)) as H4
    by apply not_elem_of_nil.
  split; [exact H1|]. split; [exact H2|]. split; [exact H3|].
  split; [exact H4|].
  exact (missing_station_is_never_repaired retries dbUnsaved "C1" "S1"
           (newClass "Otters" at0900) unsavedScan H1 H2 H3 H4).
Defined.

Lemma progressPercentage_bounds_witness :
  ∃ data,
    ClassController.getClassProgress noFallback noFallback progressOfC1 db1
    = ClassController.json 200 data ∧
    ClassController.completedCount data = 1 ∧
    ClassController.totalStations data = 2 ∧
    ClassController.progressPercentage data = 50%Z ∧
    (0 ≤ ClassController.progressPercentage data)%Z ∧
    (ClassController.progressPercentage data ≤ 100)%Z.
Proof.
  eexists.
  assert (ClassController.getClassProgress noFallback noFallback progressOfC1 db1
          = ClassController.json 200
              {| ClassController.completedCount := 1;
                 ClassController.totalStations := 2;
                 ClassController.progressPercentage := 50;
                 ClassController.isCompleted := false;
                 ClassController.completedAt := None;
                 ClassController.lastScanAt := Some at1000;
                 ClassController.completionTime := None |}) as H1
    by (vm_compute; reflexivity).
  split; [exact H1|]. split; [reflexivity|]. split; [reflexivity|].
  split; [reflexivity|].
  assert (0 < 2) as H2 by lia.
  assert (2 ≤ 100) as H3 by lia.
  assert (1 ≤ 2 * 2) as H4 by lia.
  assert (1 ≤ 2) as H5 by lia.
  pose proof (proj1 (proj2 (proj2 (progressPercentage_bounds
                                     noFallback noFallback progressOfC1 db1
                                     200 _ H1))) H2 H3 H4)
    as (Hnonneg & _ & Hbound & _).
  exact (conj Hnonneg (Hbound H5)).
Defined.

Lemma progress_completion_depends_on_class_document_only_witness :
  classes db2 !! "C1" = Some completedC1 ∧
  classes dbNoStations !! "C1" = Some completedC1 ∧
  ∃ data1 data2,
    ClassController.getClassProgress noFallback noFallback progressOfC1 db2
    = ClassController.json 200 data1 ∧
    ClassController.getClassProgress noFallback noFallback progressOfC1
      dbNoStations
    = ClassController.json 200 data2 ∧
    ClassController.totalStations data1 ≠ ClassController.totalStations data2 ∧
    ClassController.isCompleted data1 = ClassController.isCompleted data2 ∧
    ClassController.completionTime data1 = ClassController.completionTime data2.
Proof.
  assert (classes db2 !! "C1" = Some completedC1) as H1
    by (vm_compute; reflexivity).
  assert (classes dbNoStations !! "C1" = Some completedC1) as H2
    by (vm_compute; reflexivity).
  split; [exact H1|]. split; [exact H2|].
  eexists _, _.
  assert (ClassController.getClassProgress noFallback noFallback progressOfC1 db2
          = ClassController.json 200
              {| ClassController.completedCount := 2;
                 ClassController.totalStations := 2;
                 ClassController.progressPercentage := 100;
                 ClassController.isCompleted := true;
                 ClassController.completedAt := Some at1005;
                 ClassController.lastScanAt := Some at1005;
                 ClassController.completionTime := Some (3900000 # 60000) |}) as H3
    by (vm_compute; reflexivity).
  assert (ClassController.getClassProgress noFallback noFallback progressOfC1
            dbNoStations
          = ClassController.json 200
              {| ClassController.completedCount := 2;
                 ClassController.totalStations := 0;
                 ClassController.progressPercentage := 0;
                 ClassController.isCompleted := true;
                 ClassController.completedAt := Some at1005;
                 ClassController.lastScanAt := Some at1005;
                 ClassController.completionTime := Some (3900000 # 60000) |}) as H4
    by (vm_compute; reflexivity).
  split; [exact H3|]. split; [exact H4|]. split; [discriminate|].
  pose proof (progress_completion_depends_on_class_document_only
                noFallback noFallback progressOfC1 db2 dbNoStations completedC1
                200 _ 200 _ H1 H2 H3 H4) as (Hflag & _ & _ & Htime & _).
  exact (conj Hflag Htime).
Defined.

Lemma progress_counts_the_cached_stations_witness :
  cacheConsistent db2 ∧
  classes db2 !! "C1" = Some completedC1 ∧
  Class.stationsScanned completedC1 ≠ [] ∧
  ∃ data,
    ClassController.getClassProgress noFallback noFallback progressOfC1 db2
    = ClassController.json 200 data ∧
    ClassController.completedCount data
    = length (Class.stationsScanned completedC1).
Proof.
  assert (classes db2 !! "C1" = Some completedC1) as H1
    by (vm_compute; reflexivity).
  assert (Class.stationsScanned completedC1 ≠ []) as H2 by discriminate.
  split; [exact cacheConsistent_db2|]. split; [exact H1|]. split; [exact H2|].
  eexists.
  assert (ClassController.getClassProgress noFallback noFallback progressOfC1 db2
          = ClassController.json 200
              {| ClassController.completedCount := 2;
                 ClassController.totalStations := 2;
                 ClassController.progressPercentage := 100;
                 ClassController.isCompleted := true;
                 ClassController.completedAt := Some at1005;
                 ClassController.lastScanAt := Some at1005;
                 ClassController.completionTime := Some (3900000 # 60000) |}) as H3
    by (vm_compute; reflexivity).
  split; [exact H3|].
  exact (proj1 (progress_counts_the_cached_stations
                  noFallback noFallback progressOfC1 db2 completedC1 200 _
                  cacheConsistent_db2 H1 H2 H3)).
Defined.

Lemma runDrawing_winner_records_witness :
  let d' := completedDrawing random history 2 twoWinners pendingDrawing raffleDb in
  DrawingController.runDrawing random history "D1" twoWinners raffleDb
  = (DrawingController.json 200 d', Db.Drawing_save "D1" d' raffleDb) ∧
  firstWinner ∈ Drawing.winners d' ∧
  Drawing.prize firstWinner = prizeOf twoWinners ∧
  Drawing.prize firstWinner ≠ EmptyString.
Proof.
  intros d'.
  assert (DrawingController.runDrawing random history "D1" twoWinners raffleDb
          = (DrawingController.json 200 d', Db.Drawing_save "D1" d' raffleDb))
    as H1 by (vm_compute; reflexivity).
  assert (firstWinner ∈ Drawing.winners d') as H2.
  { assert (Drawing.winners d'
            = [ firstWinner;
                {| Drawing.class := "C3"; Drawing.prize := "Ice Cream Social";
                   Drawing.notified := false |} ]) as ->
      by (vm_compute; reflexivity).
    apply list_elem_of_here. }
  split; [exact H1|]. split; [exact H2|].
  pose proof (runDrawing_winner_records
                random history "D1" twoWinners raffleDb 200 d' _ firstWinner
                H1 H2) as (Hprize & Hne & _).
  exact (conj Hprize Hne).
Defined.

Lemma no_factors_one_ticket_each_witness :
  DrawingController.stationsFoundFactor flatDrawing = Number.zero ∧
  truthy_number (DrawingController.completionTimeFactor flatDrawing) = false ∧
  DrawingController.classId <$> entryPool history flatDrawing raffleDb
  = (eligibleList history raffleDb).*1.
Proof.
  assert (DrawingController.stationsFoundFactor flatDrawing = Number.zero)
    as H1 by reflexivity.
  assert (truthy_number (DrawingController.completionTimeFactor flatDrawing)
          = false) as H2 by reflexivity.
  split; [exact H1|]. split; [exact H2|].
  exact (proj2 (proj2 (no_factors_one_ticket_each history flatDrawing raffleDb
                         H1 H2))).
Defined.


Lemma recorded_scan_is_listed_witness :
  accepted (scanOf "C1" "S1") db0 "C1" "S1" (station "Pond" true)
    (newClass "Otters" at0900) ∧
  Teacher._id (Class.teacher (newClass "Otters" at0900))
  = ClassController.id owner ∧
  ∃ data,
    ScanQueries.getScansByStation "S1" dbUnsaved
    = ScanQueries.stationJson 200 (length data) data ∧
    ∃ item c, item ∈ data ∧
              ScanQueries.ScanOfStation.classId item = Some ("C1", c).
Proof.
  assert (accepted (scanOf "C1" "S1") db0 "C1" "S1" (station "Pond" true)
            (newClass "Otters" at0900)) as H1
    by (repeat split; vm_compute; reflexivity).
  assert (Teacher._id (Class.teacher (newClass "Otters" at0900))
          = ClassController.id owner) as H2 by reflexivity.
  split; [exact H1|]. split; [exact H2|].
  destruct (recorded_scan_is_listed
              (λ _, at1000) false (scanOf "C1" "S1") db0 "C1" "S1"
              (station "Pond" true) (newClass "Otters" at0900) owner
              H1 (or_intror H2))
    as [(data & Hlist & Hitem & _) _].
  exists data. exact (conj Hlist Hitem).
Defined.

Lemma scan_lists_show_each_pair_once_witness :
  uniqueScans (scans db0) ∧
  ∀ sid status count data,
    ScanQueries.getScansByStation sid (run twoScans db0)
    = ScanQueries.stationJson status count data →
    NoDup (listedClasses data).
Proof.
  assert (uniqueScans (scans db0)) as H1 by apply NoDup_nil_2.
  split; [exact H1|].
  exact (proj1 (scan_lists_show_each_pair_once twoScans db0 H1)).
Defined.

Lemma padded_admin_role_passes_the_guard_only_witness :
  Auth.trim (ClassController.role paddedAdmin) = "admin" ∧
  ClassController.role paddedAdmin ≠ "admin" ∧
  classes db0 !! "C1" = Some (newClass "Otters" at0900) ∧
  Teacher._id (Class.teacher (newClass "Otters" at0900))
  ≠ ClassController.id paddedAdmin ∧
  Auth.authorize [Auth.oneRole "admin"] (Some paddedAdmin) = Auth.next ∧
  ∃ msg,
    ScanQueries.getScansByClass
      {| ScanQueries.classId := "C1"; ScanQueries.user := paddedAdmin |} db0
    = ScanQueries.classError msg 403.
Proof.
  assert (Auth.trim (ClassController.role paddedAdmin) = "admin") as H1
    by (vm_compute; reflexivity).
  assert (ClassController.role paddedAdmin ≠ "admin") as H2 by discriminate.
  assert (classes db0 !! "C1" = Some (newClass "Otters" at0900)) as H3
    by reflexivity.
  assert (Teacher._id (Class.teacher (newClass "Otters" at0900))
          ≠ ClassController.id paddedAdmin) as H4 by discriminate.
  split; [exact H1|]. split; [exact H2|]. split; [exact H3|].
  split; [exact H4|].
  pose proof (padded_admin_role_passes_the_guard_only
                noFallback noFallback paddedAdmin "C1"
                (newClass "Otters" at0900) db0 H1 H2 H3 H4)
    as (Hguard & _ & Hscans).
  exact (conj Hguard Hscans).
Defined.

Lemma any_authenticated_user_may_record_a_scan_witness :
  Auth.protect jwt_verify User_findById authorization
  = Auth.authenticated visitor ∧
  accepted (scanOf "C1" "S1") db0 "C1" "S1" (station "Pond" true)
    (newClass "Otters" at0900) ∧
  ClassController.role visitor ≠ "admin" ∧
  Teacher._id (Class.teacher (newClass "Otters" at0900))
  ≠ ClassController.id visitor ∧
  (Routes.post_scans jwt_verify User_findById (λ _, at1000) true authorization
     (scanOf "C1" "S1") db0).2 = db1 ∧
  ∃ msg,
    Routes.get_scans_class jwt_verify User_findById authorization "C1" db0
    = (Routes.handled (ScanQueries.classError msg 403), db0).
Proof.
  assert (Auth.protect jwt_verify User_findById authorization
          = Auth.authenticated visitor) as H1 by (vm_compute; reflexivity).
  assert (accepted (scanOf "C1" "S1") db0 "C1" "S1" (station "Pond" true)
            (newClass "Otters" at0900)) as H2
    by (repeat split; vm_compute; reflexivity).
  assert (ClassController.role visitor ≠ "admin") as H3 by discriminate.
  assert (Teacher._id (Class.teacher (newClass "Otters" at0900))
          ≠ ClassController.id visitor) as H4 by discriminate.
  split; [exact H1|]. split; [exact H2|]. split; [exact H3|].
  split; [exact H4|].
  pose proof (any_authenticated_user_may_record_a_scan
                jwt_verify User_findById (λ _, at1000) true authorization
                visitor (scanOf "C1" "S1") db0 "C1" "S1" (station "Pond" true)
                (newClass "Otters" at0900) H1 H2 H3 H4)
    as (_ & Hstore & _ & Hbefore & _).
  exact (conj Hstore Hbefore).
Defined.

Lemma run_drawing_reads_back_witness :
  let d' := completedDrawing random history 2 twoWinners pendingDrawing raffleDb in
  DrawingController.runDrawing random history "D1" twoWinners raffleDb
  = (DrawingController.json 200 d', Db.Drawing_save "D1" d' raffleDb) ∧
  ∃ data,
    DrawingQueries.getDrawing "D1" (Db.Drawing_save "D1" d' raffleDb)
    = DrawingQueries.json 200 data ∧
    DrawingQueries.status data = Drawing.completed ∧
    DrawingQueries.eligibleClasses data = Drawing.eligibleClasses d'.
Proof.
  intros d'.
  assert (DrawingController.runDrawing random history "D1" twoWinners raffleDb
          = (DrawingController.json 200 d', Db.Drawing_save "D1" d' raffleDb))
    as H1 by (vm_compute; reflexivity).
  split; [exact H1|].
  destruct (run_drawing_reads_back
              random history "D1" twoWinners raffleDb 200 d' _ H1)
    as [(data & Hget & Hstatus & Heligible & _) _].
  exists data. split; [exact Hget|]. exact (conj Hstatus Heligible).
Defined.

(** Fractional factors are rounded as JavaScript rounds them: with the
    factors 0.155 and 0.035 and three stations, all scanned, the number
    rounded is 1.4999999999999998 (the exact sum would be 1.5) and the
    class holds one ticket. *)
Lemma fractional_factors_weigh_as_numbers :
  DrawingController.weightBeforeRounding fractionalDrawing 3 threeScans
  = S754_finite false 6755399441055743 (-52) ∧
  (Number.toQ
     (DrawingController.weightBeforeRounding fractionalDrawing 3 threeScans)
   < 3 # 2)%Q ∧
  DrawingController.ticketWeight fractionalDrawing 3 threeScans = 1%Z.
Proof. split; [|split]; vm_compute; reflexivity. Qed.

Lemma no_query_result_no_eligible_class_witness :
  (∀ cid c, classes coveredDb !! cid = Some c → Class.isActive c = true →
            noScans cid = []) ∧
  Db.Scan_countDocuments coveredDb "C1" = 2 ∧
  Db.Station_countDocuments_active coveredDb = 2 ∧
  (∃ msg code,
     DrawingController.runDrawing random noScans "D1" twoWinners coveredDb
     = (DrawingController.ErrorResponse msg code, coveredDb)) ∧
  DrawingController.runDrawing random noScans "D1" twoWinners coveredDb
  = (DrawingController.ErrorResponse
       "No classes are eligible for the drawing based on current criteria."
       400, coveredDb).
Proof.
  assert (∀ cid c, classes coveredDb !! cid = Some c →
                   Class.isActive c = true → noScans cid = []) as H1
    by (intros; reflexivity).
  split; [exact H1|]. split; [vm_compute; reflexivity|].
  split; [vm_compute; reflexivity|]. split.
  - exact (proj1 (proj2 (no_query_result_no_eligible_class
                           random noScans "D1" twoWinners coveredDb H1))).
  - vm_compute. reflexivity.
Defined.

End MoreWitnesses.
